(** * juicy.py: install / check workflows of the juicity deployment script

    A shallow embedding of [src/juicy/juicy.py] and the properties of its
    port allocator, certificate hooks, download retry, configuration
    records, share link, shell alias and install / check command handlers.

    Conventions of the embedding.
    - A Python [str] is a Rocq [string] holding its UTF-8 bytes.  Character
      classes (whitespace, decimal digits) are the ASCII ones; every byte
      above 127 belongs to a non-ASCII character and is an ordinary letter.
    - A [pathlib.Path] is the list of its components below the root [/].
    - The script talks to the host through the file system, which is part
      of the state, and through sub-processes, sockets, the network and the
      random generator, whose answers are the fields of [Env].
    - Every action of the script on the host is appended to a trace. *)

From Stdlib Require Import ZArith String Ascii List Bool Lia Permutation DecimalString.
From stdpp Require Import gmap strings list fin_maps.

Import ListNotations.
#[local] Set Warnings "-register-all,-abstract-large-number,-clear-no-such-hyp".
Local Open Scope string_scope.
Local Open Scope Z_scope.

(** ** Python strings *)

Module Str.

(** [s.startswith(pre)] *)
Definition startswith (s pre : string) : bool := String.prefix pre s.

(** [needle in hay] *)
Fixpoint contains (needle hay : string) : bool :=
  if String.prefix needle hay then true
  else match hay with
       | EmptyString => false
       | String _ hay' => contains needle hay'
       end.

(** [c.isspace()] on the ASCII range: tab, line feed, vertical tab, form
    feed, carriage return, the four separators 28..31 and the space. *)
Definition isspace (c : ascii) : bool :=
  let n := nat_of_ascii c in
  ((9 <=? n)%nat && (n <=? 13)%nat) || ((28 <=? n)%nat && (n <=? 32)%nat).

Definition cr : ascii := Eval cbv in ascii_of_nat 13.
Definition lf : ascii := Eval cbv in ascii_of_nat 10.

(** What a file opened for reading in text mode, with the default
    [newline=None], does to the line ends: CR LF and a lone CR are read
    as LF. *)
Fixpoint universal_newlines (s : string) : string :=
  match s with
  | EmptyString => EmptyString
  | String c s' =>
      if Ascii.eqb c cr
      then match s' with
           | String c' _ =>
               if Ascii.eqb c' lf then universal_newlines s'
               else String lf (universal_newlines s')
           | EmptyString => String lf EmptyString
           end
      else String c (universal_newlines s')
  end.

Fixpoint lstrip (s : string) : string :=
  match s with
  | EmptyString => EmptyString
  | String c s' => if isspace c then lstrip s' else s
  end.

Fixpoint rstrip (s : string) : string :=
  match s with
  | EmptyString => EmptyString
  | String c s' =>
      match rstrip s' with
      | EmptyString => if isspace c then EmptyString else String c EmptyString
      | r => String c r
      end
  end.

(** [s.strip()] *)
Definition strip (s : string) : string := rstrip (lstrip s).

(** [s.split(sep)] for a one-character separator: the pieces between the
    separators, empty pieces kept. *)
Fixpoint split_on (sep : ascii) (s : string) : list string :=
  match s with
  | EmptyString => [EmptyString]
  | String c s' =>
      if Ascii.eqb c sep then EmptyString :: split_on sep s'
      else match split_on sep s' with
           | [] => [String c EmptyString]
           | w :: ws => String c w :: ws
           end
  end.

(** [s.split()]: the maximal runs of non-whitespace characters. *)
Fixpoint split_ws_aux (cur : string) (s : string) : list string :=
  match s with
  | EmptyString => match cur with EmptyString => [] | _ => [cur] end
  | String c s' =>
      if isspace c
      then match cur with
           | EmptyString => split_ws_aux EmptyString s'
           | _ => cur :: split_ws_aux EmptyString s'
           end
      else split_ws_aux (cur ++ String c EmptyString) s'
  end.

Definition split (s : string) : list string := split_ws_aux EmptyString s.

(** [sep.join(ws)] *)
Fixpoint join (sep : string) (ws : list string) : string :=
  match ws with
  | [] => EmptyString
  | [w] => w
  | w :: ws' => w ++ sep ++ join sep ws'
  end.

(** [s[:n]] *)
Definition take (n : nat) (s : string) : string := String.substring 0 n s.

(** [str(z)] for an [int] *)
Definition of_Z (z : Z) : string := NilZero.string_of_int (Z.to_int z).

(** The scan of [s.replace(old, new)] for a non-empty [old]: the
    occurrences of [old] are taken from the left and do not overlap;
    [skip] characters of the occurrence just replaced are still to pass. *)
Fixpoint replace_from (old new : string) (skip : nat) (s : string) : string :=
  match s with
  | EmptyString => EmptyString
  | String c s' =>
      match skip with
      | S k => replace_from old new k s'
      | O =>
          if String.prefix old (String c s')
          then new ++ replace_from old new (String.length old - 1) s'
          else String c (replace_from old new O s')
      end
  end.

(** What [s.replace("", new)] gives: [new] before every character and at
    the end. *)
Fixpoint intersperse (new s : string) : string :=
  match s with
  | EmptyString => new
  | String c s' => new ++ String c (intersperse new s')
  end.

(** [s.replace(old, new)] *)
Definition replace (old new s : string) : string :=
  match old with
  | EmptyString => intersperse new s
  | _ => replace_from old new 0 s
  end.

Definition isdigit (c : ascii) : bool :=
  let n := nat_of_ascii c in (48 <=? n)%nat && (n <=? 57)%nat.

End Str.

(** ** Python values and exceptions *)

(** The values a JSON document denotes, which are also the values the
    attributes of the configuration records hold at run time (Python checks
    no annotation).  JSON numbers with a fraction or an exponent are outside
    the model.  A [VDict] lists its items in insertion order with distinct
    keys. *)
Inductive value : Type :=
| VNone
| VBool (b : bool)
| VInt (z : Z)
| VStr (s : string)
| VList (l : list value)
| VDict (items : list (string * value)).

Inductive exn : Type :=
| KeyError (key : string)
| TypeError
| AttributeError
| ValueError
| JSONDecodeError
| FileExistsError
| FileNotFoundError
| NotADirectoryError
| IsADirectoryError
| URLError
| BadZipFile
| UnicodeError
| RecursionError.

(** A computation that returns or raises. *)
Inductive result (A : Type) : Type :=
| Ok (a : A)
| Raise (e : exn).
Arguments Ok {A} a.
Arguments Raise {A} e.

Definition rbind {A B} (r : result A) (k : A -> result B) : result B :=
  match r with
  | Ok a => k a
  | Raise e => Raise e
  end.

Declare Scope result_scope.
Delimit Scope result_scope with result.
Notation "'let?' x ':=' r 'in' k" := (rbind r (fun x => k))
  (at level 10, x name, r at level 100, k at level 200) : result_scope.

Fixpoint rmap {A B} (f : A -> result B) (l : list A) : result (list B) :=
  match l with
  | [] => Ok []
  | a :: l' => (let? b := f a in let? bs := rmap f l' in Ok (b :: bs))%result
  end.

Module Py.

Definition dquote : ascii := Eval cbv in ascii_of_nat 34.
Definition squote : ascii := Eval cbv in ascii_of_nat 39.
Definition backslash : ascii := Eval cbv in ascii_of_nat 92.

(** [bool(v)] *)
Definition truthy (v : value) : bool :=
  match v with
  | VNone => false
  | VBool b => b
  | VInt z => negb (z =? 0)
  | VStr s => negb (String.eqb s "")
  | VList l => match l with [] => false | _ => true end
  | VDict items => match items with [] => false | _ => true end
  end.

Definition hexdigit (n : nat) : ascii :=
  if (n <? 10)%nat then ascii_of_nat (48 + n) else ascii_of_nat (87 + n).

Definition repr_char (quote c : ascii) : string :=
  let n := nat_of_ascii c in
  if Ascii.eqb c backslash || Ascii.eqb c quote then String backslash (String c "")
  else if (n =? 9)%nat then String backslash "t"
  else if (n =? 10)%nat then String backslash "n"
  else if (n =? 13)%nat then String backslash "r"
  else if (n <? 32)%nat || (n =? 127)%nat
       then String backslash (String "x" (String (hexdigit (n / 16)) (String (hexdigit (n mod 16)) "")))
  else String c "".

Fixpoint repr_chars (quote : ascii) (s : string) : string :=
  match s with
  | EmptyString => EmptyString
  | String c s' => repr_char quote c ++ repr_chars quote s'
  end.

(** [repr(s)] for a [str]: single quotes, unless the text holds a single
    quote and no double quote. *)
Definition repr_str (s : string) : string :=
  let quote :=
    if Str.contains (String squote "") s && negb (Str.contains (String dquote "") s)
    then dquote else squote in
  String quote (repr_chars quote s ++ String quote "").

(** [repr(v)] *)
Fixpoint repr (v : value) : string :=
  match v with
  | VNone => "None"
  | VBool true => "True"
  | VBool false => "False"
  | VInt z => Str.of_Z z
  | VStr s => repr_str s
  | VList l => "[" ++ Str.join ", " (map repr l) ++ "]"
  | VDict items =>
      "{" ++ Str.join ", "
               ((fix go (kvs : list (string * value)) : list string :=
                   match kvs with
                   | [] => []
                   | (k, x) :: kvs' => (repr_str k ++ ": " ++ repr x) :: go kvs'
                   end) items) ++ "}"
  end.

(** [str(v)], which is what an f-string field [{v}] renders *)
Definition str (v : value) : string :=
  match v with
  | VStr s => s
  | _ => repr v
  end.

(** The digits of an integer literal given to [int()]: decimal digits,
    single underscores allowed between two digits. *)
Fixpoint int_digits (acc : Z) (prev_digit : bool) (s : string) : option Z :=
  match s with
  | EmptyString => if prev_digit then Some acc else None
  | String c s' =>
      if Str.isdigit c
      then int_digits (10 * acc + Z.of_nat (nat_of_ascii c - 48)) true s'
      else if Ascii.eqb c "_" && prev_digit then int_digits acc false s'
      else None
  end.

Definition int_of_str (s : string) : option Z :=
  match Str.strip s with
  | String "-" body => option_map Z.opp (int_digits 0 false body)
  | String "+" body => int_digits 0 false body
  | body => int_digits 0 false body
  end.

(** [int(v)] *)
Definition int (v : value) : result Z :=
  match v with
  | VBool b => Ok (if b then 1 else 0)
  | VInt z => Ok z
  | VStr s => match int_of_str s with Some z => Ok z | None => Raise ValueError end
  | VNone | VList _ | VDict _ => Raise TypeError
  end.

(** [d[key]] for a [dict] with string keys *)
Fixpoint dict_get (items : list (string * value)) (key : string) : option value :=
  match items with
  | [] => None
  | (k, v) :: items' => if String.eqb k key then Some v else dict_get items' key
  end.

(** [data[key]] for a string [key]: a mapping answers or raises
    [KeyError]; a string or a list wants an integer index; the other
    values cannot be subscripted. *)
Definition subscript (data : value) (key : string) : result value :=
  match data with
  | VDict items =>
      match dict_get items key with
      | Some v => Ok v
      | None => Raise (KeyError key)
      end
  | _ => Raise TypeError
  end.

(** [list(range(a, b))] *)
Definition range (a b : Z) : list Z :=
  map (fun i => a + Z.of_nat i) (seq 0 (Z.to_nat (b - a))).

End Py.

(** ** Paths and the file system *)

Abbreviation path := (list string) (only parsing).

Module Path.

(** [Path(s)] for an absolute [s]: the components between the slashes;
    empty components and single dots are dropped, as pathlib does. *)
Definition of_str (s : string) : path :=
  List.filter (fun c => negb (String.eqb c "" || String.eqb c "."))
              (Str.split_on "/" s).

(** [p.joinpath(s)]: an absolute [s] replaces [p]. *)
Definition joinpath (p : path) (s : string) : path :=
  if Str.startswith s "/" then of_str s else (p ++ of_str s)%list.

(** [str(p)] *)
Definition to_str (p : path) : string := "/" ++ Str.join "/" p.

(** [p.parent] *)
Definition parent (p : path) : path := removelast p.

End Path.

(** Regular files with their text, and directories.  The root directory
    [[]] always exists. *)
Record FS : Type := mkFS {
  files : gmap (list string) string;
  dirs : gset (list string)
}.

Module Fs.

Definition is_file (fs : FS) (p : path) : bool :=
  bool_decide (is_Some (files fs !! p)).

Definition is_dir (fs : FS) (p : path) : bool :=
  bool_decide (p = [] ∨ p ∈ dirs fs).

(** [p.exists()] *)
Definition exists_ (fs : FS) (p : path) : bool := is_file fs p || is_dir fs p.

(** [p.read_text()] *)
Definition read_text (fs : FS) (p : path) : result string :=
  match files fs !! p with
  | Some text => Ok text
  | None => if is_dir fs p then Raise IsADirectoryError else Raise FileNotFoundError
  end.

(** What opening [p] for writing or appending checks. *)
Definition writable (fs : FS) (p : path) : result unit :=
  if is_dir fs p then Raise IsADirectoryError
  else if is_file fs (Path.parent p) then Raise NotADirectoryError
  else if is_dir fs (Path.parent p) then Ok tt
  else Raise FileNotFoundError.

(** [p.write_text(text)] *)
Definition write_text (fs : FS) (p : path) (text : string) : result FS :=
  (let? _ := writable fs p in
   Ok (mkFS (<[p := text]> (files fs)) (dirs fs)))%result.

(** [open(p, "a").write(text)] *)
Definition append_text (fs : FS) (p : path) (text : string) : result FS :=
  (let? _ := writable fs p in
   Ok (mkFS (<[p := default "" (files fs !! p) ++ text]> (files fs)) (dirs fs)))%result.

(** The creation of the directories [pre ++ c1], [pre ++ c1 ++ c2], ... *)
Fixpoint makedirs_from (fs : FS) (pre : path) (rest : path) : result FS :=
  match rest with
  | [] => Ok fs
  | c :: rest' =>
      let q := (pre ++ [c])%list in
      if is_dir fs q then makedirs_from fs q rest'
      else if is_file fs q
           then Raise (match rest' with [] => FileExistsError | _ => NotADirectoryError end)
           else makedirs_from (mkFS (files fs) ({[q]} ∪ dirs fs)) q rest'
  end.

(** [os.makedirs(p, exist_ok=True)] *)
Definition makedirs (fs : FS) (p : path) : result FS := makedirs_from fs [] p.

(** [os.listdir(p)]: the names of the entries directly below [p], in the
    order the host lists them. *)
Definition listdir (fs : FS) (p : path) : result (list string) :=
  if is_file fs p then Raise NotADirectoryError
  else if is_dir fs p
       then Ok (omap (fun q : list string =>
                        if bool_decide (removelast q = p) then last q else None)
                     (elements (dom (files fs) ∪ dirs fs)))
       else Raise FileNotFoundError.

(** [shutil.rmtree(p, ignore_errors=True)]: the directory and everything
    below it goes; anything else is left alone. *)
Definition rmtree (fs : FS) (p : path) : FS :=
  if bool_decide (p ∈ dirs fs)
  then mkFS (filter (fun kv => ¬ p `prefix_of` kv.1) (files fs))
            (filter (fun q => ¬ p `prefix_of` q) (dirs fs))
  else fs.

End Fs.

(** ** The host: actions, answers, state *)

Inductive level : Type := INFO | WARNING | ERROR.

Inductive proto : Type := tcp | udp.

(** What the script does to the host, in the order it does it. *)
Inductive event : Type :=
| Log (lv : level) (msg : string)                   (* logging.info / warning / error *)
| Stdout (text : string)                            (* print *)
| Input (prompt : string)                           (* input *)
| System (cmd : string)                             (* os.system *)
| Popen (argv : list string)                        (* subprocess.Popen, subprocess.run *)
| Makedirs (p : list string)                        (* os.makedirs *)
| WriteText (p : list string) (text : string)       (* Path.write_text *)
| AppendText (p : list string) (text : string)      (* open(p, "a").write *)
| Rmtree (p : list string)                          (* shutil.rmtree *)
| Urlretrieve (url : string) (dest : string)        (* urllib.request.urlretrieve *)
| Extractall (zip : list string) (dest : list string)  (* ZipFile.extractall *)
| Sleep                                             (* time.sleep(0.5) *)
| Execl (prog : string) (argv : list string).       (* os.execl *)

(** How one download attempt ends: the [try] block of [download_server]
    runs [urlretrieve] and then [extractall]. *)
Inductive fetch : Type :=
| Fetched              (* both succeed *)
| RetrieveOSError      (* urlretrieve raises an OSError *)
| ExtractOSError       (* extractall raises an OSError *)
| ExtractBadZip.       (* ZipFile raises BadZipFile, which is no OSError *)

(** Everything the script does not define itself: the JSON codec of the
    standard library and the answers of the host. *)
Record Env : Type := mkEnv {
  json_dumps : value -> string;             (* json.dumps(v, indent=4, ensure_ascii=True) *)
  json_loads : string -> option value;      (* json.loads; None is JSONDecodeError *)
  home : list string;                       (* os.path.expanduser("~") *)
  shell : option string;                    (* os.environ["SHELL"] *)
  stdin_line : string;                      (* what input() reads *)
  getaddrinfo : string -> option string;    (* socket.getaddrinfo(d, None)[-1][4][0]; None is gaierror *)
  getaddrinfo_raises : string -> option exn;
                                            (* what socket.getaddrinfo raises that is no gaierror:
                                               UnicodeError for a name with an empty or over-long label *)
  ifconfig_me : option string;              (* body of http://ifconfig.me/ip; None is URLError *)
  bind_fails : Z -> proto -> bool;          (* bind(("127.0.0.1", port)) raises socket.error *)
  shuffle : list Z -> list Z;               (* random.shuffle *)
  on_path : string -> bool;                 (* the program of a sub-process is found *)
  stdout_of : list string -> string;        (* what a sub-process writes to stdout *)
  stderr_of : list string -> string;        (* what a sub-process writes to stderr *)
  uuid4 : string;                           (* str(uuid4()) *)
  token_hex : string;                       (* secrets.token_hex() *)
  fetch_nth : nat -> fetch;                 (* how the n-th download attempt ends *)
  recursion_limit : nat;                    (* nested calls of download_server the
                                               interpreter has frames left for *)
  host_effect : event -> FS -> FS           (* what a sub-process or a download leaves on disk *)
}.

Record State : Type := mkState {
  fs : FS;
  trace : list event;
  fetches : nat            (* download attempts made so far *)
}.

(** How a run of the script can stop early. *)
Inductive halt : Type :=
| SysExit                  (* sys.exit() *)
| Uncaught (e : exn)       (* an exception nobody catches *)
| Replaced.                (* os.execl replaced the process *)

Inductive outcome (A : Type) : Type :=
| Done (a : A)
| Halt (h : halt).
Arguments Done {A} a.
Arguments Halt {A} h.

(** The monad of the script: state passing with early stop. *)
Definition M (A : Type) : Type := State -> outcome A * State.

Definition ret {A} (a : A) : M A := fun st => (Done a, st).

Definition bind {A B} (m : M A) (k : A -> M B) : M B :=
  fun st =>
    match m st with
    | (Done a, st') => k a st'
    | (Halt h, st') => (Halt h, st')
    end.

Declare Scope M_scope.
Delimit Scope M_scope with M.
Notation "'let*' x ':=' m 'in' k" := (bind m (fun x => k))
  (at level 10, x name, m at level 100, k at level 200) : M_scope.
Notation "'let*' '(' x ',' y ')' ':=' m 'in' k" := (bind m (fun xy => let '(x, y) := xy in k))
  (at level 10, x name, y name, m at level 100, k at level 200) : M_scope.
Notation "m '>>' k" := (bind m (fun _ => k))
  (at level 90, right associativity) : M_scope.

Definition stop {A} (h : halt) : M A := fun st => (Halt h, st).

(** [sys.exit()] *)
Definition sys_exit {A} : M A := stop SysExit.

Definition raise {A} (e : exn) : M A := stop (Uncaught e).

Definition lift {A} (r : result A) : M A :=
  match r with
  | Ok a => ret a
  | Raise e => raise e
  end.

Definition emit (e : event) : M unit :=
  fun st => (Done tt, mkState (fs st) (trace st ++ [e])%list (fetches st)).

(** An action whose effect on the disk belongs to the host. *)
Definition host (env : Env) (e : event) : M unit :=
  fun st => (Done tt, mkState (host_effect env e (fs st)) (trace st ++ [e])%list (fetches st)).

Definition get_fs : M FS := fun st => (Done (fs st), st).

Definition put_fs (f : FS) : M unit :=
  fun st => (Done tt, mkState f (trace st) (fetches st)).

Module Logging.
Definition info (msg : string) : M unit := emit (Log INFO msg).
Definition warning (msg : string) : M unit := emit (Log WARNING msg).
Definition error (msg : string) : M unit := emit (Log ERROR msg).
End Logging.

(** [print(text)] *)
Definition print (text : string) : M unit := emit (Stdout text).

Module Os.

(** [os.system(cmd)] *)
Definition system (env : Env) (cmd : string) : M unit := host env (System cmd).

(** [os.makedirs(p, exist_ok=True)] *)
Definition makedirs (p : path) : M unit :=
  (emit (Makedirs p) >>
   let* f := get_fs in
   let* f' := lift (Fs.makedirs f p) in
   put_fs f')%M.

(** [os.listdir(p)] *)
Definition listdir (p : path) : M (list string) :=
  (let* f := get_fs in lift (Fs.listdir f p))%M.

End Os.

Module PathIO.

(** [p.exists()] *)
Definition exists_ (p : path) : M bool :=
  (let* f := get_fs in ret (Fs.exists_ f p))%M.

(** [p.is_dir()] *)
Definition is_dir (p : path) : M bool :=
  (let* f := get_fs in ret (Fs.is_dir f p))%M.

(** [p.read_text(encoding="utf8")] *)
Definition read_text (p : path) : M string :=
  (let* f := get_fs in lift (Fs.read_text f p))%M.

(** [p.write_text(text)] *)
Definition write_text (p : path) (text : string) : M unit :=
  (emit (WriteText p text) >>
   let* f := get_fs in
   let* f' := lift (Fs.write_text f p text) in
   put_fs f')%M.

(** [with open(p, "a", encoding="utf8") as file: file.write(text)] *)
Definition append_text (p : path) (text : string) : M unit :=
  (emit (AppendText p text) >>
   let* f := get_fs in
   let* f' := lift (Fs.append_text f p text) in
   put_fs f')%M.

End PathIO.

(** [shutil.rmtree(p, ignore_errors=True)] *)
Definition rmtree (p : path) : M unit :=
  (emit (Rmtree p) >>
   let* f := get_fs in
   put_fs (Fs.rmtree f p))%M.

(** ** The script *)

Definition LF : string := Eval cbv in String (ascii_of_nat 10) "".
Definition CR : string := Eval cbv in String (ascii_of_nat 13) "".
Definition ESC : string := Eval cbv in String (ascii_of_nat 27) "".

Definition URL : string :=
  "https://github.com/juicity/juicity/releases/download/v0.1.0/juicity-linux-x86_64.zip".

(** [TEMPLATE_SERVICE.format(exec_start=..., working_directory=...)] *)
Definition TEMPLATE_SERVICE (exec_start working_directory : string) : string :=
  LF ++
  "[Unit]" ++ LF ++
  "Description=juicity-server Service" ++ LF ++
  "Documentation=https://github.com/juicity/juicity" ++ LF ++
  "After=network.target nss-lookup.target" ++ LF ++
  LF ++
  "[Service]" ++ LF ++
  "Type=simple" ++ LF ++
  "User=root" ++ LF ++
  "ExecStart=" ++ exec_start ++ LF ++
  "Restart=on-failure" ++ LF ++
  "LimitNPROC=512" ++ LF ++
  "LimitNOFILE=infinity" ++ LF ++
  "WorkingDirectory=" ++ working_directory ++ LF ++
  LF ++
  "[Install]" ++ LF ++
  "WantedBy=multi-user.target" ++ LF.

(** *** class Project *)

Module Project.

Definition workstation : path := Path.of_str "/home/juicity".
Definition executable : path := Path.joinpath workstation "juicity-server".
Definition server_config : path := Path.joinpath workstation "server.json".
Definition client_nekoray_config : path := Path.joinpath workstation "nekoray_config.json".
Definition sharelink : path := Path.joinpath workstation "sharelink.txt".
Definition service : path := Path.of_str "/etc/systemd/system/juicity.service".

Definition root (env : Env) : path := home env.
Definition path_bash_aliases (env : Env) : path := Path.joinpath (root env) ".bashrc".
Definition _remote_command : string := "python3 <(curl -fsSL https://ros.services/juicy.py)".
Definition _alias : string := "juicy".

(** The attributes an instance can overwrite. *)
Record t : Type := mk {
  _server_ip : string;
  _server_port : Z
}.

Definition __post_init__ : M unit := Os.makedirs workstation.

(** [Project()] *)
Definition new : M t :=
  (__post_init__ >> ret (mk "" (-1)))%M.

(** [is_port_in_used(_port, proto)]: [False] when the throw-away socket
    binds, [True] when the suppressed [socket.error] skips the [return]. *)
Definition is_port_in_used (env : Env) (_port : Z) (pr : proto) : bool :=
  if bind_fails env _port pr then true else false.

(** the setter of [server_ip] *)
Definition set_server_ip (self : t) (ip : string) : t := mk ip (_server_port self).

(** The [for p in rand_ports] loop of [server_port], left by [break]. *)
Fixpoint probe (env : Env) (self : t) (rand_ports : list Z) : M t :=
  match rand_ports with
  | [] => ret self
  | p :: rest =>
      if negb (is_port_in_used env p udp)
      then (Logging.info ("正在初始化监听端口 - port=" ++ Str.of_Z p) >>
            ret (mk (_server_ip self) p))%M
      else probe env self rest
  end.

(** the property [server_port]: the port and the instance afterwards *)
Definition server_port (env : Env) (self : t) : M (Z * t) :=
  (let* self' :=
     if _server_port self <? 0
     then probe env self (shuffle env (Py.range 41670 46990))
     else ret self in
   ret (_server_port self', self'))%M.

(** the property [alias] *)
Definition alias : string := "alias " ++ _alias ++ "='" ++ _remote_command ++ "'".

(** The candidates [set_alias] looks for in the rc file. *)
Definition alias_checks : list string :=
  [LF ++ alias ++ LF; LF ++ alias; alias ++ LF; alias].

Definition set_alias (env : Env) : M unit :=
  (let* ex := PathIO.exists_ (path_bash_aliases env) in
   let* found :=
     if ex
     then let* pre_text := PathIO.read_text (path_bash_aliases env) in
          ret (existsb (fun ck => Str.contains ck pre_text) alias_checks)
     else ret false in
   if found then ret tt
   else PathIO.append_text (path_bash_aliases env) (LF ++ alias ++ LF) >>
        Logging.info ("✅ 现在你可以通过别名唤起脚本 - alias=" ++ _alias))%M.

(** The [for ck in ...] loop of [remove_alias] on the text of one file. *)
Definition without_alias (text : string) : string :=
  fold_left (fun text ck => Str.replace ck "" text) alias_checks text.

(** The [for hp in histories] loop of [remove_alias].  The text is what
    [read_text] makes of the file in text mode, with CR LF and CR read as
    LF, and it is written back with these line ends. *)
Fixpoint remove_alias_from (histories : list path) : M unit :=
  match histories with
  | [] => ret tt
  | hp :: rest =>
      (let* ex := PathIO.exists_ hp in
       (if negb ex then ret tt
        else let* text := PathIO.read_text hp in
             let text := Str.universal_newlines text in
             PathIO.write_text hp (without_alias text)) >>
       remove_alias_from rest)%M
  end.

Definition remove_alias (env : Env) : M unit :=
  remove_alias_from [Path.joinpath (root env) ".bash_aliases"; path_bash_aliases env].

(** [reset_shell()] *)
Definition reset_shell {A} (env : Env) : M A :=
  match shell env with
  | None => raise (KeyError "SHELL")
  | Some sh => (emit (Execl sh ["bash"; "-l"]) >> stop Replaced)%M
  end.

(** the property [systemd_template] *)
Definition systemd_template : string :=
  TEMPLATE_SERVICE
    (Path.to_str executable ++ " run -c " ++ Path.to_str server_config)
    (Path.to_str workstation).

End Project.

(** *** class Certificate *)

Module Certificate.

Record t : Type := mk { domain : string }.

Definition fullchain (self : t) : string :=
  "/etc/letsencrypt/live/" ++ domain self ++ "/fullchain.pem".

Definition privkey (self : t) : string :=
  "/etc/letsencrypt/live/" ++ domain self ++ "/privkey.pem".

End Certificate.

(** [subprocess.Popen(argv, ...)] followed by reading one of its pipes:
    [FileNotFoundError] when the executable is missing. *)
Definition popen (env : Env) (argv : list string) : M unit :=
  if on_path env (hd "" argv) then host env (Popen argv) else raise FileNotFoundError.

(** *** class CertBot *)

Module CertBot.

Record t : Type := mk {
  _domain : string;
  _should_revive_port_80 : bool;
  _is_success : bool
}.

(** [CertBot(domain)] *)
Definition new (domain : string) : t := mk domain false true.

(** The [for k in os.listdir(p)] loop of the pre-hook. *)
Fixpoint remove_stale (self : t) (p : path) (ks : list string) : M unit :=
  match ks with
  | [] => ret tt
  | k :: ks' =>
      let k_full := Path.joinpath p k in
      (let* canonical := PathIO.exists_ (Path.joinpath p (_domain self)) in
       let* k_is_dir := PathIO.is_dir k_full in
       (if negb canonical && Str.startswith k (_domain self ++ "-") && k_is_dir
        then rmtree k_full
        else ret tt) >>
       remove_stale self p ks')%M
  end.

Definition _cert_pre_hook (env : Env) (self : t) : M t :=
  (let p := Path.of_str "/etc/letsencrypt/live/" in
   let* p_exists := PathIO.exists_ p in
   (if p_exists
    then Logging.info "移除證書殘影..." >>
         let* ks := Os.listdir p in
         remove_stale self p ks
    else ret tt) >>
   Logging.info "正在为解析到本机的域名申请免费证书" >>
   Logging.info "正在更新包索引" >>
   Os.system env "apt update -y > /dev/null 2>&1 " >>
   Logging.info "安装 certbot" >>
   Os.system env "apt install certbot -y > /dev/null 2>&1" >>
   Logging.info "检查 80 端口占用" >>
   if Project.is_port_in_used env 80 tcp
   then Os.system env "systemctl stop nginx > /dev/null 2>&1 && nginx -s stop > /dev/null 2>&1" >>
        Os.system env "kill $(lsof -t -i:80)  > /dev/null 2>&1" >>
        ret (mk (_domain self) true (_is_success self))
   else ret self)%M.

Definition _cert_post_hook (env : Env) (self : t) : M t :=
  (let* self :=
     if _should_revive_port_80 self
     then Os.system env "systemctl restart nginx > /dev/null 2>&1" >>
          ret (mk (_domain self) false (_is_success self))
     else ret self in
   (if negb (_is_success self) then sys_exit else ret tt) >>
   Logging.info "运行证书续订服务 - service=certbot.timer" >>
   Os.system env "systemctl daemon-reload && systemctl enable --now certbot.timer" >>
   ret self)%M.

(** The quota phrase of the certificate authority. *)
Definition quota_phrase : string := "168 hours".

Definition rate_limit_warning : string :=
  LF ++
  "                一个域名每168小时只能申请5次免费证书，" ++ LF ++
  "                你可以为当前主机创建一条新的域名A纪录来解决这个问题。" ++ LF ++
  "                在解决这个问题之前你没有必要进入到后续的安装步骤。" ++ LF ++
  "                ".

(** [cmd.format(domain=...)] *)
Definition cmd (domain : string) : string :=
  "certbot certonly " ++
  "--standalone " ++
  "--register-unsafely-without-email " ++
  "--agree-tos " ++
  "--keep " ++
  "--non-interactive " ++
  "-d " ++ domain.

Definition _run (env : Env) (self : t) : M t :=
  (Logging.info "开始申请证书" >>
   let argv := Str.split (cmd (_domain self)) in
   popen env argv >>
   let output := Str.strip (stderr_of env argv) in
   if negb (String.eqb output "") && Str.contains quota_phrase output
   then Logging.warning rate_limit_warning >>
        ret (mk (_domain self) (_should_revive_port_80 self) false)
   else ret self)%M.

Definition run (env : Env) (self : t) : M t :=
  (let* self := _cert_pre_hook env self in
   let* self := _run env self in
   _cert_post_hook env self)%M.

End CertBot.

(** *** class Service *)

Module Service.

Record t : Type := mk {
  path : list string;
  name : string
}.

(** [build_from_template(path, template)]; [template] is empty when the
    caller gives none. *)
Definition build_from_template (env : Env) (path : list string) (template : string) : M t :=
  ((if negb (String.eqb template "")
    then PathIO.write_text path template >>
         Os.system env "systemctl daemon-reload"
    else ret tt) >>
   ret (mk path "juicity"))%M.

Definition start (env : Env) (self : t) : M unit :=
  (Os.system env ("systemctl enable --now " ++ name self) >>
   Logging.info "系统服务已启动" >>
   Logging.info "已设置服务开机自启")%M.

Definition stop (env : Env) (self : t) : M unit :=
  (Logging.info "停止系统服务" >>
   Os.system env ("systemctl stop " ++ name self))%M.

Definition restart (env : Env) (self : t) : M unit :=
  (Logging.info "重启系统服务" >>
   Os.system env ("systemctl daemon-reload && systemctl restart " ++ name self))%M.

(** The number of the download attempt that starts now. *)
Definition next_fetch : M nat :=
  fun st => (Done (fetches st), mkState (fs st) (trace st) (S (fetches st))).

(** [download_server(workstation)].  Each [OSError] re-enters the
    function from its own [except] block.  [depth] is the number of nested
    calls of the function the interpreter still has frames for; in the
    deepest of them it has none left for [stop], which is called from the
    [except] block and logs before it runs its command: there
    [RecursionError] is raised before the service is stopped. *)
Fixpoint download_server (env : Env) (depth : nat) (self : t) (workstation : list string)
  : M unit :=
  match depth with
  | O => raise RecursionError
  | S depth' =>
      let zip_path := Path.joinpath workstation (List.last (Str.split_on "/" URL) "") in
      let ex_path := Path.joinpath workstation "juicity-server" in
      let on_oserror :=
        (Logging.info "服务正忙，尝试停止任务..." >>
         match depth' with
         | O => raise RecursionError
         | S _ =>
             stop env self >>
             emit Sleep >>
             download_server env depth' self workstation
         end)%M in
      (let* n := next_fetch in
       host env (Urlretrieve URL (Path.to_str zip_path)) >>
       match fetch_nth env n with
       | RetrieveOSError => on_oserror
       | outcome =>
           Logging.info ("下载完毕 - zip_path=" ++ Path.to_str zip_path) >>
           host env (Extractall zip_path workstation) >>
           match outcome with
           | ExtractOSError => on_oserror
           | ExtractBadZip => raise BadZipFile
           | _ =>
               Os.system env ("chmod +x " ++ Path.to_str ex_path) >>
               Logging.info ("授予执行权限 - ex_path=" ++ Path.to_str ex_path)
           end
       end)%M
  end.

(** [status()]: the answer is [True] or [None]. *)
Definition status (env : Env) (self : t) : M (value * string) :=
  (let argv := Str.split ("systemctl is-active " ++ name self) in
   popen env argv >>
   let text := Str.strip (stdout_of env argv) in
   if String.eqb text "inactive" then ret (VNone, ESC ++ "[91m" ++ text ++ ESC ++ "[0m")
   else if String.eqb text "active" then ret (VBool true, ESC ++ "[32m" ++ text ++ ESC ++ "[0m")
   else ret (VNone, text))%M.

End Service.

(** *** Runtime settings: dataclasses built from a dict *)

(** The default of a parameter of a generated [__init__] as
    [inspect.signature] shows it. *)
Inductive default_ : Type :=
| Empty                      (* Parameter.empty: no default *)
| Default (v : value)
| DefaultFactory.            (* the sentinel of field(default_factory=...) *)

(** What a keyword argument of the generated [__init__] can be. *)
Inductive arg : Type :=
| Arg (v : value)
| HasDefaultFactory.

(** A dataclass as [from_dict_to_cls] sees it: the parameters of its
    signature in order, and its constructor applied to one argument per
    parameter. *)
Record dataclass (T : Type) : Type := mkDataclass {
  parameters : list (string * default_);
  construct : list arg -> result T
}.
Arguments parameters {T} _.
Arguments construct {T} _ _.

(** [data.get(key, d)] *)
Definition dict_get_default (data : value) (key : string) (d : arg) : result arg :=
  match data with
  | VDict items =>
      Ok (match Py.dict_get items key with Some v => Arg v | None => d end)
  | _ => Raise AttributeError
  end.

Definition from_dict_to_cls {T} (cls : dataclass T) (data : value) : result T :=
  (let? kwargs :=
     rmap (fun kv : string * default_ =>
             let (key, val) := kv in
             match val with
             | Empty => let? v := Py.subscript data key in Ok (Arg v)
             | Default v => dict_get_default data key (Arg v)
             | DefaultFactory => dict_get_default data key HasDefaultFactory
             end)
          (parameters cls) in
   construct cls kwargs)%result.

(** *** class User *)

Module User.

Record t : Type := mk {
  username : string;
  password : string
}.

(** [User.gen()] *)
Definition gen (env : Env) : t := mk (uuid4 env) (Str.take 16 (token_hex env)).

End User.

(** *** class ServerConfig *)

Module ServerConfig.

Record t : Type := mk {
  listen : value;
  certificate : value;
  private_key : value;
  users : value;
  congestion_control : value;
  log_level : value
}.

Definition __post_init__ (self : t) : result t :=
  let users' := if Py.truthy (users self) then users self else VDict [] in
  let listen1 :=
    match listen self with
    | VInt _ | VBool _ => VStr (Py.str (listen self))     (* isinstance(listen, int) *)
    | l => l
    end in
  match listen1 with
  | VStr s =>
      let listen2 := if negb (Str.startswith s ":") then VStr (":" ++ s) else VStr s in
      Ok (mk listen2 (certificate self) (private_key self) users'
             (congestion_control self) (log_level self))
  | _ => Raise AttributeError
  end.

(** The generated [__init__], which ends with [__post_init__]. *)
Definition __init__ (listen certificate private_key : value) (users : arg)
           (congestion_control log_level : value) : result t :=
  __post_init__
    (mk listen certificate private_key
        (match users with Arg v => v | HasDefaultFactory => VDict [] end)
        congestion_control log_level).

Definition cls : dataclass t :=
  mkDataclass t
    [("listen", Empty); ("certificate", Empty); ("private_key", Empty);
     ("users", DefaultFactory); ("congestion_control", Default (VStr "bbr"));
     ("log_level", Default (VStr "info"))]
    (fun kwargs =>
       match kwargs with
       | [Arg l; Arg c; Arg k; u; Arg cc; Arg ll] => __init__ l c k u cc ll
       | _ => Raise TypeError
       end).

(** [d[k] = v] *)
Fixpoint dict_set (items : list (string * value)) (k : string) (v : value)
  : list (string * value) :=
  match items with
  | [] => [(k, v)]
  | (k', v') :: items' =>
      if String.eqb k' k then (k', v) :: items' else (k', v') :: dict_set items' k v
  end.

(** [from_automation(users, path_fullchain, path_privkey, server_port)];
    [users] is one user ([inl]) or a list of users ([inr]). *)
Definition from_automation (users : User.t + list User.t)
           (path_fullchain path_privkey : string) (server_port : Z) : result t :=
  let users := match users with inl u => [u] | inr us => us end in
  let users :=
    fold_left (fun d u => dict_set d (User.username u) (VStr (User.password u))) users [] in
  __init__ (VInt server_port) (VStr path_fullchain) (VStr path_privkey) (Arg (VDict users))
           (VStr "bbr") (VStr "info").

(** [self.__dict__] *)
Definition __dict__ (self : t) : value :=
  VDict [("listen", listen self); ("certificate", certificate self);
         ("private_key", private_key self); ("users", users self);
         ("congestion_control", congestion_control self); ("log_level", log_level self)].

Definition to_json (env : Env) (self : t) (sp : list string) : M unit :=
  (PathIO.write_text sp (json_dumps env (__dict__ self)) >>
   Logging.info ("保存服务端配置文件 - save_path=" ++ Path.to_str sp))%M.

End ServerConfig.

(** *** class NekoRayConfig *)

Module NekoRayConfig.

Record t : Type := mk {
  server : value;
  listen : value;
  uuid : value;
  password : value;
  sni : value;
  allow_insecure : value;
  congestion_control : value;
  log_level : value
}.

Definition cls : dataclass t :=
  mkDataclass t
    [("server", Empty); ("listen", Empty); ("uuid", Empty); ("password", Empty);
     ("sni", Default VNone); ("allow_insecure", Default (VBool false));
     ("congestion_control", Default (VStr "bbr")); ("log_level", Default (VStr "info"))]
    (fun kwargs =>
       match kwargs with
       | [Arg s; Arg l; Arg u; Arg p; Arg n; Arg a; Arg cc; Arg ll] =>
           Ok (mk s l u p n a cc ll)
       | _ => Raise TypeError
       end).

Definition from_server (user : User.t) (server_config : ServerConfig.t)
           (server_addr : string) (server_port : Z) (server_ip : string) : t :=
  mk (VStr (server_ip ++ ":" ++ Str.of_Z server_port))
     (VStr "127.0.0.1:%socks_port%")
     (VStr (User.username user))
     (VStr (User.password user))
     (VStr server_addr)
     (VBool false)
     (ServerConfig.congestion_control server_config)
     (VStr "info").

Definition from_json (env : Env) (sp : list string) : M t :=
  (let* text := PathIO.read_text sp in
   let* data :=
     match json_loads env text with
     | Some data => ret data
     | None => raise JSONDecodeError
     end in
   lift (from_dict_to_cls cls data))%M.

(** [self.__dict__] *)
Definition __dict__ (self : t) : value :=
  VDict [("server", server self); ("listen", listen self); ("uuid", uuid self);
         ("password", password self); ("sni", sni self);
         ("allow_insecure", allow_insecure self);
         ("congestion_control", congestion_control self); ("log_level", log_level self)].

Definition to_json (env : Env) (self : t) (sp : list string) : M unit :=
  PathIO.write_text sp (json_dumps env (__dict__ self)).

(** the property [showcase] *)
Definition showcase (env : Env) (self : t) : string := json_dumps env (__dict__ self).

(** the property [sharelink] *)
Definition sharelink (self : t) : result string :=
  (let? insecure := Py.int (allow_insecure self) in
   let sl :=
     "juicity://" ++ Py.str (uuid self) ++ ":" ++ Py.str (password self) ++
     "@" ++ Py.str (server self) ++
     "?congestion_control=" ++ Py.str (congestion_control self) ++
     "&allow_insecure=" ++ Str.of_Z insecure in
   Ok (if Py.truthy (sni self) then sl ++ "&sni=" ++ Py.str (sni self) else sl))%result.

(** the property [serv_peer] *)
Definition serv_peer (self : t) : result (string * string) :=
  match server self with
  | VStr s =>
      match Str.split_on ":" s with
      | [serv_addr; serv_port] => Ok (serv_addr, serv_port)
      | _ => Raise ValueError
      end
  | _ => Raise AttributeError
  end.

End NekoRayConfig.

(** *** The console templates *)

(** [TEMPLATE_PRINT_NEKORAY.format(server_addr=..., listen_port=..., nekoray_config=...)] *)
Definition TEMPLATE_PRINT_NEKORAY (server_addr listen_port nekoray_config : string) : string :=
  LF ++
  ESC ++ "[36m--> NekoRay 自定义核心配置" ++ ESC ++ "[0m" ++ LF ++
  "# 名称：(custom)" ++ LF ++
  "# 地址：" ++ server_addr ++ LF ++
  "# 端口：" ++ listen_port ++ LF ++
  "# 命令：run -c %config%" ++ LF ++
  "# 核心：juicity" ++ LF ++
  LF ++
  nekoray_config ++ LF.

(** [TEMPLATE_PRINT_SHARELINK.format(sharelink=...)] *)
Definition TEMPLATE_PRINT_SHARELINK (sharelink : string) : string :=
  LF ++
  ESC ++ "[36m--> Juicity 通用订阅" ++ ESC ++ "[0m" ++ LF ++
  ESC ++ "[34m" ++ sharelink ++ ESC ++ "[0m" ++ LF.

(** The parsed command line. *)
Record Params : Type := mkParams {
  domain : option string;
  nekoray : bool;
  clash : bool;
  v2ray : bool;
  singbox : bool
}.

Inductive mode_ : Type := mode_install | mode_check.

(** *** class Template *)

Module Template.

Record t : Type := mk {
  project : Project.t;
  mode : mode_
}.

(** [gen_clients(server_addr, user, server_config)]; reading the
    property [server_port] can update the project the template holds. *)
Definition gen_clients (env : Env) (self : t) (server_addr : string) (user : User.t)
           (server_config : ServerConfig.t) : M t :=
  (Logging.info "正在生成客户端配置文件" >>
   let server_ip := Project._server_ip (project self) in
   let* (server_port, project') := Project.server_port env (project self) in
   let nekoray :=
     NekoRayConfig.from_server user server_config server_addr server_port server_ip in
   NekoRayConfig.to_json env nekoray Project.client_nekoray_config >>
   ret (mk project' (mode self)))%M.

Definition print_nekoray (env : Env) (self : t) : M unit :=
  (let* ex := PathIO.exists_ Project.client_nekoray_config in
   if negb ex
   then Logging.error ("❌ 客户端配置文件不存在 - path=" ++
                       Path.to_str Project.client_nekoray_config)
   else
     let* nekoray := NekoRayConfig.from_json env Project.client_nekoray_config in
     let* (serv_addr, serv_port) := lift (NekoRayConfig.serv_peer nekoray) in
     let* link := lift (NekoRayConfig.sharelink nekoray) in
     print (TEMPLATE_PRINT_SHARELINK link) >>
     print (TEMPLATE_PRINT_NEKORAY serv_addr serv_port (NekoRayConfig.showcase env nekoray)))%M.

Definition parse (env : Env) (self : t) (params : Params) : M unit :=
  let show_all := negb (existsb (fun b => b) [nekoray params]) in
  if show_all then print_nekoray env self
  else if nekoray params then print_nekoray env self
  else if clash params then Logging.warning "Unimplemented feature"
  else if singbox params then Logging.warning "Unimplemented feature"
  else if v2ray params then Logging.warning "Unimplemented feature"
  else ret tt.

End Template.

(** *** class Scaffold *)

Module Scaffold.

(** [_validate_domain(domain)]: the domain and the address it resolves to *)
Definition _validate_domain (env : Env) (domain : option string) : M (string * string) :=
  (let* domain :=
     match domain with
     | Some d => if String.eqb d "" then emit (Input "> 解析到本机的域名：") >> ret (stdin_line env)
                 else ret d
     | None => emit (Input "> 解析到本机的域名：") >> ret (stdin_line env)
     end in
   match getaddrinfo_raises env domain with
   | Some e => raise e                        (* [except socket.gaierror] lets it pass *)
   | None =>
       match getaddrinfo env domain with
       | None =>
           Logging.error ("域名不可达或拼写错误的域名 - domain=" ++ domain) >>
           sys_exit
       | Some server_ip =>
           let* my_ip :=
             match ifconfig_me env with
             | Some body => ret body
             | None => raise URLError
             end in
           if negb (String.eqb my_ip server_ip)
           then Logging.error ("你的主机外网IP与域名解析到的IP不一致 - my_ip=" ++ my_ip ++
                               " domain=" ++ domain ++ " server_ip=" ++ server_ip) >>
                sys_exit
           else ret (domain, server_ip)
       end
   end)%M.

Definition install (env : Env) (params : Params) : M unit :=
  (let* (domain, server_ip) := _validate_domain env (domain params) in
   Logging.info ("域名解析成功 - domain=" ++ domain) >>
   let cert := Certificate.mk domain in
   let* has_cert := PathIO.exists_ (Path.of_str (Certificate.fullchain cert)) in
   (if negb has_cert
    then CertBot.run env (CertBot.new domain) >> ret tt
    else Logging.info ("证书文件已存在 - path=" ++
                       Path.to_str (Path.parent (Path.of_str (Certificate.fullchain cert))))) >>
   let* project := Project.new in
   Project.set_alias env >>
   let user := User.gen env in
   let* (server_port, project) := Project.server_port env project in
   let project := Project.set_server_ip project server_ip in
   let* service :=
     Service.build_from_template env Project.service Project.systemd_template in
   Logging.info "正在下载 juicity-server" >>
   Service.download_server env (recursion_limit env) service Project.workstation >>
   Logging.info "正在生成默认的服务端配置" >>
   let* server_config :=
     lift (ServerConfig.from_automation (inl user) (Certificate.fullchain cert)
                                        (Certificate.privkey cert) server_port) in
   ServerConfig.to_json env server_config Project.server_config >>
   Logging.info "正在部署系统服务" >>
   Service.start env service >>
   Logging.info "正在检查服务状态" >>
   let* (response, text) := Service.status env service in
   match response with
   | VBool true =>
       let t := Template.mk project mode_install in
       let* t := Template.gen_clients env t domain user server_config in
       Template.parse env t params >>
       Project.reset_shell env
   | _ => Logging.info ("服务启动失败 - status=" ++ text)
   end)%M.

Definition check (env : Env) (params : Params) : M unit :=
  (let* project := Project.new in
   Template.parse env (Template.mk project mode_check) params)%M.

(** [_recv_stream(script, pipe)]: what the sub-process wrote to the pipe
    by the time it closes it; [None] for a pipe that is neither. *)
Definition _recv_stream (env : Env) (script : string) (pipe : string) : M value :=
  (let argv := Str.split script in
   popen env argv >>
   if String.eqb pipe "stdout" then ret (VStr (Str.strip (stdout_of env argv)))
   else if String.eqb pipe "stderr" then ret (VStr (Str.strip (stderr_of env argv)))
   else ret VNone)%M.

Definition service_relay (env : Env) (cmd : string) : M unit :=
  (let* project := Project.new in
   let* service := Service.build_from_template env Project.service "" in
   if String.eqb cmd "status" then
     let* active :=
       _recv_stream env ("systemctl is-active " ++ Service.name service) "stdout" in
     Logging.info ("juicity 服务状态：" ++ Py.str active) >>
     let* version := _recv_stream env (Path.to_str Project.executable ++ " -v") "stdout" in
     Logging.info ("juicity 服务版本：" ++ Py.str version) >>
     let* ct_active := _recv_stream env "systemctl is-active certbot.timer" "stdout" in
     Logging.info ("证书续订服务状态：" ++ Py.str ct_active) >>
     Logging.info ("服務端配置：" ++ Path.to_str Project.server_config) >>
     Logging.info ("客戶端配置[NekoRay]：" ++ Path.to_str Project.client_nekoray_config) >>
     Logging.info ("juicity 系统服务配置：" ++ Path.to_str Project.service)
   else if String.eqb cmd "log" then
     let* syslog :=
       _recv_stream env ("journalctl -u " ++ Service.name service ++ " -f -o cat") "stdout" in
     print (Py.str syslog)
   else if String.eqb cmd "start" then Service.start env service
   else if String.eqb cmd "stop" then Service.stop env service
   else if String.eqb cmd "restart" then Service.restart env service
   else ret tt)%M.

End Scaffold.

(** ** A JSON codec for the values of the model

    The script is stated over any codec [json_dumps] / [json_loads].  This
    one writes documents the way [json.dumps(v, indent=4, ensure_ascii=True)]
    lays them out and reads them back; the examples run on it. *)

Module Json.

Definition hex4 (n : nat) : string :=
  String (Py.hexdigit (n / 4096 mod 16))
    (String (Py.hexdigit (n / 256 mod 16))
       (String (Py.hexdigit (n / 16 mod 16))
          (String (Py.hexdigit (n mod 16)) ""))).

Definition u_escape (n : nat) : string := String Py.backslash (String "u" (hex4 n)).

(** The escape of the code point [cp]. *)
Definition escape_code_point (cp : nat) : string :=
  if (cp <? 65536)%nat then u_escape cp
  else u_escape (55296 + (cp - 65536) / 1024) ++ u_escape (56320 + (cp - 65536) mod 1024).

(** The escape of an ASCII character. *)
Definition escape_ascii (c : ascii) : string :=
  let n := nat_of_ascii c in
  if Ascii.eqb c Py.dquote || Ascii.eqb c Py.backslash
  then String Py.backslash (String c "")
  else if (n =? 10)%nat then String Py.backslash "n"
  else if (n =? 13)%nat then String Py.backslash "r"
  else if (n =? 9)%nat then String Py.backslash "t"
  else if (n =? 8)%nat then String Py.backslash "b"
  else if (n =? 12)%nat then String Py.backslash "f"
  else if (n <? 32)%nat || (n =? 127)%nat then u_escape n
  else String c "".

(** The text between the quotes: the bytes of [s] are decoded from UTF-8
    as they are escaped. *)
Fixpoint escape (s : string) : string :=
  match s with
  | EmptyString => EmptyString
  | String c s1 =>
      let n := nat_of_ascii c in
      if (n <? 128)%nat then escape_ascii c ++ escape s1
      else
        match s1 with
        | String c1 s2 =>
            let n1 := (nat_of_ascii c1 mod 64)%nat in
            if (n <? 224)%nat then escape_code_point ((n mod 32) * 64 + n1) ++ escape s2
            else
              match s2 with
              | String c2 s3 =>
                  let n2 := (nat_of_ascii c2 mod 64)%nat in
                  if (n <? 240)%nat
                  then escape_code_point (((n mod 16) * 64 + n1) * 64 + n2) ++ escape s3
                  else
                    match s3 with
                    | String c3 s4 =>
                        let n3 := (nat_of_ascii c3 mod 64)%nat in
                        escape_code_point ((((n mod 8) * 64 + n1) * 64 + n2) * 64 + n3)
                          ++ escape s4
                    | EmptyString => EmptyString
                    end
              | EmptyString => EmptyString
              end
        | EmptyString => EmptyString
        end
  end.

Definition quoted (s : string) : string :=
  String Py.dquote (escape s ++ String Py.dquote "").

Fixpoint spaces (n : nat) : string :=
  match n with
  | O => EmptyString
  | S n' => String " " (spaces n')
  end.

(** [dumps] at nesting depth [lvl] *)
Fixpoint dumps_at (lvl : nat) (v : value) : string :=
  let inner := LF ++ spaces (4 * S lvl) in
  match v with
  | VNone => "null"
  | VBool true => "true"
  | VBool false => "false"
  | VInt z => Str.of_Z z
  | VStr s => quoted s
  | VList [] => "[]"
  | VList l =>
      "[" ++ inner ++ Str.join ("," ++ inner) (map (dumps_at (S lvl)) l)
          ++ LF ++ spaces (4 * lvl) ++ "]"
  | VDict [] => "{}"
  | VDict items =>
      "{" ++ inner ++
      Str.join ("," ++ inner)
        ((fix go (kvs : list (string * value)) : list string :=
            match kvs with
            | [] => []
            | (k, x) :: kvs' => (quoted k ++ ": " ++ dumps_at (S lvl) x) :: go kvs'
            end) items)
      ++ LF ++ spaces (4 * lvl) ++ "}"
  end.

Definition dumps (v : value) : string := dumps_at 0 v.

(** *** Reading *)

Definition is_ws (c : ascii) : bool :=
  let n := nat_of_ascii c in
  (n =? 32)%nat || (n =? 9)%nat || (n =? 10)%nat || (n =? 13)%nat.

Fixpoint skip_ws (s : string) : string :=
  match s with
  | String c s' => if is_ws c then skip_ws s' else s
  | EmptyString => EmptyString
  end.

Definition hexval (c : ascii) : option nat :=
  let n := nat_of_ascii c in
  if (48 <=? n)%nat && (n <=? 57)%nat then Some (n - 48)%nat
  else if (97 <=? n)%nat && (n <=? 102)%nat then Some (n - 87)%nat
  else if (65 <=? n)%nat && (n <=? 70)%nat then Some (n - 55)%nat
  else None.

Definition hex4val (a b c d : ascii) : option nat :=
  match hexval a, hexval b, hexval c, hexval d with
  | Some x, Some y, Some z, Some w => Some (((x * 16 + y) * 16 + z) * 16 + w)%nat
  | _, _, _, _ => None
  end.

(** The UTF-8 bytes of a code point. *)
Definition utf8 (cp : nat) : string :=
  if (cp <? 128)%nat then String (ascii_of_nat cp) ""
  else if (cp <? 2048)%nat then
    String (ascii_of_nat (192 + cp / 64)) (String (ascii_of_nat (128 + cp mod 64)) "")
  else if (cp <? 65536)%nat then
    String (ascii_of_nat (224 + cp / 4096))
      (String (ascii_of_nat (128 + cp / 64 mod 64))
         (String (ascii_of_nat (128 + cp mod 64)) ""))
  else
    String (ascii_of_nat (240 + cp / 262144))
      (String (ascii_of_nat (128 + cp / 4096 mod 64))
         (String (ascii_of_nat (128 + cp / 64 mod 64))
            (String (ascii_of_nat (128 + cp mod 64)) ""))).

(** The characters of a string literal after its opening quote, up to the
    closing one: the text and what follows the literal.  [hi] is a high
    surrogate waiting for its low half. *)
Fixpoint read_chars (hi : option nat) (s : string) : option (string * string) :=
  let flush := match hi with Some h => utf8 h | None => EmptyString end in
  let plain (c : string) (rest : string) :=
    match read_chars None rest with
    | Some (text, rest') => Some (flush ++ c ++ text, rest')
    | None => None
    end in
  match s with
  | EmptyString => None
  | String c s1 =>
      if Ascii.eqb c Py.dquote then Some (flush, s1)
      else if Ascii.eqb c Py.backslash then
        match s1 with
        | String "u" (String a (String b (String x (String y s5)))) =>
            match hex4val a b x y with
            | None => None
            | Some u =>
                match hi with
                | Some h =>
                    if (56320 <=? u)%nat && (u <? 57344)%nat
                    then match read_chars None s5 with
                         | Some (text, rest') =>
                             Some (utf8 (65536 + (h - 55296) * 1024 + (u - 56320)) ++ text,
                                   rest')
                         | None => None
                         end
                    else if (55296 <=? u)%nat && (u <? 56320)%nat
                    then match read_chars (Some u) s5 with
                         | Some (text, rest') => Some (utf8 h ++ text, rest')
                         | None => None
                         end
                    else plain (utf8 u) s5
                | None =>
                    if (55296 <=? u)%nat && (u <? 56320)%nat
                    then read_chars (Some u) s5
                    else plain (utf8 u) s5
                end
            end
        | String e s2 =>
            if Ascii.eqb e Py.dquote then plain (String Py.dquote "") s2
            else if Ascii.eqb e Py.backslash then plain (String Py.backslash "") s2
            else if Ascii.eqb e "/" then plain "/" s2
            else if Ascii.eqb e "n" then plain LF s2
            else if Ascii.eqb e "r" then plain (String (ascii_of_nat 13) "") s2
            else if Ascii.eqb e "t" then plain (String (ascii_of_nat 9) "") s2
            else if Ascii.eqb e "b" then plain (String (ascii_of_nat 8) "") s2
            else if Ascii.eqb e "f" then plain (String (ascii_of_nat 12) "") s2
            else None
        | EmptyString => None
        end
      else if (nat_of_ascii c <? 32)%nat then None
      else plain (String c "") s1
  end.

(** The digits at the head of [s]. *)
Fixpoint read_digits (acc : Z) (s : string) : Z * string :=
  match s with
  | String c s' =>
      if Str.isdigit c then read_digits (10 * acc + Z.of_nat (nat_of_ascii c - 48)) s'
      else (acc, s)
  | EmptyString => (acc, s)
  end.

(** An integer literal; a fraction or an exponent is refused. *)
Definition read_int (s : string) : option (Z * string) :=
  let '(neg, body) := match s with String "-" s' => (true, s') | _ => (false, s) end in
  match body with
  | String c rest =>
      if Str.isdigit c then
        let '(n, rest') :=
          if Ascii.eqb c "0" then (0, rest) else read_digits 0 body in
        match rest' with
        | String d _ =>
            if Ascii.eqb d "." || Ascii.eqb d "e" || Ascii.eqb d "E" then None
            else Some (if neg then - n else n, rest')
        | EmptyString => Some (if neg then - n else n, rest')
        end
      else None
  | EmptyString => None
  end.

(** [s] without its prefix [lit], when it starts with it. *)
Fixpoint after_prefix (lit s : string) : option string :=
  match lit with
  | EmptyString => Some s
  | String c lit' =>
      match s with
      | String d s' => if Ascii.eqb c d then after_prefix lit' s' else None
      | EmptyString => None
      end
  end.

Definition expect (lit : string) (v : value) (s : string) : option (value * string) :=
  match after_prefix lit s with
  | Some rest => Some (v, rest)
  | None => None
  end.

(** [d[k] = v] as the reader builds an object from its members, last to
    first: a repeated key keeps its first place and takes its last value. *)
Definition add_member (k : string) (v : value) (kvs : list (string * value))
  : list (string * value) :=
  (k, default v (Py.dict_get kvs k))
    :: List.filter (fun kv => negb (String.eqb (fst kv) k)) kvs.

(** [read_value]: one value at the head of [s], which starts with no white
    space; [read_elements]: the elements of an array up to its bracket;
    [read_members]: the members of an object up to its brace. *)
Fixpoint read_value (fuel : nat) (s : string) : option (value * string) :=
  match fuel with
  | O => None
  | S fuel' =>
      match s with
      | String "{" s' =>
          match skip_ws s' with
          | String c rest =>
              if Ascii.eqb c "}" then Some (VDict [], rest)
              else match read_members fuel' s' with
                   | Some (kvs, rest) => Some (VDict kvs, rest)
                   | None => None
                   end
          | EmptyString => None
          end
      | String "[" s' =>
          match skip_ws s' with
          | String c rest =>
              if Ascii.eqb c "]" then Some (VList [], rest)
              else match read_elements fuel' s' with
                   | Some (vs, rest) => Some (VList vs, rest)
                   | None => None
                   end
          | EmptyString => None
          end
      | String "n" _ => expect "null" VNone s
      | String "t" _ => expect "true" (VBool true) s
      | String "f" _ => expect "false" (VBool false) s
      | String q s' =>
          if Ascii.eqb q Py.dquote then
            match read_chars None s' with
            | Some (text, rest) => Some (VStr text, rest)
            | None => None
            end
          else
            match read_int s with
            | Some (z, rest) => Some (VInt z, rest)
            | None => None
            end
      | EmptyString => None
      end
  end
with read_elements (fuel : nat) (s : string) : option (list value * string) :=
  match fuel with
  | O => None
  | S fuel' =>
      match read_value fuel' (skip_ws s) with
      | Some (v, rest) =>
          match skip_ws rest with
          | String "," rest' =>
              match read_elements fuel' rest' with
              | Some (vs, rest'') => Some (v :: vs, rest'')
              | None => None
              end
          | String "]" rest' => Some ([v], rest')
          | _ => None
          end
      | None => None
      end
  end
with read_members (fuel : nat) (s : string) : option (list (string * value) * string) :=
  match fuel with
  | O => None
  | S fuel' =>
      match skip_ws s with
      | String q s1 =>
          if Ascii.eqb q Py.dquote then
            match read_chars None s1 with
            | Some (k, s2) =>
                match skip_ws s2 with
                | String ":" s3 =>
                    match read_value fuel' (skip_ws s3) with
                    | Some (v, rest) =>
                        match skip_ws rest with
                        | String "," rest' =>
                            match read_members fuel' rest' with
                            | Some (kvs, rest'') => Some (add_member k v kvs, rest'')
                            | None => None
                            end
                        | String "}" rest' => Some ([(k, v)], rest')
                        | _ => None
                        end
                    | None => None
                    end
                | _ => None
                end
            | None => None
            end
          else None
      | EmptyString => None
      end
  end.

(** [loads]: one value, white space around it, nothing else. *)
Definition loads (s : string) : option value :=
  match read_value (String.length s) (skip_ws s) with
  | Some (v, rest) =>
      match skip_ws rest with
      | EmptyString => Some v
      | _ => None
      end
  | None => None
  end.

End Json.

(** ** Plain JSON values *)

(** A text of ASCII characters. *)
Fixpoint ascii_text (s : string) : Prop :=
  match s with
  | EmptyString => True
  | String c s' => (nat_of_ascii c < 128)%nat /\ ascii_text s'
  end.

(** The values the codec is shown to read back: text in ASCII, no
    integers, distinct keys. *)
Fixpoint json_plain (v : value) : Prop :=
  match v with
  | VNone | VBool _ => True
  | VInt _ => False
  | VStr s => ascii_text s
  | VList l => (fix all (l : list value) : Prop :=
                  match l with
                  | [] => True
                  | x :: l' => json_plain x /\ all l'
                  end) l
  | VDict items =>
      NoDup (map fst items) /\
      (fix all (kvs : list (string * value)) : Prop :=
         match kvs with
         | [] => True
         | (k, x) :: kvs' => ascii_text k /\ json_plain x /\ all kvs'
         end) items
  end.

(** The fuel [read_value] needs for a value. *)
Fixpoint weight (v : value) : nat :=
  match v with
  | VList l => S ((fix sum (l : list value) : nat :=
                     match l with
                     | [] => O
                     | x :: l' => S (weight x + sum l')
                     end) l)
  | VDict items => S ((fix sum (kvs : list (string * value)) : nat :=
                         match kvs with
                         | [] => O
                         | (_, x) :: kvs' => S (weight x + sum kvs')
                         end) items)
  | _ => 1%nat
  end.

(** A text of JSON white space. *)
Fixpoint all_ws (s : string) : Prop :=
  match s with
  | EmptyString => True
  | String c s' => Json.is_ws c = true /\ all_ws s'
  end.

(** What the first character of a written value is: no white space and
    no closing bracket. *)
Definition opens_value (c : ascii) : Prop :=
  Json.is_ws c = false /\ c <> "]"%char /\ c <> "}"%char.

(** The fuel [read_elements] and [read_members] need. *)
Fixpoint sum_weight (l : list value) : nat :=
  match l with
  | [] => O
  | x :: l' => S (weight x + sum_weight l')
  end.

Fixpoint sum_weight_items (kvs : list (string * value)) : nat :=
  match kvs with
  | [] => O
  | (_, x) :: kvs' => S (weight x + sum_weight_items kvs')
  end.

Definition plain_item (kv : string * value) : Prop :=
  ascii_text (fst kv) /\ json_plain (snd kv).

(** The text of a plain value, followed by anything, is read back as
    that value with enough fuel. *)
Definition reads_back (v : value) : Prop :=
  json_plain v ->
  forall lvl rest fuel,
    (weight v <= fuel)%nat ->
    Json.read_value fuel (Json.dumps_at lvl v ++ rest) = Some (v, rest).

(** The text of one member of an object. *)
Definition member_text (lvl : nat) (kv : string * value) : string :=
  Json.quoted (fst kv) ++ ": " ++ Json.dumps_at lvl (snd kv).

(** ** Well-typed configuration values *)

(** A client configuration whose attributes have the annotated types:
    [sni] is a [str] or [None], [allow_insecure] a [bool], the rest [str]. *)
Definition ClientConfig (server listen uuid password : string) (sni : option string)
           (allow_insecure : bool) (congestion_control log_level : string)
  : NekoRayConfig.t :=
  NekoRayConfig.mk (VStr server) (VStr listen) (VStr uuid) (VStr password)
                   (match sni with Some d => VStr d | None => VNone end)
                   (VBool allow_insecure) (VStr congestion_control) (VStr log_level).

(** The invariant of a server configuration: [listen] is a [str] with the
    leading colon and [users] is a [dict]. *)
Definition ServerConfig_valid (x : ServerConfig.t) : Prop :=
  (exists port, ServerConfig.listen x = VStr (":" ++ port)) /\
  (exists items, ServerConfig.users x = VDict items).

(** A server configuration whose attributes have the annotated types, the
    port already behind its colon and the users as name and password. *)
Definition ServerConfigTyped (port certificate private_key : string)
           (users : list (string * string)) (congestion_control log_level : string)
  : ServerConfig.t :=
  ServerConfig.mk (VStr (":" ++ port)) (VStr certificate) (VStr private_key)
                  (VDict (map (fun up => (fst up, VStr (snd up))) users))
                  (VStr congestion_control) (VStr log_level).

(** The [n]-th download attempt raises an [OSError]. *)
Definition fails_with_oserror (env : Env) (n : nat) : Prop :=
  fetch_nth env n = RetrieveOSError \/ fetch_nth env n = ExtractOSError.

(** The fields of the client configuration. *)
Definition NekoRayConfig_fields : list string :=
  ["server"; "listen"; "uuid"; "password"; "sni"; "allow_insecure";
   "congestion_control"; "log_level"].

(** What deserialization of a client configuration yields, in the words of
    the specification as amended: the four fields without default are
    required, the other four fall back to their defaults, and only a JSON
    object can be read. *)
Definition NekoRayConfig_documented (data : value) : result NekoRayConfig.t :=
  match data with
  | VDict items =>
      let required key :=
        match Py.dict_get items key with
        | Some v => Ok v
        | None => Raise (KeyError key)
        end in
      let optional key d := default d (Py.dict_get items key) in
      (let? server := required "server" in
       let? listen := required "listen" in
       let? uuid := required "uuid" in
       let? password := required "password" in
       Ok (NekoRayConfig.mk server listen uuid password
             (optional "sni" VNone)
             (optional "allow_insecure" (VBool false))
             (optional "congestion_control" (VStr "bbr"))
             (optional "log_level" (VStr "info"))))%result
  | _ => Raise TypeError
  end.

(** ** Classes of events *)

(** The client artifacts: the client configuration file, written or
    appended to, and anything printed on the console. *)
Definition client_artifact (e : event) : bool :=
  match e with
  | WriteText p _ | AppendText p _ => bool_decide (p = Project.client_nekoray_config)
  | Stdout _ => true
  | _ => false
  end.

(** What installs or starts the service: writing the server
    configuration or the service unit, reloading the units, downloading or
    unpacking the server, and starting the unit. *)
Definition service_mutation (e : event) : bool :=
  match e with
  | WriteText p _ | AppendText p _ =>
      bool_decide (p = Project.server_config) || bool_decide (p = Project.service)
  | System cmd =>
      String.eqb cmd "systemctl daemon-reload" ||
      String.eqb cmd "systemctl enable --now juicity"
  | Urlretrieve _ _ | Extractall _ _ => true
  | _ => false
  end.

(** The domain [install] works on: the one of the command line, or the
    line typed at the prompt when the command line gives none. *)
Definition requested_domain (env : Env) (params : Params) : string :=
  match domain params with
  | Some d => if String.eqb d "" then stdin_line env else d
  | None => stdin_line env
  end.

(** ** Counting in a trace *)

Definition restart_nginx : string := "systemctl restart nginx > /dev/null 2>&1".

Definition enable_timer : string :=
  "systemctl daemon-reload && systemctl enable --now certbot.timer".

(** [os.system(cmd)] occurs in the trace. *)
Definition runs (cmd : string) (tr : list event) : bool :=
  existsb (fun e => match e with System c => String.eqb c cmd | _ => false end) tr.

Definition is_download (e : event) : bool :=
  match e with Urlretrieve _ _ => true | _ => false end.

Definition is_stop (name : string) (e : event) : bool :=
  match e with System c => String.eqb c ("systemctl stop " ++ name) | _ => false end.

Definition count (f : event -> bool) (tr : list event) : nat :=
  List.length (List.filter f tr).

(** ** Invariants of runs

    [run_inv R P H Q m]: from any state, [m] leaves the file system related
    to the one it found by [R]; every event it appends satisfies [P]; when
    it returns, the value satisfies [Q]; when it stops early, the reason
    satisfies [H]. *)

Definition run_inv_at (R : FS -> FS -> Prop) (P : event -> Prop) (H : halt -> Prop)
           {A} (Q : A -> Prop) (m : M A) (st : State) : Prop :=
  R (fs st) (fs (snd (m st))) /\
  (exists evs, trace (snd (m st)) = (trace st ++ evs)%list /\ Forall P evs) /\
  match fst (m st) with
  | Done a => Q a
  | Halt h => H h
  end.

Definition run_inv (R : FS -> FS -> Prop) (P : event -> Prop) (H : halt -> Prop)
           {A} (Q : A -> Prop) (m : M A) : Prop :=
  forall st, run_inv_at R P H Q m st.

(** The relation that lets a run do anything to the file system. *)
Definition any_fs : FS -> FS -> Prop := fun _ _ => True.

(** ** Notions of the further properties *)

(** The characters of the text of an integer: digits and the sign. *)
Definition digit_or_sign (c : ascii) : bool := Str.isdigit c || Ascii.eqb c "-".

(** A text whose lines end with line feeds: it has no carriage return. *)
Definition unix_text (t : string) : Prop := Str.contains CR t = false.

(** What [remove_alias] may do to the file system on the way from [f] to
    [f']: no directory and no file appears or disappears, the files
    outside [histories] keep their text, and so does every file whose text
    lacks the alias and has no carriage return. *)
Definition alias_removed (histories : list (list string)) (f f' : FS) : Prop :=
  dirs f' = dirs f /\
  (forall q, is_Some (files f' !! q) <-> is_Some (files f !! q)) /\
  (forall q, ~ In q histories -> files f' !! q = files f !! q) /\
  (forall q t, files f !! q = Some t -> Str.contains Project.alias t = false ->
               unix_text t -> files f' !! q = Some t).

(** The events of a conversation: a prompt, or a logged error. *)
Definition prompt_or_error (e : event) : bool :=
  match e with
  | Input _ | Log ERROR _ => true
  | _ => false
  end.

(** What the validation of the domain comes to: the domain with its
    address when it resolves to the public address of the host; an exit
    when it does not resolve or resolves elsewhere; and an exception
    nobody catches when the resolver raises something else than
    [gaierror], as it does with [UnicodeError] for a name with an empty
    label, or when the public address cannot be fetched. *)
Definition validated (env : Env) (d : string) : outcome (string * string) :=
  match getaddrinfo_raises env d with
  | Some e => Halt (Uncaught e)
  | None =>
      match getaddrinfo env d with
      | None => Halt SysExit
      | Some server_ip =>
          match ifconfig_me env with
          | None => Halt (Uncaught URLError)
          | Some my_ip =>
              if String.eqb my_ip server_ip then Done (d, server_ip) else Halt SysExit
          end
      end
  end.

(** What belongs to the request of a certificate: the ACME client, the
    package manager that installs it, the commands on nginx and on port
    80, the renewal timer, and the removal of directories. *)
Definition acme_action (e : event) : bool :=
  match e with
  | Popen argv => String.eqb (hd "" argv) "certbot"
  | System cmd =>
      existsb (String.eqb cmd)
              ["apt update -y > /dev/null 2>&1 ";
               "apt install certbot -y > /dev/null 2>&1";
               "systemctl stop nginx > /dev/null 2>&1 && nginx -s stop > /dev/null 2>&1";
               "kill $(lsof -t -i:80)  > /dev/null 2>&1";
               restart_nginx;
               enable_timer]
  | Rmtree _ => true
  | _ => false
  end.

(** The directory of the certificates. *)
Definition live : list string := Path.of_str "/etc/letsencrypt/live/".

(** The names [os.listdir] gives for the directory of the certificates. *)
Definition live_names (f : FS) : list string :=
  match Fs.listdir f live with
  | Ok ks => ks
  | Raise _ => []
  end.

(** The names [ks] are single path components: joined to [p], each gives
    an entry of [p]. *)
Definition plain_names (p : list string) (ks : list string) : Prop :=
  Forall (fun k => Path.joinpath p k = (p ++ [k])%list) ks.

(** The stale directories among the entries [ks] of [p]: when [p] has no
    entry named [d], the directories whose name begins with [d] and a
    hyphen, in the order of [ks]. *)
Definition stale_in (f : FS) (p : list string) (d : string) (ks : list string)
  : list (list string) :=
  if Fs.exists_ f (Path.joinpath p d) then []
  else map (Path.joinpath p)
           (List.filter (fun k => Str.startswith k (d ++ "-") && Fs.is_dir f (Path.joinpath p k))
                        ks).

(** The stale certificate directories of the domain [d]. *)
Definition stale_dirs (f : FS) (d : string) : list (list string) :=
  stale_in f live d (live_names f).

(** Whether the ACME client reports that the quota is used up, as [_run]
    reads its diagnostic output. *)
Definition quota_reached (env : Env) (domain : string) : bool :=
  let output := Str.strip (stderr_of env (Str.split (CertBot.cmd domain))) in
  negb (String.eqb output "") && Str.contains CertBot.quota_phrase output.

(** What [CertBot.run] does after it has cleared the stale directories:
    [busy] tells whether port 80 was taken, [limited] whether the quota
    was used up. *)
Definition certbot_steps (domain : string) (busy limited : bool) : list event :=
  ([Log INFO "正在为解析到本机的域名申请免费证书";
    Log INFO "正在更新包索引";
    System "apt update -y > /dev/null 2>&1 ";
    Log INFO "安装 certbot";
    System "apt install certbot -y > /dev/null 2>&1";
    Log INFO "检查 80 端口占用"] ++
   (if busy
    then [System "systemctl stop nginx > /dev/null 2>&1 && nginx -s stop > /dev/null 2>&1";
          System "kill $(lsof -t -i:80)  > /dev/null 2>&1"]
    else []) ++
   [Log INFO "开始申请证书"; Popen (Str.split (CertBot.cmd domain))] ++
   (if limited then [Log WARNING CertBot.rate_limit_warning] else []) ++
   (if busy then [System restart_nginx] else []) ++
   (if limited then []
    else [Log INFO "运行证书续订服务 - service=certbot.timer"; System enable_timer]))%list.

(** Every event of the kind [b] comes after an event of the kind [a]. *)
Fixpoint precedes (a b : event -> bool) (tr : list event) : bool :=
  match tr with
  | [] => true
  | e :: tr' => if a e then true else negb (b e) && precedes a b tr'
  end.

(** The start of the unit. *)
Definition is_start (e : event) : bool :=
  match e with
  | System cmd => String.eqb cmd "systemctl enable --now juicity"
  | _ => false
  end.

(** A write of the file [p]. *)
Definition is_write (p : list string) (e : event) : bool :=
  match e with
  | WriteText q _ => bool_decide (q = p)
  | _ => false
  end.

(** [m], run from [st], keeps the events [b] behind an event [a]. *)
Definition ordered_at (a b : event -> bool) {A} (m : M A) (st : State) : Prop :=
  exists evs,
    trace (snd (m st)) = (trace st ++ evs)%list /\ precedes a b evs = true.

(** The replacement of the process by a login shell. *)
Definition is_execl (e : event) : bool :=
  match e with
  | Execl _ _ => true
  | _ => false
  end.

(** The shell commands of a trace, in order. *)
Definition commands (tr : list event) : list string :=
  omap (fun e => match e with System cmd => Some cmd | _ => None end) tr.

(** What changes or fetches a file. *)
Definition touches_files (e : event) : bool :=
  match e with
  | WriteText _ _ | AppendText _ _ | Rmtree _ | Urlretrieve _ _ | Extractall _ _ => true
  | _ => false
  end.

(** The shell command of a sub-command of the service. *)
Definition relayed (cmd : string) : list string :=
  if String.eqb cmd "start" then ["systemctl enable --now juicity"]
  else if String.eqb cmd "stop" then ["systemctl stop juicity"]
  else if String.eqb cmd "restart" then ["systemctl daemon-reload && systemctl restart juicity"]
  else [].

(** The server configuration [install] generates for a domain and a port. *)
Definition installed_server (env : Env) (d : string) (p : Z) : ServerConfig.t :=
  ServerConfig.mk (VStr (":" ++ Str.of_Z p))
                  (VStr (Certificate.fullchain (Certificate.mk d)))
                  (VStr (Certificate.privkey (Certificate.mk d)))
                  (VDict [(User.username (User.gen env), VStr (User.password (User.gen env)))])
                  (VStr "bbr") (VStr "info").

(** The client configuration it generates. *)
Definition installed_client (env : Env) (d ip : string) (p : Z) : NekoRayConfig.t :=
  NekoRayConfig.from_server (User.gen env) (installed_server env d p) d p ip.

(** The sub-processes and the downloads of the host leave the file [p]
    alone: whatever else they do to the disk, [p] keeps its text, or stays
    absent, and can be written as before. *)
Definition left_alone (env : Env) (p : list string) : Prop :=
  forall e f,
    files (host_effect env e f) !! p = files f !! p /\
    Fs.writable (host_effect env e f) p = Fs.writable f p.

(** What [install] does after the validation of the domain [d], which
    resolves to [ip], on a host where the certificate is there, the
    download succeeds at once and the service comes up: [alias_steps] are
    the steps of [set_alias], [p] is the port allocated and [sh] the login
    shell. *)
Definition install_steps (env : Env) (d ip : string) (alias_steps : list event) (p : Z)
           (sh : string) : list event :=
  let ws := Project.workstation in
  let zip_path := Path.joinpath ws (List.last (Str.split_on "/" URL) "") in
  let ex_path := Path.joinpath ws "juicity-server" in
  let server_text := json_dumps env (ServerConfig.__dict__ (installed_server env d p)) in
  let client := installed_client env d ip p in
  let client_text := json_dumps env (NekoRayConfig.__dict__ client) in
  let link :=
    "juicity://" ++ User.username (User.gen env) ++ ":" ++ User.password (User.gen env) ++
    "@" ++ ip ++ ":" ++ Str.of_Z p ++
    "?congestion_control=bbr&allow_insecure=0" ++
    (if String.eqb d "" then "" else "&sni=" ++ d) in
  ([Log INFO ("域名解析成功 - domain=" ++ d);
    Log INFO ("证书文件已存在 - path=" ++
              Path.to_str (Path.parent (Path.of_str
                                          (Certificate.fullchain (Certificate.mk d)))));
    Makedirs ws] ++
   alias_steps ++
   [Log INFO ("正在初始化监听端口 - port=" ++ Str.of_Z p);
    WriteText Project.service Project.systemd_template;
    System "systemctl daemon-reload";
    Log INFO "正在下载 juicity-server";
    Urlretrieve URL (Path.to_str zip_path);
    Log INFO ("下载完毕 - zip_path=" ++ Path.to_str zip_path);
    Extractall zip_path ws;
    System ("chmod +x " ++ Path.to_str ex_path);
    Log INFO ("授予执行权限 - ex_path=" ++ Path.to_str ex_path);
    Log INFO "正在生成默认的服务端配置";
    WriteText Project.server_config server_text;
    Log INFO ("保存服务端配置文件 - save_path=" ++ Path.to_str Project.server_config);
    Log INFO "正在部署系统服务";
    System "systemctl enable --now juicity";
    Log INFO "系统服务已启动";
    Log INFO "已设置服务开机自启";
    Log INFO "正在检查服务状态";
    Popen ["systemctl"; "is-active"; "juicity"];
    Log INFO "正在生成客户端配置文件";
    WriteText Project.client_nekoray_config client_text;
    Stdout (TEMPLATE_PRINT_SHARELINK link);
    Stdout (TEMPLATE_PRINT_NEKORAY ip (Str.of_Z p) client_text);
    Execl sh ["bash"; "-l"]])%list.

(** ** An example host *)

Module Example.

Definition fs_fresh : FS :=
  mkFS {[ ["root"; ".bashrc"] := "export PS1=x" ++ LF ]}
       {[ ["root"]; ["etc"]; ["etc"; "systemd"]; ["etc"; "systemd"; "system"];
          ["etc"; "letsencrypt"]; ["etc"; "letsencrypt"; "live"];
          ["etc"; "letsencrypt"; "live"; "example.com-0001"] ]}.

(** A host that resolves [example.com] to its own address [1.2.3.4].
    [port80]: something listens on port 80; [udp_taken]: the UDP ports
    that are bound; [certbot_says]: the diagnostic output of the ACME
    client; [is_active]: the answer of [systemctl is-active];
    [fetch_nth]: how the download attempts end; [limit]: the recursion
    limit. *)
Definition host (port80 : bool) (udp_taken : Z -> bool) (certbot_says is_active : string)
           (fetch_nth : nat -> fetch) (limit : nat) : Env :=
  mkEnv Json.dumps Json.loads
        ["root"] (Some "/bin/bash") "example.com"
        (fun d => if String.eqb d "example.com" then Some "1.2.3.4" else None)
        (fun d => if Str.startswith d "." || Str.contains ".." d then Some UnicodeError else None)
        (Some "1.2.3.4")
        (fun p pr => match pr with udp => udp_taken p | tcp => port80 && (p =? 80) end)
        (fun l => l)
        (fun _ => true)
        (fun argv => if String.eqb (hd "" argv) "systemctl" then is_active else "")
        (fun argv => if String.eqb (hd "" argv) "certbot" then certbot_says else "")
        "7d6b1f0e-0c2a-4e57-9d3b-7f6f0f3f9a11"
        "00112233445566778899aabbccddeeff00112233445566778899aabbccddeeff"
        fetch_nth
        limit
        (fun _ f => f).

Definition issued : string :=
  "Saving debug log to /var/log/letsencrypt/letsencrypt.log" ++ LF.

Definition rate_limited : string :=
  "Saving debug log to /var/log/letsencrypt/letsencrypt.log" ++ LF ++
  "An unexpected error occurred:" ++ LF ++
  "There were too many requests of a given type :: Error creating new order :: " ++
  "too many certificates (5) already issued for this exact set of domains " ++
  "in the last 168 hours: example.com" ++ LF.

(** Everything goes well: the certificate is issued, port 80 is free, two
    UDP ports of the range are taken, the download succeeds at once and
    the service comes up. *)
Definition env_ok : Env :=
  host false (fun p => p <? 41672) issued ("active" ++ LF) (fun _ => Fetched) 1000.

(** The certificate authority answers with the quota phrase while nginx
    holds port 80. *)
Definition env_limited : Env :=
  host true (fun _ => false) rate_limited ("active" ++ LF) (fun _ => Fetched) 1000.

(** The service does not come up. *)
Definition env_down : Env :=
  host false (fun _ => false) issued ("failed" ++ LF) (fun _ => Fetched) 1000.

(** The first two download attempts fail, the third succeeds. *)
Definition env_flaky : Env :=
  host false (fun _ => false) issued ("active" ++ LF)
       (fun n => if (n <? 2)%nat then RetrieveOSError else Fetched) 1000.

(** Every download attempt fails; eight nested calls are allowed. *)
Definition env_offline : Env :=
  host false (fun _ => false) issued ("active" ++ LF) (fun _ => RetrieveOSError) 8.

(** Every UDP port of the candidate range is bound. *)
Definition env_full : Env :=
  host false (fun _ => true) issued ("active" ++ LF) (fun _ => Fetched) 1000.

Definition st_fresh : State := mkState fs_fresh [] 0.

Definition params_install : Params := mkParams (Some "example.com") false false false false.

(** A client configuration file that lacks the field [server]. *)
Definition text_without_server : string :=
  Json.dumps (VDict [("listen", VStr "127.0.0.1:%socks_port%");
                     ("uuid", VStr "u1"); ("password", VStr "p1")]).

Definition st_without_server : State :=
  mkState (mkFS {[ Project.client_nekoray_config := text_without_server ]}
                {[ ["home"]; ["home"; "juicity"] ]})
          [] 0.

(** A client configuration file with a field the record does not have
    and without the optional fields. *)
Definition text_with_extra : string :=
  Json.dumps (VDict [("server", VStr "1.2.3.4:41999");
                     ("listen", VStr "127.0.0.1:%socks_port%");
                     ("comment", VList [VInt 1; VNone]);
                     ("uuid", VStr "u1"); ("password", VStr "p1")]).

Definition st_with_extra : State :=
  mkState (mkFS {[ Project.client_nekoray_config := text_with_extra ]}
                {[ ["home"]; ["home"; "juicity"] ]})
          [] 0.

Definition client_u1 : NekoRayConfig.t :=
  ClientConfig "1.2.3.4:41999" "127.0.0.1:%socks_port%" "u1" "p1"
               (Some "example.com") false "bbr" "info".

Definition server_u1 : ServerConfig.t :=
  ServerConfig.mk (VStr ":41999") (VStr "/etc/letsencrypt/live/example.com/fullchain.pem")
                  (VStr "/etc/letsencrypt/live/example.com/privkey.pem")
                  (VDict []) (VStr "bbr") (VStr "info").

Definition st_workstation : State :=
  mkState (mkFS ∅ {[ ["home"]; ["home"; "juicity"] ]}) [] 0.

(** The rc file already holds the alias. *)
Definition st_aliased : State :=
  mkState (mkFS {[ ["root"; ".bashrc"] := "export PS1=x" ++ LF ++ Project.alias ++ LF ]}
                {[ ["root"] ]})
          [] 0.

(** A host that already has the certificate of [example.com]. *)
Definition st_certified : State :=
  mkState (mkFS {[ ["root"; ".bashrc"] := "export PS1=x" ++ LF;
                   ["etc"; "letsencrypt"; "live"; "example.com"; "fullchain.pem"] :=
                     "-----BEGIN CERTIFICATE-----" ++ LF ]}
                ({[ ["etc"; "letsencrypt"; "live"; "example.com"] ]} ∪ dirs fs_fresh))
          [] 0.

(** What the download and the extraction leave on disk: the archive and
    the server in the workstation. *)
Definition disk_effect (e : event) (f : FS) : FS :=
  match e with
  | Urlretrieve _ dest =>
      if String.eqb dest "/home/juicity/juicity-linux-x86_64.zip"
      then mkFS (<[Path.of_str dest := "PK"]> (files f)) (dirs f)
      else f
  | Extractall _ dest =>
      if bool_decide (dest = Project.workstation)
      then mkFS (<[Project.executable := "ELF"]> (files f)) (dirs f)
      else f
  | _ => f
  end.

(** The host [env_ok] with that disk. *)
Definition env_disk : Env :=
  let env := env_ok in
  mkEnv (json_dumps env) (json_loads env) (home env) (shell env) (stdin_line env)
        (getaddrinfo env) (getaddrinfo_raises env) (ifconfig_me env) (bind_fails env)
        (shuffle env) (on_path env) (stdout_of env) (stderr_of env) (uuid4 env)
        (token_hex env) (fetch_nth env) (recursion_limit env) disk_effect.

(** A host with a stale certificate directory of [example.com], the
    certificates of another domain and a file beside them. *)
Definition st_stale : State :=
  mkState (mkFS {[ ["etc"; "letsencrypt"; "live"; "README"] := "certificates" ++ LF;
                   ["etc"; "letsencrypt"; "live"; "example.com-0001"; "fullchain.pem"] :=
                     "-----BEGIN CERTIFICATE-----" ++ LF ]}
                {[ ["etc"]; ["etc"; "letsencrypt"]; ["etc"; "letsencrypt"; "live"];
                   ["etc"; "letsencrypt"; "live"; "example.com-0001"];
                   ["etc"; "letsencrypt"; "live"; "example.org"] ]})
          [] 0.

End Example.

(** * Properties *)

#[local] Arguments String.append !s1 s2 : simpl nomatch.

(** ** Strings *)

Section StrFacts.

Lemma append_nil_r (s : string) : s ++ "" = s.
Proof. induction s as [|c s IH]; simpl; [reflexivity | now rewrite IH]. Qed.

Lemma append_assoc (a b c : string) : (a ++ b) ++ c = a ++ (b ++ c).
Proof. induction a as [|x a IH]; simpl; [reflexivity | now rewrite IH]. Qed.

Lemma prefix_app (n r : string) : String.prefix n (n ++ r) = true.
Proof.
  induction n as [|c n IH]; simpl.
  - now destruct r.
  - destruct (Ascii.ascii_dec c c) as [_|ne]; [exact IH | now destruct ne].
Qed.

Lemma prefix_split (n h : string) :
  String.prefix n h = true -> exists r, h = n ++ r.
Proof.
  revert h. induction n as [|c n IH]; intros h H.
  - now exists h.
  - destruct h as [|d h]; simpl in H; [discriminate|].
    destruct (Ascii.ascii_dec c d) as [->|ne]; [|discriminate].
    destruct (IH h H) as [r ->]. now exists r.
Qed.

Lemma contains_prefix (n h : string) :
  String.prefix n h = true -> Str.contains n h = true.
Proof. intros H. destruct h; cbn [Str.contains]; now rewrite H. Qed.

Lemma contains_cons (n : string) (c : ascii) (h : string) :
  Str.contains n h = true -> Str.contains n (String c h) = true.
Proof. intros H. cbn [Str.contains]. now destruct (String.prefix n (String c h)). Qed.

(** [n in l + n + r] *)
Lemma contains_app (n l r : string) : Str.contains n (l ++ n ++ r) = true.
Proof.
  induction l as [|c l IH]; cbn [String.append].
  - apply contains_prefix, prefix_app.
  - now apply contains_cons.
Qed.

Lemma contains_split (n h : string) :
  Str.contains n h = true -> exists l r, h = l ++ n ++ r.
Proof.
  induction h as [|c h IH]; cbn [Str.contains].
  - destruct (String.prefix n "") eqn:E; [|discriminate].
    intros _. destruct (prefix_split _ _ E) as [r ->]. now exists "", r.
  - destruct (String.prefix n (String c h)) eqn:E.
    + intros _. destruct (prefix_split _ _ E) as [r ->]. now exists "", r.
    + intros H. destruct (IH H) as (l & r & ->). now exists (String c l), r.
Qed.

(** A needle that starts and ends with a character that is no white
    space survives [strip]. *)
Variable needle : string.
Variables first last_ : ascii.
Variable middle : string.
Hypothesis needle_first : needle = String first middle.
Hypothesis first_solid : Str.isspace first = false.
Hypothesis needle_last : exists init, needle = init ++ String last_ "".
Hypothesis last_solid : Str.isspace last_ = false.

Lemma contains_nonempty (h : string) : Str.contains needle h = true -> h <> "".
Proof. intros H ->. rewrite needle_first in H. discriminate. Qed.

Lemma contains_lstrip (h : string) :
  Str.contains needle h = true -> Str.contains needle (Str.lstrip h) = true.
Proof.
  induction h as [|c h IH]; [easy|].
  intros H. simpl. destruct (Str.isspace c) eqn:Ec; [|exact H].
  apply IH. cbn [Str.contains] in H.
  destruct (String.prefix needle (String c h)) eqn:E; [|exact H].
  rewrite needle_first in E. simpl in E.
  destruct (Ascii.ascii_dec first c) as [<-|]; [congruence | discriminate].
Qed.

Lemma rstrip_solid_end (init r : string) :
  Str.rstrip (init ++ String last_ r) = init ++ String last_ (Str.rstrip r).
Proof.
  induction init as [|c init IH]; simpl.
  - destruct (Str.rstrip r); [now rewrite last_solid | reflexivity].
  - rewrite IH. now destruct init.
Qed.

Lemma rstrip_needle (r : string) : exists r', Str.rstrip (needle ++ r) = needle ++ r'.
Proof.
  destruct needle_last as [init ->].
  rewrite append_assoc. simpl. rewrite rstrip_solid_end.
  exists (Str.rstrip r). now rewrite append_assoc.
Qed.

Lemma contains_rstrip (h : string) :
  Str.contains needle h = true -> Str.contains needle (Str.rstrip h) = true.
Proof.
  induction h as [|c h IH]; [easy|].
  intros H.
  destruct (String.prefix needle (String c h)) eqn:E.
  - destruct (prefix_split _ _ E) as [r ->].
    destruct (rstrip_needle r) as [r' ->].
    apply contains_prefix, prefix_app.
  - cbn [Str.contains] in H. rewrite E in H. specialize (IH H).
    simpl. destruct (Str.rstrip h) eqn:Er.
    + now apply contains_nonempty in IH.
    + now apply contains_cons.
Qed.

Lemma contains_strip (h : string) :
  Str.contains needle h = true -> Str.contains needle (Str.strip h) = true.
Proof. intros H. now apply contains_rstrip, contains_lstrip. Qed.

End StrFacts.

(** The quota phrase is still there after [output.strip()]. *)
Lemma quota_phrase_strip (output : string) :
  Str.contains CertBot.quota_phrase output = true ->
  Str.contains CertBot.quota_phrase (Str.strip output) = true.
Proof.
  apply (contains_strip CertBot.quota_phrase "1" "s" "68 hours"); try reflexivity.
  now exists "168 hour".
Qed.

(** ** The share link *)

(** C7. For every client configuration the share link is
    [juicity://<uuid>:<password>@<server>?congestion_control=<cc>&allow_insecure=<0|1>],
    followed by [&sni=<domain>] exactly when [sni] is a non-empty string;
    the configuration of the specification's example gives the link of the
    example. *)
Theorem sharelink_grammar :
  (forall server listen uuid password sni allow_insecure congestion_control log_level,
      NekoRayConfig.sharelink
        (ClientConfig server listen uuid password sni allow_insecure
                      congestion_control log_level) =
      Ok ("juicity://" ++ uuid ++ ":" ++ password ++ "@" ++ server ++
          "?congestion_control=" ++ congestion_control ++
          "&allow_insecure=" ++ (if allow_insecure then "1" else "0") ++
          match sni with
          | Some d => if String.eqb d "" then "" else "&sni=" ++ d
          | None => ""
          end)) /\
  NekoRayConfig.sharelink
    (ClientConfig "1.2.3.4:41999" "127.0.0.1:%socks_port%" "u1" "p1"
                  (Some "example.com") false "bbr" "info") =
  Ok "juicity://u1:p1@1.2.3.4:41999?congestion_control=bbr&allow_insecure=0&sni=example.com".
Proof.
  split; [|reflexivity].
  intros server listen uuid password sni ai cc ll.
  unfold NekoRayConfig.sharelink, ClientConfig; cbn [NekoRayConfig.allow_insecure
    NekoRayConfig.uuid NekoRayConfig.password NekoRayConfig.server NekoRayConfig.sni
    NekoRayConfig.congestion_control Py.int rbind Py.str].
  assert (Hd : Str.of_Z (if ai then 1 else 0) = if ai then "1" else "0") by now destruct ai.
  rewrite Hd. f_equal.
  destruct sni as [d|]; cbn [Py.truthy Py.str negb].
  - destruct (String.eqb d ""); cbn [negb].
    + now rewrite !append_nil_r.
    + now rewrite !append_assoc.
  - now rewrite !append_nil_r.
Qed.

(** ** Deserialization *)

Lemma dict_get_filter (P : string -> bool) (items : list (string * value)) (key : string) :
  P key = true ->
  Py.dict_get (List.filter (fun kv => P (fst kv)) items) key = Py.dict_get items key.
Proof.
  intros HP. induction items as [|[k v] items IH]; [reflexivity|].
  cbn [List.filter fst Py.dict_get].
  destruct (String.eqb k key) eqn:E.
  - apply String.eqb_eq in E. subst k. rewrite HP. cbn [Py.dict_get].
    now rewrite String.eqb_refl.
  - destruct (P k); [|exact IH]. cbn [Py.dict_get]. now rewrite E.
Qed.

Lemma from_dict_to_cls_documented (data : value) :
  from_dict_to_cls NekoRayConfig.cls data = NekoRayConfig_documented data.
Proof.
  destruct data as [| | | | |items]; try reflexivity.
  unfold from_dict_to_cls, NekoRayConfig_documented.
  cbn [NekoRayConfig.cls parameters construct rmap rbind Py.subscript dict_get_default].
  destruct (Py.dict_get items "server"); [|reflexivity].
  destruct (Py.dict_get items "listen"); [|reflexivity].
  destruct (Py.dict_get items "uuid"); [|reflexivity].
  destruct (Py.dict_get items "password"); [|reflexivity].
  destruct (Py.dict_get items "sni"), (Py.dict_get items "allow_insecure"),
    (Py.dict_get items "congestion_control"), (Py.dict_get items "log_level");
    reflexivity.
Qed.

Lemma from_json_documented (env : Env) (sp : list string) (st : State)
      (text : string) (data : value) :
  Fs.read_text (fs st) sp = Ok text ->
  json_loads env text = Some data ->
  NekoRayConfig.from_json env sp st =
  (match NekoRayConfig_documented data with
   | Ok c => Done c
   | Raise e => Halt (Uncaught e)
   end, st).
Proof.
  intros Hread Hload.
  unfold NekoRayConfig.from_json, PathIO.read_text, bind, get_fs.
  rewrite Hread. cbn [lift ret]. rewrite Hload. cbn [ret].
  rewrite from_dict_to_cls_documented.
  now destruct (NekoRayConfig_documented data).
Qed.

(** C6, as amended. For every JSON document given to the deserialization
    of the client configuration: a key that is no field of the record is
    ignored; a missing optional field ([sni], [allow_insecure],
    [congestion_control], [log_level]) takes its default; a missing
    required field ([server], [listen], [uuid], [password]) raises
    [KeyError], and a document that is no object raises [TypeError]. *)
Theorem deserialize_client_config :
  (forall data, from_dict_to_cls NekoRayConfig.cls data = NekoRayConfig_documented data) /\
  (forall items,
      from_dict_to_cls NekoRayConfig.cls (VDict items) =
      from_dict_to_cls NekoRayConfig.cls
        (VDict (List.filter
                  (fun kv => existsb (String.eqb (fst kv)) NekoRayConfig_fields) items))) /\
  (forall env sp st text data,
      Fs.read_text (fs st) sp = Ok text ->
      json_loads env text = Some data ->
      NekoRayConfig.from_json env sp st =
      (match NekoRayConfig_documented data with
       | Ok c => Done c
       | Raise e => Halt (Uncaught e)
       end, st)).
Proof.
  split; [exact from_dict_to_cls_documented|].
  split; [|exact from_json_documented].
  intros items. rewrite !from_dict_to_cls_documented.
  unfold NekoRayConfig_documented.
  rewrite !(dict_get_filter (fun k => existsb (String.eqb k) NekoRayConfig_fields))
    by reflexivity.
  reflexivity.
Qed.

Lemma deserialize_client_config_witness :
  NekoRayConfig.from_json Example.env_ok Project.client_nekoray_config Example.st_with_extra =
  (Done (ClientConfig "1.2.3.4:41999" "127.0.0.1:%socks_port%" "u1" "p1" None false
                      "bbr" "info"),
   Example.st_with_extra).
Proof.
  destruct deserialize_client_config as (_ & _ & H).
  apply (H Example.env_ok Project.client_nekoray_config Example.st_with_extra
           Example.text_with_extra
           (VDict [("server", VStr "1.2.3.4:41999");
                   ("listen", VStr "127.0.0.1:%socks_port%");
                   ("comment", VList [VInt 1; VNone]);
                   ("uuid", VStr "u1"); ("password", VStr "p1")])).
  - vm_compute. reflexivity.
  - vm_compute. reflexivity.
Defined.

(** C6 as stated fails: a document without the field [server] is not
    completed with a default, reading it raises [KeyError]. *)
Lemma deserialize_missing_required :
  NekoRayConfig.from_json Example.env_ok Project.client_nekoray_config
                          Example.st_without_server =
  (Halt (Uncaught (KeyError "server")), Example.st_without_server).
Proof. vm_compute. reflexivity. Qed.

(** ** The JSON codec reads back what it writes *)

Lemma read_chars_escape_ascii (c : ascii) (X : string) :
  (nat_of_ascii c < 128)%nat ->
  Json.read_chars None (Json.escape_ascii c ++ X) =
  match Json.read_chars None X with
  | Some (t, r) => Some (String c t, r)
  | None => None
  end.
Proof.
  destruct c as [b0 b1 b2 b3 b4 b5 b6 b7]. intros Hc.
  destruct b7; [exfalso; revert Hc; destruct b0, b1, b2, b3, b4, b5, b6; vm_compute; lia|].
  clear Hc.
  destruct b0, b1, b2, b3, b4, b5, b6; reflexivity.
Qed.

Lemma escape_cons_ascii (c : ascii) (s : string) :
  (nat_of_ascii c < 128)%nat ->
  Json.escape (String c s) = Json.escape_ascii c ++ Json.escape s.
Proof.
  intros Hc. cbn [Json.escape].
  apply Nat.ltb_lt in Hc. now rewrite Hc.
Qed.

Lemma read_chars_escape (s rest : string) :
  ascii_text s ->
  Json.read_chars None (Json.escape s ++ String Py.dquote rest) = Some (s, rest).
Proof.
  induction s as [|c s IH]; intros Hs.
  - reflexivity.
  - destruct Hs as [Hc Hs].
    rewrite (escape_cons_ascii c s Hc), append_assoc, (read_chars_escape_ascii c _ Hc).
    now rewrite (IH Hs).
Qed.

Lemma value_nested_ind (P : value -> Prop) :
  P VNone ->
  (forall b, P (VBool b)) ->
  (forall z, P (VInt z)) ->
  (forall s, P (VStr s)) ->
  (forall l, Forall P l -> P (VList l)) ->
  (forall items, Forall (fun kv => P (snd kv)) items -> P (VDict items)) ->
  forall v, P v.
Proof.
  intros HN HB HZ HS HL HD.
  fix IH 1. intros [| b | z | s | l | items].
  - exact HN.
  - apply HB.
  - apply HZ.
  - apply HS.
  - apply HL. induction l as [|x l IHl]; constructor; [apply IH | exact IHl].
  - apply HD. induction items as [|[k x] items IHi]; constructor; [apply IH | exact IHi].
Qed.

Lemma skip_ws_app (w s : string) : all_ws w -> Json.skip_ws (w ++ s) = Json.skip_ws s.
Proof.
  induction w as [|c w IH]; intros Hw; [reflexivity|].
  destruct Hw as [Hc Hw]. cbn [String.append Json.skip_ws]. rewrite Hc. now apply IH.
Qed.

Lemma all_ws_spaces (n : nat) : all_ws (Json.spaces n).
Proof. induction n; cbn; auto. Qed.

Lemma all_ws_app (a b : string) : all_ws a -> all_ws b -> all_ws (a ++ b).
Proof. induction a as [|c a IH]; cbn; [auto|]. intros [Hc Ha] Hb. auto. Qed.

Lemma all_ws_indent (n : nat) : all_ws (LF ++ Json.spaces n).
Proof. split; [reflexivity | apply all_ws_spaces]. Qed.

Lemma dumps_at_head (lvl : nat) (v : value) :
  json_plain v ->
  exists c t, Json.dumps_at lvl v = String c t /\ opens_value c.
Proof.
  destruct v as [| [|] | z | s | [|x l] | [|[k x] items]]; cbn [json_plain];
    intros Hv; try destruct Hv;
    try (eexists; eexists; split; [reflexivity | repeat split; easy]).
Qed.
Lemma skip_ws_head (c : ascii) (t : string) :
  Json.is_ws c = false -> Json.skip_ws (String c t) = String c t.
Proof. intros Hc. cbn [Json.skip_ws]. now rewrite Hc. Qed.

Lemma read_value_quoted (fuel : nat) (s rest : string) :
  ascii_text s ->
  Json.read_value (S fuel) (Json.quoted s ++ rest) = Some (VStr s, rest).
Proof.
  intros Hs. unfold Json.quoted. cbn [String.append]. rewrite append_assoc.
  cbn [String.append]. simpl Json.read_value.
  now rewrite (read_chars_escape s rest Hs).
Qed.

Lemma weight_list (l : list value) : weight (VList l) = S (sum_weight l).
Proof. reflexivity. Qed.

Lemma weight_dict (items : list (string * value)) :
  weight (VDict items) = S (sum_weight_items items).
Proof. reflexivity. Qed.

Lemma json_plain_list (l : list value) : json_plain (VList l) <-> Forall json_plain l.
Proof.
  cbn [json_plain]. induction l as [|x l IH]; [split; auto|].
  rewrite Forall_cons_iff. now rewrite IH.
Qed.

Lemma json_plain_dict (items : list (string * value)) :
  json_plain (VDict items) <-> NoDup (map fst items) /\ Forall plain_item items.
Proof.
  cbn [json_plain]. apply and_iff_compat_l.
  induction items as [|[k x] items IH]; [split; auto|].
  rewrite Forall_cons_iff, <- IH. unfold plain_item. cbn [fst snd]. tauto.
Qed.

Lemma skip_ws_dumps (lvl : nat) (v : value) (rest : string) :
  json_plain v ->
  Json.skip_ws (Json.dumps_at lvl v ++ rest) = Json.dumps_at lvl v ++ rest.
Proof.
  intros Hv. destruct (dumps_at_head lvl v Hv) as (c & t & -> & Hc & _).
  cbn [String.append]. now apply skip_ws_head.
Qed.

Lemma read_elements_join (lvl : nat) (sep_ws : string) (l : list value) :
  Forall reads_back l ->
  Forall json_plain l ->
  l <> [] ->
  all_ws sep_ws ->
  forall w close rest fuel,
    all_ws w -> all_ws close -> (sum_weight l <= fuel)%nat ->
    Json.read_elements fuel
      (w ++ Str.join (String "," sep_ws) (map (Json.dumps_at lvl) l) ++ close ++ String "]" rest)
    = Some (l, rest).
Proof.
  intros Hrb Hpl Hne Hsep.
  induction l as [|x l IH]; [contradiction|].
  intros w close rest fuel Hw Hclose Hfuel.
  apply Forall_cons_iff in Hrb as [Hx Hrb]. apply Forall_cons_iff in Hpl as [Hpx Hpl].
  cbn [sum_weight] in Hfuel. destruct fuel as [|fuel]; [lia|].
  cbn [Json.read_elements]. rewrite (skip_ws_app w _ Hw).
  destruct l as [|y l].
  - cbn [map Str.join].
    rewrite (skip_ws_dumps lvl x _ Hpx), (Hx Hpx lvl _ fuel) by lia.
    rewrite (skip_ws_app close _ Hclose). reflexivity.
  - change (Str.join (String "," sep_ws) (map (Json.dumps_at lvl) (x :: y :: l)))
      with (Json.dumps_at lvl x ++ (String "," sep_ws)
              ++ Str.join (String "," sep_ws) (map (Json.dumps_at lvl) (y :: l))).
    rewrite !append_assoc.
    rewrite (skip_ws_dumps lvl x _ Hpx), (Hx Hpx lvl _ fuel) by lia.
    cbn [String.append]. rewrite skip_ws_head by reflexivity.
    rewrite (IH Hrb Hpl) by (try easy; cbn [sum_weight] in *; lia).
    reflexivity.
Qed.

Lemma skip_ws_space (s : string) : Json.skip_ws (String " " s) = Json.skip_ws s.
Proof. reflexivity. Qed.

Lemma add_member_fresh (k : string) (v : value) (kvs : list (string * value)) :
  ~ In k (map fst kvs) -> Json.add_member k v kvs = (k, v) :: kvs.
Proof.
  intros Hk. unfold Json.add_member. f_equal.
  - f_equal. induction kvs as [|[k' v'] kvs IH]; [reflexivity|].
    cbn [Py.dict_get]. destruct (String.eqb k' k) eqn:E.
    + apply String.eqb_eq in E. subst. destruct Hk. now left.
    + apply IH. intros Hin. apply Hk. now right.
  - induction kvs as [|[k' v'] kvs IH]; [reflexivity|].
    cbn [List.filter fst]. destruct (String.eqb k' k) eqn:E.
    + apply String.eqb_eq in E. subst. destruct Hk. now left.
    + cbn [negb]. f_equal. apply IH. intros Hin. apply Hk. now right.
Qed.

Lemma read_members_join (lvl : nat) (sep_ws : string) (items : list (string * value)) :
  Forall (fun kv => reads_back (snd kv)) items ->
  Forall plain_item items ->
  NoDup (map fst items) ->
  items <> [] ->
  all_ws sep_ws ->
  forall w close rest fuel,
    all_ws w -> all_ws close -> (sum_weight_items items <= fuel)%nat ->
    Json.read_members fuel
      (w ++ Str.join (String "," sep_ws) (map (member_text lvl) items)
         ++ close ++ String "}" rest)
    = Some (items, rest).
Proof.
  intros Hrb Hpl Hnd Hne Hsep.
  induction items as [|[k x] items IH]; [contradiction|].
  intros w close rest fuel Hw Hclose Hfuel.
  apply Forall_cons_iff in Hrb as [Hx Hrb]. apply Forall_cons_iff in Hpl as [[Hk Hpx] Hpl].
  cbn [fst snd] in Hx, Hk, Hpx.
  cbn [map fst] in Hnd. apply NoDup_cons in Hnd as [Hfresh Hnd].
  rewrite list_elem_of_In in Hfresh.
  cbn [sum_weight_items] in Hfuel. destruct fuel as [|fuel]; [lia|].
  cbn [Json.read_members]. rewrite (skip_ws_app w _ Hw).
  assert (Hmember : forall Y,
             member_text lvl (k, x) ++ Y =
             String Py.dquote (Json.escape k ++ String Py.dquote
                                 (String ":" (String " " (Json.dumps_at lvl x ++ Y))))).
  { intros Y. unfold member_text, Json.quoted. cbn [fst snd String.append].
    now rewrite !append_assoc. }
  destruct items as [|kv items].
  - cbn [map Str.join]. rewrite Hmember.
    rewrite skip_ws_head by reflexivity.
    change (Ascii.eqb Py.dquote Py.dquote) with true. cbv iota.
    rewrite (read_chars_escape k _ Hk).
    rewrite skip_ws_head by reflexivity.
    rewrite skip_ws_space.
    rewrite (skip_ws_dumps lvl x _ Hpx), (Hx Hpx lvl _ fuel) by lia.
    rewrite (skip_ws_app close _ Hclose). reflexivity.
  - change (Str.join (String "," sep_ws) (map (member_text lvl) ((k, x) :: kv :: items)))
      with (member_text lvl (k, x) ++ (String "," sep_ws)
              ++ Str.join (String "," sep_ws) (map (member_text lvl) (kv :: items))).
    rewrite append_assoc, Hmember.
    rewrite skip_ws_head by reflexivity.
    change (Ascii.eqb Py.dquote Py.dquote) with true. cbv iota.
    rewrite (read_chars_escape k _ Hk).
    rewrite skip_ws_head by reflexivity.
    rewrite skip_ws_space.
    rewrite (skip_ws_dumps lvl x _ Hpx), (Hx Hpx lvl _ fuel) by lia.
    rewrite !append_assoc. cbn [String.append]. rewrite skip_ws_head by reflexivity.
    rewrite (IH Hrb Hpl Hnd) by (try easy; cbn [sum_weight_items] in *; lia).
    now rewrite add_member_fresh.
Qed.

Lemma dumps_list_app (lvl : nat) (x : value) (l : list value) (rest : string) :
  Json.dumps_at lvl (VList (x :: l)) ++ rest =
  String "[" ((LF ++ Json.spaces (4 * S lvl))
                ++ Str.join (String "," (LF ++ Json.spaces (4 * S lvl)))
                            (map (Json.dumps_at (S lvl)) (x :: l))
                ++ (LF ++ Json.spaces (4 * lvl)) ++ String "]" rest).
Proof.
  cbn [Json.dumps_at]. cbn [String.append]. rewrite !append_assoc.
  cbn [String.append]. reflexivity.
Qed.

Lemma dumps_members_map (lvl : nat) (items : list (string * value)) :
  (fix go (kvs : list (string * value)) : list string :=
     match kvs with
     | [] => []
     | (k, x) :: kvs' => (Json.quoted k ++ ": " ++ Json.dumps_at lvl x) :: go kvs'
     end) items = map (member_text lvl) items.
Proof.
  induction items as [|[k x] items IH]; [reflexivity|].
  cbn [map]. now rewrite <- IH.
Qed.

Lemma dumps_dict_app (lvl : nat) (kv : string * value) (items : list (string * value))
      (rest : string) :
  Json.dumps_at lvl (VDict (kv :: items)) ++ rest =
  String "{" ((LF ++ Json.spaces (4 * S lvl))
                ++ Str.join (String "," (LF ++ Json.spaces (4 * S lvl)))
                            (map (member_text (S lvl)) (kv :: items))
                ++ (LF ++ Json.spaces (4 * lvl)) ++ String "}" rest).
Proof.
  destruct kv as [k x].
  cbn [Json.dumps_at]. rewrite dumps_members_map.
  cbn [String.append]. rewrite !append_assoc.
  cbn [String.append]. reflexivity.
Qed.

Lemma join_head (sep : string) (d : value -> string) (x : value) (l : list value)
      (Y : string) :
  (exists c t, d x = String c t /\ opens_value c) ->
  exists c t, Str.join sep (map d (x :: l)) ++ Y = String c t /\ opens_value c.
Proof.
  intros (c & t & Hd & Hc). destruct l as [|y l]; cbn [map Str.join]; rewrite Hd.
  - exists c, (t ++ Y). now split.
  - exists c, ((t ++ sep ++ Str.join sep (map d (y :: l))) ++ Y). now split.
Qed.

Lemma members_head (sep : string) (lvl : nat) (kv : string * value)
      (items : list (string * value)) (Y : string) :
  exists t,
    Str.join sep (map (member_text lvl) (kv :: items)) ++ Y = String Py.dquote t.
Proof.
  destruct items as [|kv' items]; cbn [map Str.join]; unfold member_text at 1;
    unfold Json.quoted at 1; cbn [String.append]; eexists; reflexivity.
Qed.

Lemma opens_value_not (c : ascii) :
  opens_value c -> Ascii.eqb c "]" = false /\ Ascii.eqb c "}" = false.
Proof. intros (_ & H1 & H2). split; now apply Ascii.eqb_neq. Qed.

(** Every plain value is read back from its text. *)
Lemma read_value_dumps (v : value) : reads_back v.
Proof.
  induction v as [| b | z | s | l IHl | items IHi] using value_nested_ind;
    intros Hv lvl rest fuel Hfuel.
  - destruct fuel; [cbn in Hfuel; lia | reflexivity].
  - destruct fuel; [cbn in Hfuel; lia | now destruct b].
  - destruct Hv.
  - destruct fuel; [cbn in Hfuel; lia|]. now apply read_value_quoted.
  - rewrite weight_list in Hfuel. destruct fuel as [|fuel]; [lia|].
    apply json_plain_list in Hv.
    destruct l as [|x l]; [reflexivity|].
    rewrite dumps_list_app.
    pose proof (Forall_inv Hv) as Hx.
    destruct (join_head (String "," (LF ++ Json.spaces (4 * S lvl)))
                        (Json.dumps_at (S lvl)) x l
                        ((LF ++ Json.spaces (4 * lvl)) ++ String "]" rest)
                        (dumps_at_head (S lvl) x Hx)) as (c & t & Hhead & Hc).
    cbn [Json.read_value].
    rewrite (skip_ws_app _ _ (all_ws_indent _)), Hhead.
    rewrite (skip_ws_head c t) by apply Hc.
    rewrite (proj1 (opens_value_not c Hc)). rewrite <- Hhead.
    rewrite (read_elements_join (S lvl) _ (x :: l) IHl Hv); try easy;
      try apply all_ws_indent.
    lia.
  - rewrite weight_dict in Hfuel. destruct fuel as [|fuel]; [lia|].
    apply json_plain_dict in Hv as [Hnd Hv].
    destruct items as [|kv items]; [reflexivity|].
    rewrite dumps_dict_app.
    destruct (members_head (String "," (LF ++ Json.spaces (4 * S lvl))) (S lvl) kv items
                           ((LF ++ Json.spaces (4 * lvl)) ++ String "}" rest))
      as (t & Hhead).
    cbn [Json.read_value].
    rewrite (skip_ws_app _ _ (all_ws_indent _)), Hhead.
    rewrite (skip_ws_head Py.dquote t) by reflexivity.
    change (Ascii.eqb Py.dquote "}") with false. cbv iota. rewrite <- Hhead.
    rewrite (read_members_join (S lvl) _ (kv :: items) IHi Hv Hnd); try easy;
      try apply all_ws_indent.
    lia.
Qed.

Lemma length_append (a b : string) :
  String.length (a ++ b) = (String.length a + String.length b)%nat.
Proof. induction a as [|c a IH]; cbn [String.append String.length]; [reflexivity | now rewrite IH]. Qed.

Lemma join_length (sep : string) (ws : list string) :
  (1 <= String.length sep)%nat ->
  (list_sum (map String.length ws) + List.length ws
   <= String.length (Str.join sep ws) + 1)%nat.
Proof.
  intros Hsep. unfold list_sum. induction ws as [|w ws IH]; [cbn; lia|].
  destruct ws as [|w' ws].
  - cbn. lia.
  - change (Str.join sep (w :: w' :: ws)) with (w ++ sep ++ Str.join sep (w' :: ws)).
    rewrite !length_append. cbn [map fold_right List.length] in *. lia.
Qed.

Lemma sum_weight_length (d : value -> string) (l : list value) :
  Forall (fun x => (weight x <= String.length (d x))%nat) l ->
  (sum_weight l <= list_sum (map String.length (map d l)) + List.length (map d l))%nat.
Proof.
  unfold list_sum.
  induction 1 as [|x l Hx Hl IH]; cbn [sum_weight map fold_right List.length]; lia.
Qed.

Lemma sum_weight_items_length (d : string * value -> string) (items : list (string * value)) :
  Forall (fun kv => (weight (snd kv) <= String.length (d kv))%nat) items ->
  (sum_weight_items items
   <= list_sum (map String.length (map d items)) + List.length (map d items))%nat.
Proof.
  unfold list_sum.
  induction 1 as [|[k x] items Hx Hl IH];
    cbn [sum_weight_items map fold_right List.length snd] in *; lia.
Qed.

(** The text of a value is at least as long as the fuel reading it takes. *)
Lemma weight_le_length (v : value) :
  forall lvl, (weight v <= String.length (Json.dumps_at lvl v))%nat.
Proof.
  induction v as [| b | z | s | l IHl | items IHi] using value_nested_ind; intros lvl.
  - cbn. lia.
  - destruct b; cbn; lia.
  - cbn [weight Json.dumps_at]. unfold Str.of_Z.
    destruct (Z.to_int z) as [d|d]; cbn [NilZero.string_of_int].
    + unfold NilZero.string_of_uint. destruct d; cbn; lia.
    + cbn. lia.
  - cbn. lia.
  - rewrite weight_list. destruct l as [|x l]; [cbn; lia|].
    rewrite <- (append_nil_r (Json.dumps_at lvl (VList (x :: l)))), dumps_list_app.
    cbn [String.length]. rewrite !length_append.
    pose proof (join_length (String "," (LF ++ Json.spaces (4 * S lvl)))
                            (map (Json.dumps_at (S lvl)) (x :: l))) as Hj.
    pose proof (sum_weight_length (Json.dumps_at (S lvl)) (x :: l)) as Hs.
    assert (Hall : Forall (fun x => (weight x <= String.length (Json.dumps_at (S lvl) x))%nat)
                          (x :: l)).
    { eapply Forall_impl; [exact IHl|]. intros y Hy. apply Hy. }
    specialize (Hs Hall). unfold list_sum in *.
    cbn [String.length String.append] in *. lia.
  - rewrite weight_dict. destruct items as [|kv items]; [cbn; lia|].
    rewrite <- (append_nil_r (Json.dumps_at lvl (VDict (kv :: items)))), dumps_dict_app.
    cbn [String.length]. rewrite !length_append.
    pose proof (join_length (String "," (LF ++ Json.spaces (4 * S lvl)))
                            (map (member_text (S lvl)) (kv :: items))) as Hj.
    pose proof (sum_weight_items_length (member_text (S lvl)) (kv :: items)) as Hs.
    assert (Hall : Forall (fun kv => (weight (snd kv)
                                      <= String.length (member_text (S lvl) kv))%nat)
                          (kv :: items)).
    { eapply Forall_impl; [exact IHi|]. intros [k y] Hy. cbn [snd] in *.
      unfold member_text. rewrite !length_append. cbn [snd]. specialize (Hy (S lvl)). lia. }
    specialize (Hs Hall). unfold list_sum in *.
    cbn [String.length String.append] in *. lia.
Qed.

(** The codec reads back the text of every plain value. *)
Theorem loads_dumps (v : value) :
  json_plain v -> Json.loads (Json.dumps v) = Some v.
Proof.
  intros Hv. unfold Json.loads, Json.dumps.
  rewrite <- (append_nil_r (Json.dumps_at 0 v)) at 2.
  rewrite (skip_ws_dumps 0 v "" Hv).
  rewrite (read_value_dumps v Hv 0%nat "" _ (weight_le_length v 0%nat)).
  reflexivity.
Qed.


(** ** Round trip of the configuration files *)

Lemma read_after_write (f f' : FS) (p : list string) (text : string) :
  Fs.write_text f p text = Ok f' -> Fs.read_text f' p = Ok text.
Proof.
  unfold Fs.write_text, Fs.read_text.
  destruct (Fs.writable f p); cbn [rbind]; [|discriminate].
  intros [= <-]. cbn [files]. now rewrite lookup_insert_eq.
Qed.

Lemma write_text_writable (f : FS) (p : list string) (text : string) :
  Fs.writable f p = Ok tt ->
  Fs.write_text f p text = Ok (mkFS (<[p := text]> (files f)) (dirs f)).
Proof. intros H. unfold Fs.write_text. now rewrite H. Qed.

Lemma NekoRayConfig_round_trip_dict (x : NekoRayConfig.t) :
  from_dict_to_cls NekoRayConfig.cls (NekoRayConfig.__dict__ x) = Ok x.
Proof. now destruct x. Qed.

Lemma ServerConfig_round_trip_dict (x : ServerConfig.t) :
  ServerConfig_valid x ->
  from_dict_to_cls ServerConfig.cls (ServerConfig.__dict__ x) = Ok x.
Proof.
  destruct x as [l c k u cc ll]. intros [[port Hl] [items Hu]].
  cbn [ServerConfig.listen ServerConfig.users] in Hl, Hu. subst l u.
  unfold from_dict_to_cls, ServerConfig.__dict__.
  cbn -[ServerConfig.__init__].
  unfold ServerConfig.__init__, ServerConfig.__post_init__.
  cbn [ServerConfig.listen ServerConfig.users ServerConfig.certificate
       ServerConfig.private_key ServerConfig.congestion_control ServerConfig.log_level].
  assert (Str.startswith (String ":" port) ":" = true) as ->
    by (unfold Str.startswith; cbn; now destruct port).
  now destruct items.
Qed.

(** What the constructor builds from a port number is valid. *)
Lemma from_automation_valid (users : User.t + list User.t)
      (path_fullchain path_privkey : string) (server_port : Z) :
  exists x,
    ServerConfig.from_automation users path_fullchain path_privkey server_port = Ok x /\
    ServerConfig_valid x.
Proof.
  unfold ServerConfig.from_automation, ServerConfig.__init__, ServerConfig.__post_init__.
  cbn [ServerConfig.listen ServerConfig.users Py.str].
  generalize (Py.repr (VInt server_port)) as s. intros s.
  eexists; split; [reflexivity|]. split.
  - cbn [ServerConfig.listen].
    destruct (Str.startswith s ":") eqn:E; cbn [negb].
    + apply prefix_split in E. destruct E as [r ->]. now exists r.
    + now exists s.
  - cbn [ServerConfig.users]. destruct (Py.truthy _); eauto.
Qed.

(** Saving a client configuration and reading the file back, on a codec
    that reads back the document it wrote. *)
Lemma client_config_file_round_trip (env : Env) (sp : list string) (st : State)
      (x : NekoRayConfig.t) :
  Fs.writable (fs st) sp = Ok tt ->
  json_loads env (json_dumps env (NekoRayConfig.__dict__ x))
  = Some (NekoRayConfig.__dict__ x) ->
  let st' := snd (NekoRayConfig.to_json env x sp st) in
  fst (NekoRayConfig.to_json env x sp st) = Done tt /\
  NekoRayConfig.from_json env sp st' = (Done x, st').
Proof.
  intros Hw Hcodec.
  unfold NekoRayConfig.to_json, PathIO.write_text, emit, get_fs, put_fs, bind.
  cbn [fs]. rewrite (write_text_writable _ _ _ Hw). cbn [lift ret snd fst fs].
  split; [reflexivity|].
  unfold NekoRayConfig.from_json, PathIO.read_text, bind, get_fs. cbn [fs].
  unfold Fs.read_text. cbn [files]. rewrite lookup_insert_eq. cbn [lift ret].
  rewrite Hcodec. cbn [ret]. now rewrite NekoRayConfig_round_trip_dict.
Qed.

(** The same for a valid server configuration; the class has no reader of
    its own, the file is read the way [NekoRayConfig.from_json] reads. *)
Lemma server_config_file_round_trip (env : Env) (sp : list string) (st : State)
      (x : ServerConfig.t) :
  Fs.writable (fs st) sp = Ok tt ->
  ServerConfig_valid x ->
  json_loads env (json_dumps env (ServerConfig.__dict__ x))
  = Some (ServerConfig.__dict__ x) ->
  let st' := snd (ServerConfig.to_json env x sp st) in
  fst (ServerConfig.to_json env x sp st) = Done tt /\
  (let? text := Fs.read_text (fs st') sp in
   match json_loads env text with
   | Some data => from_dict_to_cls ServerConfig.cls data
   | None => Raise JSONDecodeError
   end)%result = Ok x.
Proof.
  intros Hw Hx Hcodec.
  unfold ServerConfig.to_json, PathIO.write_text, Logging.info, emit, get_fs, put_fs, bind.
  cbn [fs]. rewrite (write_text_writable _ _ _ Hw). cbn [lift ret snd fst fs].
  split; [reflexivity|].
  unfold Fs.read_text. cbn [files]. rewrite lookup_insert_eq. cbn [rbind].
  rewrite Hcodec. now apply ServerConfig_round_trip_dict.
Qed.

(** C5. For every client configuration and every valid server
    configuration, reading back the JSON file the configuration was saved
    to yields the same value in every field, defaults included, on a codec
    that reads back the document it wrote. *)
Theorem config_round_trip (env : Env) (sp : list string) (st : State) :
  Fs.writable (fs st) sp = Ok tt ->
  (forall x : NekoRayConfig.t,
      json_loads env (json_dumps env (NekoRayConfig.__dict__ x))
      = Some (NekoRayConfig.__dict__ x) ->
      let st' := snd (NekoRayConfig.to_json env x sp st) in
      fst (NekoRayConfig.to_json env x sp st) = Done tt /\
      NekoRayConfig.from_json env sp st' = (Done x, st')) /\
  (forall x : ServerConfig.t,
      ServerConfig_valid x ->
      json_loads env (json_dumps env (ServerConfig.__dict__ x))
      = Some (ServerConfig.__dict__ x) ->
      let st' := snd (ServerConfig.to_json env x sp st) in
      fst (ServerConfig.to_json env x sp st) = Done tt /\
      (let? text := Fs.read_text (fs st') sp in
       match json_loads env text with
       | Some data => from_dict_to_cls ServerConfig.cls data
       | None => Raise JSONDecodeError
       end)%result = Ok x).
Proof.
  intros Hw. split.
  - intros x. now apply client_config_file_round_trip.
  - intros x. now apply server_config_file_round_trip.
Qed.

Lemma config_round_trip_witness :
  let env := Example.env_ok in
  let st := Example.st_workstation in
  NekoRayConfig.from_json env Project.client_nekoray_config
    (snd (NekoRayConfig.to_json env Example.client_u1 Project.client_nekoray_config st))
  = (Done Example.client_u1,
     snd (NekoRayConfig.to_json env Example.client_u1 Project.client_nekoray_config st)) /\
  (let? text :=
     Fs.read_text
       (fs (snd (ServerConfig.to_json env Example.server_u1 Project.server_config st)))
       Project.server_config in
   match json_loads env text with
   | Some data => from_dict_to_cls ServerConfig.cls data
   | None => Raise JSONDecodeError
   end)%result = Ok Example.server_u1.
Proof.
  split.
  - apply (config_round_trip Example.env_ok Project.client_nekoray_config
             Example.st_workstation);
      vm_compute; reflexivity.
  - apply (config_round_trip Example.env_ok Project.server_config
             Example.st_workstation).
    + vm_compute; reflexivity.
    + split; [exists "41999" | exists []]; reflexivity.
    + vm_compute; reflexivity.
Defined.

(** On the JSON codec of this development the round trip holds outright
    for the configurations whose attributes have the annotated types and
    whose text is ASCII. *)

Lemma client_dict_plain (server listen uuid password : string) (sni : option string)
      (allow_insecure : bool) (congestion_control log_level : string) :
  ascii_text server -> ascii_text listen -> ascii_text uuid -> ascii_text password ->
  match sni with Some d => ascii_text d | None => True end ->
  ascii_text congestion_control -> ascii_text log_level ->
  json_plain (NekoRayConfig.__dict__
                (ClientConfig server listen uuid password sni allow_insecure
                              congestion_control log_level)).
Proof.
  intros Hs Hl Hu Hp Hn Hc Hll. apply json_plain_dict. split.
  - apply (bool_decide_unpack _). vm_compute. exact I.
  - unfold ClientConfig, NekoRayConfig.__dict__.
    cbn [NekoRayConfig.server NekoRayConfig.listen NekoRayConfig.uuid NekoRayConfig.password
         NekoRayConfig.sni NekoRayConfig.allow_insecure NekoRayConfig.congestion_control
         NekoRayConfig.log_level].
    repeat constructor; cbn; auto; try (vm_compute; tauto).
    destruct sni; exact Hn.
Qed.

Theorem client_config_round_trip_json (env : Env) (sp : list string) (st : State)
        (server listen uuid password : string) (sni : option string)
        (allow_insecure : bool) (congestion_control log_level : string) :
  json_dumps env = Json.dumps ->
  json_loads env = Json.loads ->
  Fs.writable (fs st) sp = Ok tt ->
  ascii_text server -> ascii_text listen -> ascii_text uuid -> ascii_text password ->
  match sni with Some d => ascii_text d | None => True end ->
  ascii_text congestion_control -> ascii_text log_level ->
  let x := ClientConfig server listen uuid password sni allow_insecure
                        congestion_control log_level in
  let st' := snd (NekoRayConfig.to_json env x sp st) in
  NekoRayConfig.from_json env sp st' = (Done x, st').
Proof.
  intros Hd Hl Hw Hs Hli Hu Hp Hn Hc Hll x st'.
  apply (client_config_file_round_trip env sp st x Hw).
  rewrite Hd, Hl. apply loads_dumps. now apply client_dict_plain.
Qed.

Lemma server_dict_plain (port certificate private_key : string)
      (users : list (string * string)) (congestion_control log_level : string) :
  ascii_text port -> ascii_text certificate -> ascii_text private_key ->
  NoDup (map fst users) ->
  Forall (fun up => ascii_text (fst up) /\ ascii_text (snd up)) users ->
  ascii_text congestion_control -> ascii_text log_level ->
  json_plain (ServerConfig.__dict__
                (ServerConfigTyped port certificate private_key users
                                   congestion_control log_level)).
Proof.
  intros Hp Hc Hk Hnd Hus Hcc Hll. apply json_plain_dict. split.
  - apply (bool_decide_unpack _). vm_compute. exact I.
  - unfold ServerConfigTyped, ServerConfig.__dict__.
    cbn [ServerConfig.listen ServerConfig.certificate ServerConfig.private_key
         ServerConfig.users ServerConfig.congestion_control ServerConfig.log_level].
    assert (Hu : json_plain (VDict (map (fun up => (fst up, VStr (snd up))) users))).
    { apply json_plain_dict. split.
      - rewrite map_map. cbn [fst]. exact Hnd.
      - apply Forall_map. eapply Forall_impl; [exact Hus|]. intros [u p] H. exact H. }
    repeat (constructor; [split; cbn [fst snd] |]); try apply Forall_nil;
      try assumption; try (vm_compute; repeat split; lia).
    cbn [json_plain ascii_text String.append]. split; [vm_compute; lia | exact Hp].
Qed.

Theorem server_config_round_trip_json (env : Env) (sp : list string) (st : State)
        (port certificate private_key : string) (users : list (string * string))
        (congestion_control log_level : string) :
  json_dumps env = Json.dumps ->
  json_loads env = Json.loads ->
  Fs.writable (fs st) sp = Ok tt ->
  ascii_text port -> ascii_text certificate -> ascii_text private_key ->
  NoDup (map fst users) ->
  Forall (fun up => ascii_text (fst up) /\ ascii_text (snd up)) users ->
  ascii_text congestion_control -> ascii_text log_level ->
  let x := ServerConfigTyped port certificate private_key users
                             congestion_control log_level in
  let st' := snd (ServerConfig.to_json env x sp st) in
  (let? text := Fs.read_text (fs st') sp in
   match json_loads env text with
   | Some data => from_dict_to_cls ServerConfig.cls data
   | None => Raise JSONDecodeError
   end)%result = Ok x.
Proof.
  intros Hd Hl Hw Hp Hc Hk Hnd Hus Hcc Hll x st'.
  apply (server_config_file_round_trip env sp st x Hw).
  - split; [now exists port | eexists; reflexivity].
  - rewrite Hd, Hl. apply loads_dumps. now apply server_dict_plain.
Qed.

(** ** The shell alias *)

Ltac unfold_M :=
  unfold PathIO.exists_, PathIO.is_dir, PathIO.read_text, PathIO.write_text,
    PathIO.append_text, Os.makedirs, Os.listdir, Os.system, Logging.info,
    Logging.warning, Logging.error, print, rmtree, host, emit, get_fs, put_fs,
    sys_exit, raise, stop, bind, ret in *.

Ltac step_M := repeat (unfold_M; cbn [lift fs trace fetches fst snd] in * ).

Lemma alias_checks_found (text : string) :
  Str.contains Project.alias text = true ->
  existsb (fun ck => Str.contains ck text) Project.alias_checks = true.
Proof.
  intros H. apply existsb_exists. exists Project.alias. split; [|exact H].
  unfold Project.alias_checks. simpl. tauto.
Qed.

Lemma set_alias_found (env : Env) (st : State) (text : string) :
  files (fs st) !! Project.path_bash_aliases env = Some text ->
  Str.contains Project.alias text = true ->
  Project.set_alias env st = (Done tt, st).
Proof.
  intros Hfile Hin. unfold Project.set_alias. step_M.
  unfold Fs.exists_, Fs.is_file, Fs.read_text. rewrite Hfile.
  rewrite bool_decide_eq_true_2 by eauto. cbn [orb]. step_M.
  rewrite Hfile. step_M.
  now rewrite (alias_checks_found _ Hin).
Qed.

Lemma set_alias_fs_only (env : Env) (st st' : State) :
  fs st' = fs st ->
  fs (snd (Project.set_alias env st')) = fs (snd (Project.set_alias env st)).
Proof.
  destruct st as [f tr n], st' as [f' tr' n']. cbn [fs]. intros ->.
  unfold Project.set_alias. step_M.
  destruct (Fs.exists_ f (Project.path_bash_aliases env)); step_M.
  - destruct (Fs.read_text f (Project.path_bash_aliases env)); step_M; [|reflexivity].
    destruct (existsb _ Project.alias_checks); step_M; [reflexivity|].
    destruct (Fs.append_text f (Project.path_bash_aliases env) (LF ++ Project.alias ++ LF));
      reflexivity.
  - destruct (Fs.append_text f (Project.path_bash_aliases env) (LF ++ Project.alias ++ LF));
      reflexivity.
Qed.

Lemma append_text_alias (f f' : FS) (p : list string) :
  Fs.append_text f p (LF ++ Project.alias ++ LF) = Ok f' ->
  exists text, files f' !! p = Some text /\ Str.contains Project.alias text = true.
Proof.
  unfold Fs.append_text. destruct (Fs.writable f p); cbn [rbind]; [|discriminate].
  intros [= <-]. cbn [files]. rewrite lookup_insert_eq.
  eexists; split; [reflexivity|].
  change (Str.contains Project.alias
            (default "" (files f !! p) ++ (LF ++ Project.alias ++ LF)) = true).
  rewrite <- append_assoc. apply contains_app.
Qed.

Lemma set_alias_cases (env : Env) (st : State) :
  fs (snd (Project.set_alias env st)) = fs st \/
  exists text,
    files (fs (snd (Project.set_alias env st))) !! Project.path_bash_aliases env = Some text /\
    Str.contains Project.alias text = true.
Proof.
  destruct st as [f tr n].
  unfold Project.set_alias. step_M.
  destruct (Fs.exists_ f (Project.path_bash_aliases env)); step_M.
  - destruct (Fs.read_text f (Project.path_bash_aliases env)); step_M; [|now left].
    destruct (existsb _ Project.alias_checks); step_M; [now left|].
    destruct (Fs.append_text f (Project.path_bash_aliases env) (LF ++ Project.alias ++ LF))
      eqn:E; step_M; [|now left].
    right. exact (append_text_alias _ _ _ E).
  - destruct (Fs.append_text f (Project.path_bash_aliases env) (LF ++ Project.alias ++ LF))
      eqn:E; step_M; [|now left].
    right. exact (append_text_alias _ _ _ E).
Qed.

(** C10. [set_alias] is idempotent on the rc file: when the file already
    holds the alias, with or without new lines around it, a call changes
    nothing; and from any state a second call leaves the file system as the
    first call left it, so the alias line is never written twice. *)
Theorem set_alias_idempotent (env : Env) (st : State) :
  (forall text,
      files (fs st) !! Project.path_bash_aliases env = Some text ->
      Str.contains Project.alias text = true ->
      Project.set_alias env st = (Done tt, st)) /\
  fs (snd (Project.set_alias env (snd (Project.set_alias env st)))) =
  fs (snd (Project.set_alias env st)).
Proof.
  split; [intros text; apply set_alias_found|].
  destruct (set_alias_cases env st) as [Hsame | (text & Hfile & Hin)].
  - rewrite (set_alias_fs_only env st (snd (Project.set_alias env st)) Hsame).
    reflexivity.
  - now rewrite (set_alias_found env _ text Hfile Hin).
Qed.

Lemma set_alias_idempotent_witness :
  Project.set_alias Example.env_ok Example.st_aliased = (Done tt, Example.st_aliased).
Proof.
  apply (proj1 (set_alias_idempotent Example.env_ok Example.st_aliased)
               ("export PS1=x" ++ LF ++ Project.alias ++ LF));
    vm_compute; reflexivity.
Defined.

(** ** A logic of runs *)

Section RunInv.

Variable R : FS -> FS -> Prop.
Variable P : event -> Prop.
Variable H : halt -> Prop.
Hypothesis R_refl : forall f, R f f.
Hypothesis R_trans : forall f g h, R f g -> R g h -> R f h.

(** Sequencing from a given state. *)
Lemma run_inv_at_bind {A B} (Q : A -> Prop) (Q' : B -> Prop) (m : M A) (k : A -> M B)
      (st : State) :
  run_inv_at R P H Q m st ->
  (forall a, Q a -> fst (m st) = Done a -> run_inv_at R P H Q' (k a) (snd (m st))) ->
  run_inv_at R P H Q' (bind m k) st.
Proof.
  intros (HR & (evs & Htr & Hevs) & Hout) Hk. unfold run_inv_at, bind.
  destruct (m st) as [[a|h] st1]; cbn [fst snd] in *.
  - destruct (Hk a Hout eq_refl) as (HR' & (evs' & Htr' & Hevs') & Hout').
    repeat split.
    + eauto.
    + exists (evs ++ evs')%list. rewrite Htr', Htr, app_assoc.
      split; [reflexivity | now apply Forall_app].
    + exact Hout'.
  - repeat split; eauto.
Qed.

Lemma run_inv_ret {A} (Q : A -> Prop) (a : A) : Q a -> run_inv R P H Q (ret a).
Proof.
  intros HQ st. unfold run_inv_at. cbn. repeat split; auto.
  exists []. now rewrite app_nil_r.
Qed.

Lemma run_inv_stop {A} (Q : A -> Prop) (h : halt) : H h -> run_inv R P H Q (@stop A h).
Proof.
  intros Hh st. unfold run_inv_at. cbn. repeat split; auto.
  exists []. now rewrite app_nil_r.
Qed.

Lemma run_inv_bind {A B} (Q : A -> Prop) (Q' : B -> Prop) (m : M A) (k : A -> M B) :
  run_inv R P H Q m -> (forall a, Q a -> run_inv R P H Q' (k a)) -> run_inv R P H Q' (bind m k).
Proof.
  intros Hm Hk st. apply (run_inv_at_bind Q); [apply Hm|].
  intros a Ha _. now apply Hk.
Qed.

Lemma run_inv_weaken {A} (Q Q' : A -> Prop) (m : M A) :
  run_inv R P H Q m -> (forall a, Q a -> Q' a) -> run_inv R P H Q' m.
Proof.
  intros Hm HQ st. destruct (Hm st) as (HR & Hev & Hout).
  unfold run_inv_at. repeat split; auto. destruct (fst (m st)); auto.
Qed.

(** Sequencing when nothing is needed of the first value. *)
Lemma run_inv_seq {A B} (Q' : B -> Prop) (m : M A) (k : A -> M B) :
  run_inv R P H (fun _ => True) m -> (forall a, run_inv R P H Q' (k a)) -> run_inv R P H Q' (bind m k).
Proof. intros Hm Hk. apply (run_inv_bind (fun _ => True)); auto. Qed.

(** What follows a computation that never returns does not matter. *)
Lemma run_inv_bind_halts {A B} (Q' : B -> Prop) (m : M A) (k : A -> M B) :
  run_inv R P H (fun _ => False) m -> run_inv R P H Q' (bind m k).
Proof. intros Hm. apply (run_inv_bind (fun _ => False)); [exact Hm | tauto]. Qed.

Lemma run_inv_lift {A} (Q : A -> Prop) (r : result A) :
  match r with Ok a => Q a | Raise e => H (Uncaught e) end -> run_inv R P H Q (lift r).
Proof.
  destruct r; cbn [lift]; intros Hr.
  - now apply run_inv_ret.
  - now apply run_inv_stop.
Qed.

Lemma run_inv_emit (Q : unit -> Prop) (e : event) : P e -> Q tt -> run_inv R P H Q (emit e).
Proof.
  intros He HQ st. unfold run_inv_at. cbn. repeat split; auto.
  exists [e]. split; [reflexivity | now constructor].
Qed.

Lemma run_inv_host (Q : unit -> Prop) (env : Env) (e : event) :
  P e -> Q tt -> (forall f, R f (host_effect env e f)) -> run_inv R P H Q (host env e).
Proof.
  intros He HQ HR st. unfold run_inv_at. cbn. repeat split; auto.
  exists [e]. split; [reflexivity | now constructor].
Qed.

Lemma run_inv_get_fs (Q : FS -> Prop) : (forall f, Q f) -> run_inv R P H Q get_fs.
Proof.
  intros HQ st. unfold run_inv_at. cbn. repeat split; auto.
  exists []. now rewrite app_nil_r.
Qed.

Lemma run_inv_put_fs (Q : unit -> Prop) (f : FS) :
  (forall g, R g f) -> Q tt -> run_inv R P H Q (put_fs f).
Proof.
  intros HR HQ st. unfold run_inv_at. cbn. repeat split; auto.
  exists []. now rewrite app_nil_r.
Qed.

End RunInv.

Lemma run_inv_at_any_fs {A} (R : FS -> FS -> Prop) (P : event -> Prop) (H : halt -> Prop)
      (Q : A -> Prop) (m : M A) (st : State) :
  run_inv_at R P H Q m st -> run_inv_at (fun _ _ => True) P H Q m st.
Proof. intros (_ & Hev & Hout). now split. Qed.

(** ** Runs that keep an invariant on their events *)

Lemma any_fs_refl (f : FS) : any_fs f f.
Proof. exact I. Qed.

Lemma any_fs_trans (f g h : FS) : any_fs f g -> any_fs g h -> any_fs f h.
Proof. intros _ _. exact I. Qed.

Create HintDb run.
#[local] Hint Resolve any_fs_refl any_fs_trans : run.
#[local] Hint Extern 1 (any_fs _ _) => exact I : run.

Ltac run_side :=
  try solve [exact I | reflexivity | assumption | auto with run | intros; exact I
            | hnf; discriminate | intros; congruence].

Ltac run_unfold :=
  unfold PathIO.exists_, PathIO.is_dir, PathIO.read_text, PathIO.write_text,
    PathIO.append_text, Os.makedirs, Os.listdir, Os.system, Logging.info,
    Logging.warning, Logging.error, print, rmtree, popen, sys_exit, raise.

Ltac run_post :=
  lazymatch goal with
  | |- run_inv _ _ _ _ _ => idtac
  | |- forall _, run_inv _ _ _ _ _ => intros ?
  | |- _ => run_side
  end.

(** The functions of the script that are no loops. *)
Ltac run_unfold_calls :=
  unfold Scaffold._validate_domain, CertBot.run, CertBot._cert_pre_hook, CertBot._run,
    CertBot._cert_post_hook, Project.new, Project.__post_init__, Project.set_alias,
    Project.server_port, Project.reset_shell, Service.build_from_template,
    Service.start, Service.stop, Service.status, ServerConfig.to_json,
    NekoRayConfig.to_json, NekoRayConfig.from_json, Template.gen_clients,
    Template.parse, Template.print_nekoray.

Ltac run_step :=
  run_unfold;
  lazymatch goal with
  | |- run_inv _ _ _ _ (bind (stop _) _) => apply run_inv_bind_halts; run_post
  | |- run_inv _ _ _ _ (bind ?m _) =>
      first [ eapply run_inv_bind;
              [run_side | solve [eauto 3 with run_value nocore]
              | let a := fresh "a" in let Hq := fresh "Hq" in
                intros a Hq; cbv beta in Hq]
            | apply run_inv_seq; run_post ]
  | |- run_inv _ _ _ _ (ret _) => apply run_inv_ret; run_post
  | |- run_inv _ _ _ _ (stop _) => apply run_inv_stop; run_post
  | |- run_inv _ _ _ _ (emit _) => apply run_inv_emit; run_post
  | |- run_inv _ _ _ _ (host _ _) => apply run_inv_host; run_post
  | |- run_inv _ _ _ _ get_fs => apply run_inv_get_fs; run_post
  | |- run_inv _ _ _ _ (put_fs _) => apply run_inv_put_fs; run_post
  | |- run_inv _ _ _ _ (lift ?r) => apply run_inv_lift; destruct r; run_post
  | |- run_inv _ _ _ _ (if ?b then _ else _) => destruct b
  | |- run_inv _ _ _ _ (match ?x with _ => _ end) => destruct x
  | |- run_inv _ _ _ _ (let (_, _) := ?x in _) => destruct x
  | |- run_inv _ _ _ _ _ => first [solve [eauto 3 with run] | progress run_unfold_calls]
  end.

Create HintDb run_value.

(** The loops, for any invariant that admits their events. *)

Section Loops.

Variable P : event -> Prop.
Variable H : halt -> Prop.
Hypothesis H_exn : forall e, H (Uncaught e).

Lemma probe_inv (env : Env) (self : Project.t) (ports : list Z) :
  (forall msg, P (Log INFO msg)) ->
  run_inv any_fs P H (fun _ => True) (Project.probe env self ports).
Proof.
  intros P_log. induction ports as [|p ports IH]; cbn [Project.probe].
  - repeat run_step.
  - destruct (negb (Project.is_port_in_used env p udp)); [repeat run_step | exact IH].
Qed.

Lemma remove_stale_inv (self : CertBot.t) (p : list string) (ks : list string) :
  (forall q, P (Rmtree q)) ->
  run_inv any_fs P H (fun _ => True) (CertBot.remove_stale self p ks).
Proof.
  intros P_rm. induction ks as [|k ks IH]; cbn [CertBot.remove_stale].
  - repeat run_step.
  - repeat run_step; exact IH.
Qed.

Lemma download_server_inv (env : Env) (depth : nat) (self : Service.t) (ws : list string) :
  (forall msg, P (Log INFO msg)) ->
  (forall cmd, P (System cmd)) ->
  (forall url dest, P (Urlretrieve url dest)) ->
  (forall zip dest, P (Extractall zip dest)) ->
  P Sleep ->
  run_inv any_fs P H (fun _ => True) (Service.download_server env depth self ws).
Proof.
  intros P_log P_sys P_get P_zip P_sleep.
  induction depth as [|depth IH]; cbn [Service.download_server].
  - repeat run_step.
  - unfold Service.stop.
    apply run_inv_seq; [auto with run | |intros n].
    + intros st. unfold run_inv_at. cbn. repeat split; auto.
      exists []. now rewrite app_nil_r.
    + repeat run_step; exact IH.
Qed.

End Loops.

Ltac run_loop :=
  first [ apply probe_inv | apply remove_stale_inv | apply download_server_inv ];
  run_side.

Ltac run_absurd :=
  lazymatch goal with
  | Hq : fst (VBool true, _) <> VBool true |- _ => exfalso; apply Hq; reflexivity
  | Hq : False |- _ => destruct Hq
  end.

Ltac run_auto := repeat first [run_absurd | run_step | run_loop].

(** ** Containment of a failed start *)

Lemma bashrc_not_client_config (env : Env) :
  bool_decide (Project.path_bash_aliases env = Project.client_nekoray_config) = false.
Proof.
  apply bool_decide_eq_false. intros Heq.
  apply (f_equal (@last string)) in Heq.
  unfold Project.path_bash_aliases, Path.joinpath in Heq. cbn in Heq.
  rewrite last_snoc in Heq. discriminate.
Qed.

Section FailedStart.

Variable env : Env.
Variable params : Params.
Hypothesis not_active :
  String.eqb (Str.strip (stdout_of env ["systemctl"; "is-active"; "juicity"])) "active"
  = false.

Let P := fun e => client_artifact e = false.
Let H := fun _ : halt => True.

Lemma build_from_template_named (template : string) :
  run_inv any_fs P H (fun s => Service.name s = "juicity")
          (Service.build_from_template env Project.service template).
Proof. unfold Service.build_from_template. run_auto. Qed.

Lemma status_not_active (self : Service.t) :
  Service.name self = "juicity" ->
  run_inv any_fs P H (fun rt => fst rt <> VBool true) (Service.status env self).
Proof.
  intros Hname. unfold Service.status. rewrite Hname.
  change (Str.split ("systemctl is-active " ++ "juicity"))
    with ["systemctl"; "is-active"; "juicity"].
  rewrite not_active.
  run_auto; apply run_inv_ret; easy.
Qed.

#[local] Hint Resolve build_from_template_named status_not_active : run_value.

Lemma install_keeps_clients_out :
  run_inv any_fs P H (fun _ => True) (Scaffold.install env params).
Proof.
  unfold Scaffold.install. run_auto.
  apply bashrc_not_client_config.
Qed.

End FailedStart.

(** C8. When the status queried after the start is not [active], the
    install workflow writes no client configuration file and prints
    nothing: neither the share link nor the client configuration reach the
    console. *)
Theorem failed_start_no_client_artifacts (env : Env) (params : Params) (st : State) :
  String.eqb (Str.strip (stdout_of env ["systemctl"; "is-active"; "juicity"])) "active"
  = false ->
  exists evs,
    trace (snd (Scaffold.install env params st)) = (trace st ++ evs)%list /\
    Forall (fun e => client_artifact e = false) evs.
Proof.
  intros Hna. exact (proj1 (proj2 (install_keeps_clients_out env params Hna st))).
Qed.

Lemma failed_start_no_client_artifacts_witness :
  exists evs,
    trace (snd (Scaffold.install Example.env_down Example.params_install
                                 Example.st_fresh)) = ([] ++ evs)%list /\
    Forall (fun e => client_artifact e = false) evs.
Proof.
  apply (failed_start_no_client_artifacts Example.env_down Example.params_install
                                          Example.st_fresh).
  vm_compute. reflexivity.
Defined.

(** ** The rate-limit short circuit *)

Section RateLimited.

Variable env : Env.
Variable d : string.
Hypothesis quota :
  Str.contains CertBot.quota_phrase (stderr_of env (Str.split (CertBot.cmd d))) = true.

Let P := fun e => service_mutation e = false.
Let H := fun h : halt => h <> Replaced.

Lemma pre_hook_keeps_domain :
  run_inv any_fs P H (fun self => CertBot._domain self = d)
          (CertBot._cert_pre_hook env (CertBot.new d)).
Proof. unfold CertBot._cert_pre_hook. run_auto. Qed.

Lemma run_rate_limited (self : CertBot.t) :
  CertBot._domain self = d ->
  run_inv any_fs P H (fun self' => CertBot._is_success self' = false)
          (CertBot._run env self).
Proof.
  intros Hd. unfold CertBot._run. rewrite Hd.
  pose proof (quota_phrase_strip _ quota) as Hin. rewrite Hin.
  assert (Hne : String.eqb (Str.strip (stderr_of env (Str.split (CertBot.cmd d)))) "" = false).
  { destruct (Str.strip _); [discriminate | reflexivity]. }
  rewrite Hne. cbn [negb andb]. run_auto.
Qed.

Lemma post_hook_exits (self : CertBot.t) :
  CertBot._is_success self = false ->
  run_inv any_fs P H (fun _ => False) (CertBot._cert_post_hook env self).
Proof.
  intros Hs. unfold CertBot._cert_post_hook.
  apply (run_inv_bind any_fs P H any_fs_trans (fun s => CertBot._is_success s = false)).
  - run_auto.
  - intros s Hs'. rewrite Hs'. cbn [negb]. run_auto.
Qed.

Lemma certbot_run_exits :
  run_inv any_fs P H (fun _ => False) (CertBot.run env (CertBot.new d)).
Proof.
  unfold CertBot.run.
  apply (run_inv_bind any_fs P H any_fs_trans (fun self => CertBot._domain self = d));
    [exact pre_hook_keeps_domain|].
  intros self Hd.
  apply (run_inv_bind any_fs P H any_fs_trans
           (fun self' => CertBot._is_success self' = false));
    [exact (run_rate_limited self Hd)|].
  exact post_hook_exits.
Qed.

End RateLimited.

Lemma validate_domain_requested (env : Env) (params : Params) :
  run_inv eq (fun e => service_mutation e = false) (fun h => h <> Replaced)
          (fun di => fst di = requested_domain env params)
          (Scaffold._validate_domain env (domain params)).
Proof.
  unfold Scaffold._validate_domain.
  apply (run_inv_bind eq _ _ (@eq_trans FS) (fun dom => dom = requested_domain env params)).
  - unfold requested_domain.
    destruct (domain params) as [d0|]; [destruct (String.eqb d0 "")|]; run_auto.
  - intros dom ->. run_auto.
Qed.

(** C1. When the certificate is requested during [install] and the
    diagnostic output of the ACME client holds the quota phrase
    [168 hours], the run stops early, and nothing it did installs or starts
    the service: the server configuration and the service unit are not
    written, the server is not downloaded, and the unit is neither
    reloaded nor started. *)
Theorem rate_limit_short_circuit (env : Env) (params : Params) (st : State) :
  let d := requested_domain env params in
  Fs.exists_ (fs st) (Path.of_str (Certificate.fullchain (Certificate.mk d))) = false ->
  Str.contains CertBot.quota_phrase (stderr_of env (Str.split (CertBot.cmd d))) = true ->
  (exists h, fst (Scaffold.install env params st) = Halt h /\ h <> Replaced) /\
  exists evs,
    trace (snd (Scaffold.install env params st)) = (trace st ++ evs)%list /\
    Forall (fun e => service_mutation e = false) evs.
Proof.
  intros d Hcert Hquota.
  set (P := fun e => service_mutation e = false).
  set (H := fun h : halt => h <> Replaced).
  assert (Hinv : run_inv_at any_fs P H (fun _ : unit => False)
                            (Scaffold.install env params) st).
  { unfold Scaffold.install.
    pose proof (validate_domain_requested env params st) as Hval.
    apply (run_inv_at_bind any_fs P H any_fs_trans (fun di => fst di = d));
      [exact (run_inv_at_any_fs _ _ _ _ _ _ Hval)|].
    intros [dd ip] Hdd _. cbn [fst] in Hdd. subst dd.
    destruct Hval as (Hfs & _).
    set (st1 := snd (Scaffold._validate_domain env (domain params) st)) in *.
    apply (run_inv_at_bind any_fs P H any_fs_trans (fun _ => True)).
    { apply run_inv_emit; run_side. }
    intros _ _ _.
    apply (run_inv_at_bind any_fs P H any_fs_trans (fun b => b = false)).
    { unfold run_inv_at, PathIO.exists_, bind, get_fs, ret, Logging.info, emit.
      cbn [fst snd fs trace]. split; [exact I|]. split.
      - exists []. now rewrite app_nil_r.
      - rewrite <- Hfs. exact Hcert. }
    intros b -> _. cbn [negb].
    apply run_inv_bind_halts; [exact any_fs_trans|].
    apply run_inv_bind_halts; [exact any_fs_trans|].
    exact (certbot_run_exits env d Hquota). }
  destruct Hinv as (_ & Hev & Hout). split; [|exact Hev].
  destruct (fst (Scaffold.install env params st)) as [a|h]; [destruct Hout | eauto].
Qed.

Lemma rate_limit_short_circuit_witness :
  (exists h, fst (Scaffold.install Example.env_limited Example.params_install
                                   Example.st_fresh) = Halt h /\ h <> Replaced) /\
  exists evs,
    trace (snd (Scaffold.install Example.env_limited Example.params_install
                                 Example.st_fresh)) = ([] ++ evs)%list /\
    Forall (fun e => service_mutation e = false) evs.
Proof.
  apply (rate_limit_short_circuit Example.env_limited Example.params_install
                                  Example.st_fresh);
    vm_compute; reflexivity.
Defined.

(** ** The post-hook of the certificate request *)

(** C3, as amended. When the pre-hook found port 80 taken, the post-hook
    restarts nginx, whatever the outcome of the request, and restarts
    nothing else: [systemctl restart nginx] is its only command beside the
    one on the timer, so a holder of the port other than nginx stays
    stopped.  The renewal timer is enabled afterwards only when the
    request was not rate-limited, and after a rate-limited request the
    hook exits the process without enabling it. *)
Theorem post_hook_outcomes (env : Env) (self : CertBot.t) (st : State) :
  let r := CertBot._cert_post_hook env self st in
  trace (snd r) =
  (trace st
   ++ (if CertBot._should_revive_port_80 self then [System restart_nginx] else [])
   ++ (if CertBot._is_success self
       then [Log INFO "运行证书续订服务 - service=certbot.timer"; System enable_timer]
       else []))%list /\
  fst r =
  (if CertBot._is_success self
   then Done (CertBot.mk (CertBot._domain self) false true)
   else Halt SysExit).
Proof.
  destruct self as [dom revive success].
  unfold CertBot._cert_post_hook. step_M. unfold restart_nginx, enable_timer.
  destruct revive, success; cbn; rewrite <- ?app_assoc; cbn; auto using app_nil_r.
Qed.

(** C3 as stated fails: after a rate-limited request nginx is restarted,
    the process exits and the renewal timer is not enabled. *)
Lemma post_hook_rate_limited_no_timer :
  let r := CertBot.run Example.env_limited (CertBot.new "example.com") Example.st_fresh in
  fst r = Halt SysExit /\
  runs restart_nginx (trace (snd r)) = true /\
  runs enable_timer (trace (snd r)) = false.
Proof. vm_compute. auto. Qed.

(** ** The check command *)

Lemma parse_reads_only (env : Env) (t : Template.t) (params : Params) :
  run_inv eq (fun _ => True) (fun _ => True) (fun _ => True) (Template.parse env t params).
Proof. unfold Template.parse. run_auto. Qed.

Lemma makedirs_workstation (f : FS) :
  match Fs.makedirs f Project.workstation with
  | Ok f' =>
      files f' = files f /\
      dirs f ⊆ dirs f' /\
      dirs f' ⊆ dirs f ∪ {[ ["home"]; Project.workstation ]} /\
      (["home"] ∈ dirs f -> Project.workstation ∈ dirs f -> f' = f)
  | Raise _ => True
  end.
Proof.
  destruct f as [fl ds].
  unfold Fs.makedirs. change Project.workstation with ["home"; "juicity"].
  cbn [Fs.makedirs_from app].
  unfold Fs.is_dir, Fs.is_file. cbn [dirs files].
  destruct (bool_decide (["home"] = [] ∨ ["home"] ∈ ds)) eqn:E1.
  - destruct (bool_decide (["home"; "juicity"] = [] ∨ ["home"; "juicity"] ∈ ds)) eqn:E2.
    + repeat split; set_solver.
    + destruct (bool_decide (is_Some (fl !! ["home"; "juicity"]))); [exact I|].
      apply bool_decide_eq_false in E2.
      repeat split; cbn [dirs files]; [set_solver | set_solver |].
      intros _ Hin. destruct E2. now right.
  - destruct (bool_decide (is_Some (fl !! ["home"]))); [exact I|].
    apply bool_decide_eq_false in E1. cbn [dirs files].
    destruct (bool_decide (["home"; "juicity"] = [] ∨ ["home"; "juicity"] ∈ {[ ["home"] ]} ∪ ds))
      eqn:E2.
    + repeat split; cbn [dirs files]; [set_solver | set_solver |].
      intros Hin _. destruct E1. now right.
    + destruct (bool_decide (is_Some (fl !! ["home"; "juicity"]))); [exact I|].
      repeat split; cbn [dirs files]; [set_solver | set_solver |].
      intros Hin _. destruct E1. now right.
Qed.

(** C9, as amended. The check command writes no file and removes
    nothing; the only change it can make to the file system is to create
    the workstation directory, with its parent, when it is missing.  When
    both exist the file system is left as it was. *)
Theorem check_frame (env : Env) (params : Params) (st : State) :
  let st' := snd (Scaffold.check env params st) in
  files (fs st') = files (fs st) /\
  dirs (fs st) ⊆ dirs (fs st') /\
  dirs (fs st') ⊆ dirs (fs st) ∪ {[ ["home"]; Project.workstation ]} /\
  (["home"] ∈ dirs (fs st) -> Project.workstation ∈ dirs (fs st) -> fs st' = fs st).
Proof.
  unfold Scaffold.check, Project.new, Project.__post_init__. step_M.
  pose proof (makedirs_workstation (fs st)) as Hmk.
  destruct (Fs.makedirs (fs st) Project.workstation) as [f'|e]; step_M.
  - match goal with
    | |- context [Template.parse env ?t params ?s] =>
        destruct (parse_reads_only env t params s) as (Hfs & _)
    end.
    cbn [fs] in Hfs. rewrite <- Hfs. exact Hmk.
  - repeat split; set_solver.
Qed.

Lemma check_frame_witness :
  fs (snd (Scaffold.check Example.env_ok Example.params_install Example.st_with_extra))
  = fs Example.st_with_extra.
Proof.
  apply (check_frame Example.env_ok Example.params_install Example.st_with_extra);
    vm_compute; set_solver.
Defined.

(** C9 as stated fails: on a host without the workstation directory the
    check command creates it. *)
Lemma check_creates_workstation :
  let st' := snd (Scaffold.check Example.env_ok Example.params_install Example.st_fresh) in
  Fs.is_dir (fs Example.st_fresh) Project.workstation = false /\
  Fs.is_dir (fs st') Project.workstation = true.
Proof. vm_compute. auto. Qed.

(** ** The download retry *)

Lemma count_app (f : event -> bool) (l1 l2 : list event) :
  count f (l1 ++ l2) = (count f l1 + count f l2)%nat.
Proof. unfold count. now rewrite List.filter_app, List.length_app. Qed.

Section Download.

Variable env : Env.
Variable self : Service.t.
Variable ws : list string.

(** A failing attempt stops the service and calls the function again,
    unless it is made in the deepest call. *)
Lemma download_server_retry (depth : nat) (st : State) :
  fails_with_oserror env (fetches st) ->
  exists st',
    Service.download_server env (S (S depth)) self ws st =
    Service.download_server env (S depth) self ws st' /\
    fetches st' = S (fetches st) /\
    count is_download (trace st') = S (count is_download (trace st)) /\
    count (is_stop (Service.name self)) (trace st') =
    S (count (is_stop (Service.name self)) (trace st)).
Proof.
  intros Hfail.
  change (Service.download_server env (S (S depth)) self ws)
    with (let zip_path := Path.joinpath ws (List.last (Str.split_on "/" URL) "") in
          let on_oserror :=
            (Logging.info "服务正忙，尝试停止任务..." >>
             Service.stop env self >>
             emit Sleep >>
             Service.download_server env (S depth) self ws)%M in
          (let* n := Service.next_fetch in
           host env (Urlretrieve URL (Path.to_str zip_path)) >>
           match fetch_nth env n with
           | RetrieveOSError => on_oserror
           | outcome =>
               Logging.info ("下载完毕 - zip_path=" ++ Path.to_str zip_path) >>
               host env (Extractall zip_path ws) >>
               match outcome with
               | ExtractOSError => on_oserror
               | ExtractBadZip => raise BadZipFile
               | _ =>
                   Os.system env ("chmod +x " ++
                                  Path.to_str (Path.joinpath ws "juicity-server")) >>
                   Logging.info ("授予执行权限 - ex_path=" ++
                                 Path.to_str (Path.joinpath ws "juicity-server"))
               end
           end)%M).
  cbv zeta. unfold Service.next_fetch, Service.stop. step_M.
  destruct Hfail as [-> | ->]; step_M; eexists; (split; [reflexivity|]);
    cbn [fetches trace]; rewrite <- ?app_assoc, !count_app; cbn.
  all: rewrite ?String.eqb_refl; cbn; split; [reflexivity|split; lia].
Qed.

(** In the deepest call a failing attempt ends the run before the
    service is stopped. *)
Lemma download_server_deepest (st : State) :
  fails_with_oserror env (fetches st) ->
  let r := Service.download_server env 1 self ws st in
  fst r = Halt (Uncaught RecursionError) /\
  count is_download (trace (snd r)) = S (count is_download (trace st)) /\
  count (is_stop (Service.name self)) (trace (snd r)) =
  count (is_stop (Service.name self)) (trace st).
Proof.
  intros Hfail. cbn zeta. cbn [Service.download_server].
  unfold Service.next_fetch. step_M.
  destruct Hfail as [-> | ->]; step_M;
    cbn [fst snd fetches trace]; rewrite <- ?app_assoc, !count_app; cbn.
  all: split; [reflexivity|split; lia].
Qed.

(** A successful attempt ends the function. *)
Lemma download_server_success (depth : nat) (st : State) :
  fetch_nth env (fetches st) = Fetched ->
  exists st',
    Service.download_server env (S depth) self ws st = (Done tt, st') /\
    fetches st' = S (fetches st) /\
    count is_download (trace st') = S (count is_download (trace st)) /\
    count (is_stop (Service.name self)) (trace st') =
    count (is_stop (Service.name self)) (trace st).
Proof.
  intros Hok. cbn [Service.download_server].
  unfold Service.next_fetch. step_M. rewrite Hok. step_M.
  eexists; split; [reflexivity|].
  cbn [fetches trace]. rewrite <- ?app_assoc, !count_app. cbn.
  split; [reflexivity|split; lia].
Qed.

Lemma download_server_succeeds_after (k : nat) :
  forall (depth : nat) (st : State),
    (k < depth)%nat ->
    (forall i, (i < k)%nat -> fails_with_oserror env (fetches st + i)) ->
    fetch_nth env (fetches st + k) = Fetched ->
    let r := Service.download_server env depth self ws st in
    fst r = Done tt /\
    count is_download (trace (snd r)) = (count is_download (trace st) + S k)%nat /\
    count (is_stop (Service.name self)) (trace (snd r)) =
    (count (is_stop (Service.name self)) (trace st) + k)%nat.
Proof.
  induction k as [|k IH]; intros depth st Hlt Hfail Hok;
    (destruct depth as [|depth]; [lia|]).
  - rewrite Nat.add_0_r in Hok.
    destruct (download_server_success depth st Hok) as (st' & -> & _ & Hd & Hs).
    cbn [fst snd]. repeat split; lia.
  - destruct depth as [|depth]; [lia|].
    assert (H0 : fails_with_oserror env (fetches st)).
    { specialize (Hfail 0%nat). rewrite Nat.add_0_r in Hfail. apply Hfail. lia. }
    destruct (download_server_retry depth st H0) as (st' & -> & Hf & Hd & Hs).
    destruct (IH (S depth) st') as (Hr & Hd' & Hs').
    + lia.
    + intros i Hi. rewrite Hf.
      replace (S (fetches st) + i)%nat with (fetches st + S i)%nat by lia.
      apply Hfail. lia.
    + rewrite Hf. now replace (S (fetches st) + k)%nat with (fetches st + S k)%nat by lia.
    + repeat split; [exact Hr | lia | lia].
Qed.

Lemma download_server_exhausts (depth : nat) :
  forall st : State,
    (forall i, (i < depth)%nat -> fails_with_oserror env (fetches st + i)) ->
    let r := Service.download_server env depth self ws st in
    fst r = Halt (Uncaught RecursionError) /\
    count is_download (trace (snd r)) = (count is_download (trace st) + depth)%nat /\
    count (is_stop (Service.name self)) (trace (snd r)) =
    (count (is_stop (Service.name self)) (trace st) + (depth - 1))%nat.
Proof.
  induction depth as [|depth IH]; intros st Hfail.
  - cbn. repeat split; lia.
  - assert (H0 : fails_with_oserror env (fetches st)).
    { specialize (Hfail 0%nat). rewrite Nat.add_0_r in Hfail. apply Hfail. lia. }
    destruct depth as [|depth].
    + destruct (download_server_deepest st H0) as (Hr & Hd & Hs).
      cbv zeta. rewrite Hd, Hs. cbn [Nat.sub]. repeat split; [exact Hr | lia | lia].
    + destruct (download_server_retry depth st H0) as (st' & -> & Hf & Hd & Hs).
      destruct (IH st') as (Hr & Hd' & Hs').
      * intros i Hi. rewrite Hf.
        replace (S (fetches st) + i)%nat with (fetches st + S i)%nat by lia.
        apply Hfail. lia.
      * repeat split; [exact Hr | lia |].
        cbn zeta in Hs'. rewrite Hs', Hs. cbn. lia.
Qed.

End Download.

(** C4, as amended. Every download attempt that fails with an OS-level
    I/O error stops the service and retries the whole download: after [k]
    failures followed by a success the function returns, having stopped
    the service [k] times and downloaded [k + 1] times.  Nothing bounds
    the retries but the recursion limit of the interpreter: when the error
    persists, the function downloads once per nested call the interpreter
    allows and ends with [RecursionError]; the error is raised in the
    deepest call before that call stops the service, so the service has
    been stopped once less than a download was tried. *)
Theorem download_server_retries (env : Env) (self : Service.t) (ws : list string)
        (st : State) :
  (forall depth k,
      (k < depth)%nat ->
      (forall i, (i < k)%nat -> fails_with_oserror env (fetches st + i)) ->
      fetch_nth env (fetches st + k) = Fetched ->
      let r := Service.download_server env depth self ws st in
      fst r = Done tt /\
      count is_download (trace (snd r)) = (count is_download (trace st) + S k)%nat /\
      count (is_stop (Service.name self)) (trace (snd r)) =
      (count (is_stop (Service.name self)) (trace st) + k)%nat) /\
  (forall depth,
      (forall i, (i < depth)%nat -> fails_with_oserror env (fetches st + i)) ->
      let r := Service.download_server env depth self ws st in
      fst r = Halt (Uncaught RecursionError) /\
      count is_download (trace (snd r)) = (count is_download (trace st) + depth)%nat /\
      count (is_stop (Service.name self)) (trace (snd r)) =
      (count (is_stop (Service.name self)) (trace st) + (depth - 1))%nat).
Proof.
  split.
  - intros depth k. apply download_server_succeeds_after.
  - intros depth. apply download_server_exhausts.
Qed.

Lemma download_server_retries_witness :
  let self := Service.mk Project.service "juicity" in
  let r := Service.download_server Example.env_flaky 1000 self Project.workstation
                                   Example.st_workstation in
  fst r = Done tt /\
  count is_download (trace (snd r)) = (0 + 3)%nat /\
  count (is_stop "juicity") (trace (snd r)) = (0 + 2)%nat.
Proof.
  apply (proj1 (download_server_retries Example.env_flaky
                  (Service.mk Project.service "juicity") Project.workstation
                  Example.st_workstation) 1000%nat 2%nat).
  - lia.
  - intros i Hi. destruct i as [|[|i]]; [now left | now left | lia].
  - reflexivity.
Defined.

(** C4 as stated fails: two failing attempts are followed by two retries,
    and a persistent error is retried until the recursion limit is hit. *)
Lemma download_retried_more_than_once :
  let self := Service.mk Project.service "juicity" in
  let flaky := Service.download_server Example.env_flaky 1000 self Project.workstation
                                       Example.st_workstation in
  let offline := Service.download_server Example.env_offline
                                         (recursion_limit Example.env_offline) self
                                         Project.workstation Example.st_workstation in
  (fst flaky = Done tt /\ count is_download (trace (snd flaky)) = 3%nat) /\
  (fst offline = Halt (Uncaught RecursionError) /\
   count is_download (trace (snd offline)) = 8%nat /\
   count (is_stop "juicity") (trace (snd offline)) = 7%nat).
Proof. vm_compute. auto. Qed.

(** ** The port allocator *)

Lemma range_spec (a b p : Z) : In p (Py.range a b) <-> a <= p < b.
Proof.
  unfold Py.range. rewrite in_map_iff. split.
  - intros (i & <- & Hi). apply in_seq in Hi. lia.
  - intros Hp. exists (Z.to_nat (p - a)). split; [lia|]. apply in_seq. lia.
Qed.

Section Probe.

Variable env : Env.
Variable self : Project.t.

(** With every candidate bound the loop ends without a [break]. *)
Lemma probe_exhausted (ports : list Z) (st : State) :
  (forall p, In p ports -> bind_fails env p udp = true) ->
  Project.probe env self ports st = (Done self, st).
Proof.
  induction ports as [|p ports IH]; intros Hall; cbn [Project.probe]; [reflexivity|].
  unfold Project.is_port_in_used. rewrite (Hall p) by now left.
  cbn [negb]. apply IH. intros q Hq. apply Hall. now right.
Qed.

(** With a free candidate the loop stops at the first one. *)
Lemma probe_allocates (ports : list Z) (st : State) :
  (exists p, In p ports /\ bind_fails env p udp = false) ->
  exists p,
    In p ports /\ bind_fails env p udp = false /\
    fst (Project.probe env self ports st) = Done (Project.mk (Project._server_ip self) p).
Proof.
  induction ports as [|q ports IH]; intros (p & Hin & Hfree); [destruct Hin|].
  cbn [Project.probe]. unfold Project.is_port_in_used.
  destruct (bind_fails env q udp) eqn:Eq; cbn [negb].
  - destruct Hin as [-> | Hin]; [congruence|].
    destruct IH as (p' & Hin' & Hfree' & Hres); [eauto|].
    exists p'. repeat split; auto. now right.
  - exists q. repeat split; auto. now left.
Qed.

End Probe.

(** The contract of the allocator where a candidate is free: the port
    returned lies in [[41670, 46990)] and was seen unbound. *)
Lemma server_port_allocated (env : Env) (self : Project.t) (st : State) :
  Project._server_port self < 0 ->
  Permutation (shuffle env (Py.range 41670 46990)) (Py.range 41670 46990) ->
  (exists p, 41670 <= p < 46990 /\ bind_fails env p udp = false) ->
  exists p,
    fst (Project.server_port env self st) = Done (p, Project.mk (Project._server_ip self) p) /\
    41670 <= p < 46990 /\ bind_fails env p udp = false.
Proof.
  intros Hneg Hperm (p & Hp & Hfree).
  destruct (probe_allocates env self (shuffle env (Py.range 41670 46990)) st)
    as (q & Hin & Hq & Hres).
  { exists p. split; [|exact Hfree].
    apply (Permutation_in _ (Permutation_sym Hperm)). now apply range_spec. }
  exists q. repeat split; try exact Hq.
  - unfold Project.server_port, bind.
    apply Z.ltb_lt in Hneg. rewrite Hneg.
    destruct (Project.probe env self _ st) as [[a|h] st']; cbn [fst] in Hres;
      [|discriminate].
    injection Hres as ->. reflexivity.
  - apply (Permutation_in _ Hperm), range_spec in Hin. lia.
  - apply (Permutation_in _ Hperm), range_spec in Hin. lia.
Qed.

(** With the whole range bound the allocator hands back the value it
    started from. *)
Lemma server_port_exhausted (env : Env) (self : Project.t) (st : State) :
  Project._server_port self < 0 ->
  (forall p, In p (shuffle env (Py.range 41670 46990)) -> bind_fails env p udp = true) ->
  Project.server_port env self st = (Done (Project._server_port self, self), st).
Proof.
  intros Hneg Hall. unfold Project.server_port, bind.
  apply Z.ltb_lt in Hneg. rewrite Hneg.
  now rewrite (probe_exhausted env self _ st Hall).
Qed.

(** C2, where the code departs from it. On a host where every UDP port
    of the candidate range is bound, the allocator of a fresh project does
    not fail: it returns [-1], a value outside its range, and the install
    run goes on to write [:-1] as the listening address and to start the
    service. *)
Theorem server_port_range_exhausted :
  Project.server_port Example.env_full (Project.mk "" (-1)) Example.st_fresh
  = (Done (-1, Project.mk "" (-1)), Example.st_fresh) /\
  let r := Scaffold.install Example.env_full Example.params_install Example.st_fresh in
  option_map (fun text => Str.contains ":-1" text)
             (files (fs (snd r)) !! Project.server_config) = Some true /\
  runs "systemctl enable --now juicity" (trace (snd r)) = true.
Proof.
  split.
  - apply server_port_exhausted; [reflexivity|].
    intros p _. reflexivity.
  - vm_compute. auto.
Qed.

(** * Further properties of the script *)

(** ** The text of an integer *)

Lemma string_of_uint_digits (d : Decimal.uint) :
  forallb Str.isdigit (list_ascii_of_string (NilEmpty.string_of_uint d)) = true.
Proof. induction d; cbn [NilEmpty.string_of_uint list_ascii_of_string forallb]; auto. Qed.

Lemma of_Z_chars (z : Z) :
  forallb digit_or_sign (list_ascii_of_string (Str.of_Z z)) = true.
Proof.
  assert (Hd : forall d, forallb digit_or_sign
                           (list_ascii_of_string (NilEmpty.string_of_uint d)) = true).
  { intros d. pose proof (string_of_uint_digits d) as H.
    rewrite forallb_forall in *. intros c Hc. unfold digit_or_sign. now rewrite (H c Hc). }
  assert (Hu : forall d, forallb digit_or_sign
                           (list_ascii_of_string (NilZero.string_of_uint d)) = true).
  { intros d. unfold NilZero.string_of_uint. destruct d; try apply Hd. reflexivity. }
  unfold Str.of_Z, NilZero.string_of_int. destruct (Z.to_int z) as [d|d].
  - apply Hu.
  - cbn [list_ascii_of_string forallb]. now rewrite Hu.
Qed.

Lemma of_Z_not_colon (z : Z) : Str.startswith (Str.of_Z z) ":" = false.
Proof.
  pose proof (of_Z_chars z) as H. unfold Str.startswith.
  destruct (Str.of_Z z) as [|c s]; [reflexivity|].
  cbn [list_ascii_of_string forallb] in H. apply andb_prop in H as [Hc _].
  cbn [String.prefix]. destruct (Ascii.ascii_dec ":" c) as [<-|]; [discriminate|].
  reflexivity.
Qed.

(** ** The server configuration record *)

Lemma startswith_colon (s : string) : Str.startswith (":" ++ s) ":" = true.
Proof. unfold Str.startswith; cbn; now destruct s. Qed.

Lemma post_init_shape (self x : ServerConfig.t) :
  ServerConfig.__post_init__ self = Ok x ->
  exists port,
    x = ServerConfig.mk (VStr (":" ++ port)) (ServerConfig.certificate self)
          (ServerConfig.private_key self)
          (if Py.truthy (ServerConfig.users self) then ServerConfig.users self else VDict [])
          (ServerConfig.congestion_control self) (ServerConfig.log_level self).
Proof.
  destruct self as [l c k u cc ll]. unfold ServerConfig.__post_init__.
  cbn [ServerConfig.listen ServerConfig.users ServerConfig.certificate
       ServerConfig.private_key ServerConfig.congestion_control ServerConfig.log_level].
  assert (Hs : forall s y,
             Ok (ServerConfig.mk
                   (if negb (Str.startswith s ":") then VStr (":" ++ s) else VStr s)
                   c k (if Py.truthy u then u else VDict []) cc ll) = Ok y ->
             exists port,
               y = ServerConfig.mk (VStr (":" ++ port)) c k
                     (if Py.truthy u then u else VDict []) cc ll).
  { intros s y [= <-]. destruct (Str.startswith s ":") eqn:E; cbn [negb].
    - apply prefix_split in E. destruct E as [r ->]. now exists r.
    - now exists s. }
  destruct l; try discriminate; apply Hs.
Qed.

(** X1. [__post_init__] puts a server configuration in normal form.
    It raises exactly when [listen] is neither a number nor a text, that
    is when it is [None], a list or a dict, and then with
    [AttributeError].  For every other [listen] it returns: [listen] is
    then a text that begins with a colon, [users] is a non-empty value or
    the empty dict, the other attributes are the ones given, and running
    it again changes nothing. *)
Theorem post_init_normal_form (self : ServerConfig.t) :
  match ServerConfig.listen self with
  | VNone | VList _ | VDict _ =>
      ServerConfig.__post_init__ self = Raise AttributeError
  | _ =>
      exists x,
        ServerConfig.__post_init__ self = Ok x /\
        (exists port, ServerConfig.listen x = VStr (":" ++ port)) /\
        (Py.truthy (ServerConfig.users x) = true \/ ServerConfig.users x = VDict []) /\
        ServerConfig.certificate x = ServerConfig.certificate self /\
        ServerConfig.private_key x = ServerConfig.private_key self /\
        ServerConfig.congestion_control x = ServerConfig.congestion_control self /\
        ServerConfig.log_level x = ServerConfig.log_level self /\
        ServerConfig.__post_init__ x = Ok x
  end.
Proof.
  assert (Hok : forall x,
             ServerConfig.__post_init__ self = Ok x ->
             exists y,
               Ok x = Ok y /\
               (exists port, ServerConfig.listen y = VStr (":" ++ port)) /\
               (Py.truthy (ServerConfig.users y) = true \/ ServerConfig.users y = VDict []) /\
               ServerConfig.certificate y = ServerConfig.certificate self /\
               ServerConfig.private_key y = ServerConfig.private_key self /\
               ServerConfig.congestion_control y = ServerConfig.congestion_control self /\
               ServerConfig.log_level y = ServerConfig.log_level self /\
               ServerConfig.__post_init__ y = Ok y).
  { intros x E. exists x. split; [reflexivity|].
    destruct (post_init_shape self x E) as [port ->].
    cbn [ServerConfig.listen ServerConfig.users ServerConfig.certificate
         ServerConfig.private_key ServerConfig.congestion_control ServerConfig.log_level].
    assert (Hu : let u' := if Py.truthy (ServerConfig.users self)
                           then ServerConfig.users self else VDict [] in
                 Py.truthy u' = true \/ u' = VDict []).
    { cbn zeta. destruct (Py.truthy (ServerConfig.users self)) eqn:Eu; auto. }
    cbn zeta in Hu. repeat split; eauto.
    unfold ServerConfig.__post_init__.
    cbn [ServerConfig.listen ServerConfig.users ServerConfig.certificate
         ServerConfig.private_key ServerConfig.congestion_control ServerConfig.log_level].
    rewrite startswith_colon. cbn [negb].
    destruct Hu as [-> | ->]; reflexivity. }
  destruct self as [l c k u cc ll].
  cbn [ServerConfig.listen] in *.
  destruct l; try reflexivity;
    (destruct (ServerConfig.__post_init__ _) as [x|e] eqn:E;
     [ exact (Hok x eq_refl)
     | exfalso; unfold ServerConfig.__post_init__ in E; cbn [ServerConfig.listen] in E;
       try (destruct (negb _); discriminate); discriminate ]).
Qed.

(** The port of a number is its decimal text behind a colon. *)
Lemma post_init_port (p : Z) (c k u cc ll : value) :
  exists x,
    ServerConfig.__post_init__ (ServerConfig.mk (VInt p) c k u cc ll) = Ok x /\
    ServerConfig.listen x = VStr (":" ++ Str.of_Z p).
Proof.
  unfold ServerConfig.__post_init__.
  cbn [ServerConfig.listen Py.str Py.repr]. rewrite of_Z_not_colon. cbn [negb].
  eexists; split; reflexivity.
Qed.

(** ** The users of the generated server configuration *)

Lemma dict_get_set (items : list (string * value)) (k k' : string) (v : value) :
  Py.dict_get (ServerConfig.dict_set items k v) k' =
  if String.eqb k k' then Some v else Py.dict_get items k'.
Proof.
  induction items as [|[k0 v0] items IH]; cbn [ServerConfig.dict_set Py.dict_get].
  - reflexivity.
  - destruct (String.eqb k0 k) eqn:E0; cbn [Py.dict_get].
    + apply String.eqb_eq in E0. subst k0. now destruct (String.eqb k k').
    + rewrite IH. destruct (String.eqb k0 k') eqn:E1; [|reflexivity].
      apply String.eqb_eq in E1. subst k'.
      rewrite String.eqb_sym in E0. now rewrite E0.
Qed.

Lemma dict_set_keys (items : list (string * value)) (k : string) (v : value) (k' : string) :
  k' ∈ map fst (ServerConfig.dict_set items k v) <-> k' = k \/ k' ∈ map fst items.
Proof.
  induction items as [|[k0 v0] items IH]; cbn [ServerConfig.dict_set map fst].
  - rewrite list_elem_of_singleton. set_solver.
  - destruct (String.eqb k0 k) eqn:E0; cbn [map fst].
    + apply String.eqb_eq in E0. subst k0. set_solver.
    + rewrite !elem_of_cons, IH. tauto.
Qed.

Lemma dict_set_NoDup (items : list (string * value)) (k : string) (v : value) :
  NoDup (map fst items) -> NoDup (map fst (ServerConfig.dict_set items k v)).
Proof.
  induction items as [|[k0 v0] items IH]; cbn [ServerConfig.dict_set map fst]; intros Hnd.
  - apply NoDup_singleton.
  - apply NoDup_cons in Hnd as [Hk0 Hnd].
    destruct (String.eqb k0 k) eqn:E0; cbn [map fst].
    + now apply NoDup_cons.
    + apply NoDup_cons. split; [|auto].
      rewrite dict_set_keys. intros [-> | Hin]; [|contradiction].
      now rewrite String.eqb_refl in E0.
Qed.

Lemma find_app_or {A} (f : A -> bool) (l1 l2 : list A) :
  List.find f (l1 ++ l2)%list =
  match List.find f l1 with Some a => Some a | None => List.find f l2 end.
Proof.
  induction l1 as [|a l1 IH]; cbn [List.find app]; [reflexivity|].
  now destruct (f a).
Qed.

Lemma users_dict (us : list User.t) (acc : list (string * value)) :
  let items :=
    fold_left (fun d u => ServerConfig.dict_set d (User.username u) (VStr (User.password u)))
              us acc in
  (NoDup (map fst acc) -> NoDup (map fst items)) /\
  forall name,
    Py.dict_get items name =
    match List.find (fun u => String.eqb (User.username u) name) (rev us) with
    | Some u => Some (VStr (User.password u))
    | None => Py.dict_get acc name
    end.
Proof.
  revert acc. induction us as [|u us IH]; intros acc; cbn [fold_left rev List.find].
  - auto.
  - destruct (IH (ServerConfig.dict_set acc (User.username u) (VStr (User.password u))))
      as [Hnd Hget].
    split; [intros H; apply Hnd; now apply dict_set_NoDup|].
    intros name. rewrite Hget, find_app_or.
    destruct (List.find _ (rev us)); [reflexivity|].
    cbn [List.find]. rewrite dict_get_set. now destruct (String.eqb (User.username u) name).
Qed.

(** X2. The server configuration [from_automation] builds from a list of
    users and a port listens on the decimal text of the port behind a
    colon, keeps the certificate paths, and has a [users] dict with one
    entry per user name: each name maps to the password of the last user
    of the list that bears it. *)
Theorem from_automation_users (us : list User.t) (path_fullchain path_privkey : string)
        (server_port : Z) :
  exists items,
    ServerConfig.from_automation (inr us) path_fullchain path_privkey server_port =
    Ok (ServerConfig.mk (VStr (":" ++ Str.of_Z server_port)) (VStr path_fullchain)
                        (VStr path_privkey) (VDict items) (VStr "bbr") (VStr "info")) /\
    NoDup (map fst items) /\
    forall name,
      Py.dict_get items name =
      option_map (fun u => VStr (User.password u))
                 (List.find (fun u => String.eqb (User.username u) name) (rev us)).
Proof.
  destruct (users_dict us []) as [Hnd Hget]. cbn zeta in Hnd, Hget.
  eexists. split; [|split; [apply Hnd, NoDup_nil_2|]].
  - unfold ServerConfig.from_automation, ServerConfig.__init__, ServerConfig.__post_init__.
    cbn [ServerConfig.listen ServerConfig.users ServerConfig.certificate
         ServerConfig.private_key ServerConfig.congestion_control ServerConfig.log_level
         Py.str Py.repr].
    rewrite of_Z_not_colon. cbn [negb]. do 2 f_equal.
    destruct (fold_left _ us []); reflexivity.
  - intros name. rewrite Hget. now destruct (List.find _ (rev us)).
Qed.

(** X3. The client configuration made for a user agrees with the server
    configuration made for the same user and port: the server knows the
    client's [uuid] with the client's [password], the client connects to
    the port the server listens on, and both use the same congestion
    control. *)
Theorem client_agrees_with_server (user : User.t) (path_fullchain path_privkey : string)
        (server_port : Z) (server_addr server_ip : string) :
  exists sc items,
    ServerConfig.from_automation (inl user) path_fullchain path_privkey server_port = Ok sc /\
    let c := NekoRayConfig.from_server user sc server_addr server_port server_ip in
    ServerConfig.users sc = VDict items /\
    (forall name,
        Py.dict_get items name =
        if String.eqb (User.username user) name then Some (VStr (User.password user))
        else None) /\
    NekoRayConfig.uuid c = VStr (User.username user) /\
    NekoRayConfig.password c = VStr (User.password user) /\
    ServerConfig.listen sc = VStr (":" ++ Str.of_Z server_port) /\
    NekoRayConfig.server c = VStr (server_ip ++ ":" ++ Str.of_Z server_port) /\
    NekoRayConfig.sni c = VStr server_addr /\
    NekoRayConfig.congestion_control c = ServerConfig.congestion_control sc.
Proof.
  unfold ServerConfig.from_automation, ServerConfig.__init__, ServerConfig.__post_init__.
  cbn [ServerConfig.listen ServerConfig.users ServerConfig.certificate
       ServerConfig.private_key ServerConfig.congestion_control ServerConfig.log_level
       Py.str Py.repr fold_left ServerConfig.dict_set Py.truthy].
  rewrite of_Z_not_colon. cbn [negb].
  eexists; eexists; split; [reflexivity|].
  cbn. repeat split; reflexivity.
Qed.

(** ** The peer of a client configuration *)

Lemma split_on_nonempty (sep : ascii) (s : string) : Str.split_on sep s <> [].
Proof.
  destruct s as [|c s]; cbn [Str.split_on]; [discriminate|].
  destruct (Ascii.eqb c sep); [discriminate|]. now destruct (Str.split_on sep s).
Qed.

(** One piece: the separator does not occur. *)
Lemma split_on_one (sep : ascii) (s w : string) :
  Str.split_on sep s = [w] <-> w = s /\ Str.contains (String sep "") s = false.
Proof.
  revert w. induction s as [|c s IH]; intros w; cbn [Str.split_on].
  - split; [intros [= <-]; auto | intros [-> _]; reflexivity].
  - cbn [Str.contains String.prefix].
    destruct (Ascii.eqb_spec c sep) as [->|Hne].
    + split.
      * intros [= _ H]. now apply split_on_nonempty in H.
      * intros [_ H]. destruct (Ascii.ascii_dec sep sep); [|contradiction].
        now destruct s.
    + destruct (Ascii.ascii_dec sep c) as [->|_]; [contradiction|].
      destruct (Str.split_on sep s) as [|w0 ws] eqn:E; [now apply split_on_nonempty in E|].
      split.
      * intros [= <- ->]. destruct (proj1 (IH w0) eq_refl) as [-> H]. auto.
      * intros [-> H]. pose proof (proj2 (IH s) (conj eq_refl H)) as Hs.
        injection Hs as -> ->. reflexivity.
Qed.

(** Two pieces: the separator occurs once, between them. *)
Lemma split_on_two (sep : ascii) (s a b : string) :
  Str.split_on sep s = [a; b] <->
  s = a ++ String sep b /\
  Str.contains (String sep "") a = false /\ Str.contains (String sep "") b = false.
Proof.
  revert a. induction s as [|c s IH]; intros a; cbn [Str.split_on].
  - split; [discriminate|]. intros [H _]. destruct a; discriminate.
  - destruct (Ascii.eqb_spec c sep) as [->|Hne].
    + split.
      * intros [= <- H]. apply split_on_one in H as [-> H]. auto.
      * intros (H & Ha & Hb). destruct a as [|c0 a].
        -- cbn in H. injection H as ->.
           now rewrite (proj2 (split_on_one sep b b) (conj eq_refl Hb)).
        -- cbn [String.append] in H. injection H as <- _.
           cbn [Str.contains String.prefix] in Ha.
           destruct (Ascii.ascii_dec sep sep); [|contradiction]. now destruct a.
    + destruct (Str.split_on sep s) as [|w0 ws] eqn:E; [now apply split_on_nonempty in E|].
      split.
      * intros [= <- ->]. destruct (proj1 (IH w0) eq_refl) as (-> & Ha & Hb).
        repeat split; auto. cbn [Str.contains String.prefix].
        destruct (Ascii.ascii_dec sep c) as [->|_]; [contradiction|]. exact Ha.
      * intros (H & Ha & Hb). destruct a as [|c0 a].
        -- cbn in H. injection H as -> _. contradiction.
        -- cbn [String.append] in H. injection H as <- ->.
           cbn [Str.contains String.prefix] in Ha.
           destruct (Ascii.ascii_dec sep c) as [->|_]; [contradiction|].
           pose proof (proj2 (IH a) (conj eq_refl (conj Ha Hb))) as Hs.
           injection Hs as -> ->. reflexivity.
Qed.

Lemma prefix_nil (s : string) : String.prefix "" s = true.
Proof. now destruct s. Qed.

Lemma contains_char_app (sep : ascii) (a b : string) :
  Str.contains (String sep "") (a ++ b) =
  Str.contains (String sep "") a || Str.contains (String sep "") b.
Proof.
  induction a as [|c a IH]; cbn [String.append].
  - cbn [Str.contains String.prefix orb]. reflexivity.
  - cbn [Str.contains String.prefix].
    destruct (Ascii.ascii_dec sep c); [now rewrite !prefix_nil|]. exact IH.
Qed.

Lemma contains_char_chars (sep : ascii) (s : string) :
  Str.contains (String sep "") s = existsb (Ascii.eqb sep) (list_ascii_of_string s).
Proof.
  induction s as [|c s IH]; [reflexivity|].
  cbn [Str.contains String.prefix list_ascii_of_string existsb].
  destruct (Ascii.ascii_dec sep c) as [->|Hne].
  - rewrite Ascii.eqb_refl. now destruct s.
  - apply Ascii.eqb_neq in Hne. now rewrite Hne.
Qed.

Lemma of_Z_no_colon (z : Z) : Str.contains ":" (Str.of_Z z) = false.
Proof.
  rewrite contains_char_chars. pose proof (of_Z_chars z) as H.
  apply not_true_is_false. intros Hex. apply existsb_exists in Hex as (c & Hc & Heq).
  apply Ascii.eqb_eq in Heq. subst c.
  rewrite forallb_forall in H. now specialize (H _ Hc).
Qed.

(** The peer of the client configuration made for a server. *)
Lemma serv_peer_from_server (user : User.t) (sc : ServerConfig.t)
      (server_addr : string) (server_port : Z) (server_ip : string) :
  NekoRayConfig.serv_peer
    (NekoRayConfig.from_server user sc server_addr server_port server_ip) =
  if Str.contains ":" server_ip then Raise ValueError
  else Ok (server_ip, Str.of_Z server_port).
Proof.
  rename server_addr into addr, server_port into port, server_ip into ip.
  unfold NekoRayConfig.serv_peer, NekoRayConfig.from_server.
  cbn [NekoRayConfig.server].
  destruct (Str.contains ":" ip) eqn:E.
  - destruct (Str.split_on ":" (ip ++ ":" ++ Str.of_Z port)) as [|w1 [|w2 [|w3 ws]]] eqn:Es;
      try reflexivity.
    apply split_on_two in Es as (Heq & Ha & Hb).
    assert (Hc : Str.contains ":" (ip ++ ":" ++ Str.of_Z port) = true).
    { rewrite contains_char_app, E. reflexivity. }
    rewrite Heq, contains_char_app, Ha in Hc. cbn [orb] in Hc.
    cbn [Str.contains String.prefix] in Hc.
    (* the colon that separates the pieces is the only one *)
    exfalso. clear Hc.
    assert (Hlen : forall x y x' y' : string,
               x ++ String ":" y = x' ++ String ":" y' ->
               Str.contains ":" x' = false -> Str.contains ":" y = false ->
               Str.contains ":" y' = false -> Str.contains ":" x = false).
    { clear. induction x as [|cx x IH]; intros y x' y' Heq Hx' Hy Hy'; [reflexivity|].
      destruct x' as [|cx' x'].
      - cbn [String.append] in Heq. injection Heq as -> Heq. subst y'.
        rewrite contains_char_app in Hy'. apply orb_false_elim in Hy' as [_ Hy'].
        cbn [Str.contains String.prefix] in Hy'.
        destruct (Ascii.ascii_dec ":" ":"); [|contradiction]. now destruct y.
      - cbn [String.append] in Heq. injection Heq as -> Heq.
        cbn [Str.contains String.prefix] in Hx' |- *.
        destruct (Ascii.ascii_dec ":" cx'); [now destruct x'|]. eauto. }
    rewrite (Hlen ip (Str.of_Z port) w1 w2 Heq Ha (of_Z_no_colon port) Hb) in E.
    discriminate.
  - now rewrite (proj2 (split_on_two ":" (ip ++ ":" ++ Str.of_Z port) ip (Str.of_Z port))
                       (conj eq_refl (conj E (of_Z_no_colon port)))).
Qed.

(** X4. [serv_peer] returns the address and the port of a client
    configuration exactly when its [server] text holds one colon, between
    them; any other text raises [ValueError].  So the configuration
    [from_server] builds for an address without a colon has that address
    and the decimal text of the port as its peer, and one built for an
    address with a colon, as every IPv6 address is, has none. *)
Theorem serv_peer_one_colon :
  (forall (server listen uuid password : string) (sni : option string) (allow_insecure : bool)
          (congestion_control log_level a p : string),
      let c := ClientConfig server listen uuid password sni allow_insecure
                            congestion_control log_level in
      (NekoRayConfig.serv_peer c = Ok (a, p) <->
       server = a ++ ":" ++ p /\ Str.contains ":" a = false /\ Str.contains ":" p = false) /\
      (NekoRayConfig.serv_peer c = Raise ValueError \/
       exists a' p', NekoRayConfig.serv_peer c = Ok (a', p'))) /\
  (forall user sc server_addr server_port server_ip,
      NekoRayConfig.serv_peer
        (NekoRayConfig.from_server user sc server_addr server_port server_ip) =
      if Str.contains ":" server_ip then Raise ValueError
      else Ok (server_ip, Str.of_Z server_port)).
Proof.
  split.
  - intros s l u pw sni ai cc ll a p c. subst c.
    unfold NekoRayConfig.serv_peer, ClientConfig. cbn [NekoRayConfig.server]. split.
    + rewrite <- (split_on_two ":" s a p).
      destruct (Str.split_on ":" s) as [|w1 [|w2 [|w3 ws]]]; split; congruence.
    + destruct (Str.split_on ":" s) as [|w1 [|w2 [|w3 ws]]]; eauto.
  - exact serv_peer_from_server.
Qed.

(** ** Generated users *)

Lemma take_prefix (n : nat) (s : string) :
  exists rest, s = Str.take n s ++ rest /\
               String.length (Str.take n s) = Nat.min n (String.length s).
Proof.
  unfold Str.take. revert n. induction s as [|c s IH]; intros [|n]; cbn.
  - now exists "".
  - now exists "".
  - now exists (String c s).
  - destruct (IH n) as (rest & Heq & Hlen). exists rest.
    split; [now rewrite <- Heq | now rewrite Hlen].
Qed.

(** X5. The password of a generated user is the beginning of the random
    token: at most 16 characters, and exactly 16 when the token has that
    many; the user name is the random UUID. *)
Theorem gen_password_bound (env : Env) :
  let u := User.gen env in
  User.username u = uuid4 env /\
  (exists rest, token_hex env = User.password u ++ rest) /\
  String.length (User.password u) = Nat.min 16 (String.length (token_hex env)).
Proof.
  cbn. destruct (take_prefix 16 (token_hex env)) as (rest & Heq & Hlen).
  split; [reflexivity|]. split; [now exists rest | exact Hlen].
Qed.

(** ** Dataclasses built from a dict *)

(** X6. [from_dict_to_cls] looks at the dict only under the names of the
    parameters of the class: two dicts that agree there give the same
    result, so keys the class does not declare are ignored, for every
    class. *)
Theorem from_dict_to_cls_parameters_only {T} (cls : dataclass T)
        (items items' : list (string * value)) :
  (forall key, In key (map fst (parameters cls)) ->
               Py.dict_get items key = Py.dict_get items' key) ->
  from_dict_to_cls cls (VDict items) = from_dict_to_cls cls (VDict items').
Proof.
  intros Hagree. unfold from_dict_to_cls. f_equal.
  induction (parameters cls) as [|[key val] ps IH]; cbn [rmap]; [reflexivity|].
  rewrite IH by (intros k Hk; apply Hagree; now right).
  assert (Hk : Py.dict_get items key = Py.dict_get items' key) by (apply Hagree; now left).
  destruct val; cbn [Py.subscript dict_get_default]; now rewrite Hk.
Qed.

Lemma from_dict_to_cls_parameters_only_witness :
  from_dict_to_cls ServerConfig.cls
    (VDict [("listen", VInt 41999); ("comment", VNone); ("certificate", VStr "c");
            ("private_key", VStr "k")]) =
  from_dict_to_cls ServerConfig.cls
    (VDict [("private_key", VStr "k"); ("certificate", VStr "c"); ("listen", VInt 41999)]).
Proof.
  apply (from_dict_to_cls_parameters_only ServerConfig.cls).
  intros key Hk. cbn in Hk.
  destruct Hk as [<-|[<-|[<-|[<-|[<-|[<-|[]]]]]]]; reflexivity.
Defined.

(** ** Setting and removing the shell alias *)

Lemma contains_infix (l n r h : string) :
  Str.contains (l ++ n ++ r) h = true -> Str.contains n h = true.
Proof.
  intros H. apply contains_split in H as (l' & r' & ->).
  rewrite !append_assoc. rewrite <- (append_assoc l' l). apply contains_app.
Qed.

Lemma alias_checks_contain (text : string) :
  existsb (fun ck => Str.contains ck text) Project.alias_checks = true ->
  Str.contains Project.alias text = true.
Proof.
  unfold Project.alias_checks. cbn [existsb]. rewrite !orb_true_iff.
  intros [H|[H|[H|[H|H]]]].
  - exact (contains_infix LF Project.alias LF text H).
  - apply (contains_infix LF Project.alias "" text). now rewrite append_nil_r.
  - exact (contains_infix "" Project.alias LF text H).
  - exact H.
  - discriminate.
Qed.

(** X7. When [set_alias] returns, the rc file holds the alias, begins
    with the text it had before (nothing when it did not exist), and no
    other file and no directory has changed; when it raises, the file
    system is as it was. *)
Theorem set_alias_appends (env : Env) (st : State) :
  let rc := Project.path_bash_aliases env in
  let st' := snd (Project.set_alias env st) in
  match fst (Project.set_alias env st) with
  | Done _ =>
      exists added,
        files (fs st') !! rc = Some (default "" (files (fs st) !! rc) ++ added) /\
        Str.contains Project.alias (default "" (files (fs st) !! rc) ++ added) = true /\
        (forall q, q <> rc -> files (fs st') !! q = files (fs st) !! q) /\
        dirs (fs st') = dirs (fs st)
  | Halt _ => fs st' = fs st
  end.
Proof.
  destruct st as [f tr n]. cbn zeta.
  unfold Project.set_alias. step_M.
  set (rc := Project.path_bash_aliases env).
  assert (Happend :
              match Fs.append_text f rc (LF ++ Project.alias ++ LF) with
              | Ok f' =>
                  exists added,
                    files f' !! rc = Some (default "" (files f !! rc) ++ added) /\
                    Str.contains Project.alias (default "" (files f !! rc) ++ added) = true /\
                    (forall q, q <> rc -> files f' !! q = files f !! q) /\
                    dirs f' = dirs f
              | Raise _ => True
              end).
  { unfold Fs.append_text. destruct (Fs.writable f rc); cbn [rbind]; [|exact I].
    exists (LF ++ Project.alias ++ LF). cbn [files dirs]. rewrite lookup_insert_eq.
    repeat split.
    - rewrite <- (append_assoc _ LF). apply contains_app.
    - intros q Hq. now rewrite lookup_insert_ne. }
  destruct (Fs.exists_ f rc) eqn:Eex; step_M.
  - unfold Fs.read_text. destruct (files f !! rc) as [text|] eqn:Efile; step_M.
    + destruct (existsb _ Project.alias_checks) eqn:Efound; step_M.
      * exists "". rewrite append_nil_r. repeat split; auto.
        now apply alias_checks_contain.
      * destruct (Fs.append_text f rc (LF ++ Project.alias ++ LF)); step_M;
          [exact Happend | reflexivity].
    + destruct (Fs.is_dir f rc); reflexivity.
  - destruct (Fs.append_text f rc (LF ++ Project.alias ++ LF)); step_M;
      [exact Happend | reflexivity].
Qed.

(** *** [replace] where the text to replace is absent or at the end *)

Lemma contains_cons_false (n : string) (c : ascii) (h : string) :
  Str.contains n (String c h) = false ->
  String.prefix n (String c h) = false /\ Str.contains n h = false.
Proof.
  cbn [Str.contains]. destruct (String.prefix n (String c h)); [discriminate | auto].
Qed.

Lemma replace_from_absent (old new s : string) :
  Str.contains old s = false -> Str.replace_from old new 0 s = s.
Proof.
  induction s as [|c s IH]; [reflexivity|].
  intros H. apply contains_cons_false in H as [Hp Hc].
  cbn [Str.replace_from]. rewrite Hp. now rewrite IH.
Qed.

Lemma replace_absent (old new s : string) :
  old <> "" -> Str.contains old s = false -> Str.replace old new s = s.
Proof.
  intros Hne H. destruct old; [contradiction|]. now apply replace_from_absent.
Qed.

(** A prefix that runs over the end of [r] into [c] holds [c]. *)
Lemma prefix_app_cases (n x r y : string) (c : ascii) :
  String.prefix (n ++ x) (r ++ String c y) = true ->
  String.prefix n r = true \/ existsb (Ascii.eqb c) (list_ascii_of_string n) = true.
Proof.
  revert r. induction n as [|a n IH]; intros r H.
  - left. apply prefix_nil.
  - destruct r as [|b r]; cbn [String.append String.prefix] in H.
    + destruct (Ascii.ascii_dec a c) as [->|]; [|discriminate].
      right. cbn [list_ascii_of_string existsb]. now rewrite Ascii.eqb_refl.
    + destruct (Ascii.ascii_dec a b) as [->|]; [|discriminate].
      destruct (IH r H) as [Hp | Hin].
      * left. cbn [String.prefix]. now destruct (Ascii.ascii_dec b b).
      * right. cbn [list_ascii_of_string existsb]. rewrite Hin. apply orb_true_r.
Qed.

Lemma replace_from_appended (text : string) :
  Str.contains Project.alias text = false ->
  Str.replace_from (LF ++ Project.alias ++ LF) "" 0 (text ++ LF ++ Project.alias ++ LF) = text.
Proof.
  induction text as [|c text IH]; intros H.
  - vm_compute. reflexivity.
  - apply contains_cons_false in H as [Hp Hc].
    cbn [String.append Str.replace_from].
    assert (Hno : String.prefix (LF ++ Project.alias ++ LF)
                                (String c (text ++ LF ++ Project.alias ++ LF)) = false).
    { apply not_true_is_false. intros Hpre.
      change (LF ++ Project.alias ++ LF)
        with (String (ascii_of_nat 10) (Project.alias ++ LF)) in Hpre.
      cbn [String.prefix] in Hpre.
      destruct (Ascii.ascii_dec (ascii_of_nat 10) c) as [<-|]; [|discriminate].
      apply prefix_app_cases in Hpre as [Hpre | Hin].
      - apply contains_prefix in Hpre. congruence.
      - vm_compute in Hin. discriminate. }
    rewrite Hno. now rewrite IH.
Qed.

Lemma without_alias_absent (text : string) :
  Str.contains Project.alias text = false -> Project.without_alias text = text.
Proof.
  intros H.
  assert (Hck : forall l r, Str.contains (l ++ Project.alias ++ r) text = false).
  { intros l r. apply not_true_is_false. intros Hc.
    apply contains_infix in Hc. congruence. }
  unfold Project.without_alias, Project.alias_checks. cbn [fold_left].
  rewrite (replace_absent (LF ++ Project.alias ++ LF)) by (discriminate || apply Hck).
  rewrite (replace_absent (LF ++ Project.alias))
    by (discriminate || (rewrite <- (append_nil_r Project.alias) at 1; apply Hck)).
  rewrite (replace_absent (Project.alias ++ LF)) by (discriminate || apply (Hck "")).
  now rewrite (replace_absent Project.alias) by (discriminate || exact H).
Qed.

Lemma without_alias_appended (text : string) :
  Str.contains Project.alias text = false ->
  Project.without_alias (text ++ LF ++ Project.alias ++ LF) = text.
Proof.
  intros H. pose proof (without_alias_absent text H) as Habs.
  unfold Project.without_alias, Project.alias_checks in *. cbn [fold_left] in *.
  replace (Str.replace (LF ++ Project.alias ++ LF) "" (text ++ LF ++ Project.alias ++ LF))
    with text.
  - assert (Hck : forall l r, Str.contains (l ++ Project.alias ++ r) text = false).
    { intros l r. apply not_true_is_false. intros Hc.
      apply contains_infix in Hc. congruence. }
    rewrite (replace_absent (LF ++ Project.alias))
      by (discriminate || (rewrite <- (append_nil_r Project.alias) at 1; apply Hck)).
    rewrite (replace_absent (Project.alias ++ LF)) by (discriminate || apply (Hck "")).
    now rewrite (replace_absent Project.alias) by (discriminate || exact H).
  - symmetry. exact (replace_from_appended text H).
Qed.

(** *** Removing the alias *)

Lemma universal_newlines_unix (t : string) :
  unix_text t -> Str.universal_newlines t = t.
Proof.
  unfold unix_text. induction t as [|c t IH]; [reflexivity|].
  intros H. apply contains_cons_false in H as [Hp Hc].
  cbn [Str.universal_newlines].
  destruct (Ascii.eqb c Str.cr) eqn:E.
  - apply Ascii.eqb_eq in E. subst c. cbn in Hp. now destruct t.
  - now rewrite IH.
Qed.

Lemma unix_text_app (a b : string) : unix_text a -> unix_text b -> unix_text (a ++ b).
Proof.
  unfold unix_text, CR. intros Ha Hb. now rewrite contains_char_app, Ha, Hb.
Qed.

Lemma writable_insert (f : FS) (p q : list string) (text : string) :
  q <> Path.parent p ->
  Fs.writable (mkFS (<[q := text]> (files f)) (dirs f)) p = Fs.writable f p.
Proof.
  intros Hq. unfold Fs.writable, Fs.is_dir, Fs.is_file. cbn [files dirs].
  now rewrite lookup_insert_ne.
Qed.

Lemma rc_paths (env : Env) :
  let rc := Project.path_bash_aliases env in
  let ba := Path.joinpath (Project.root env) ".bash_aliases" in
  rc = (Project.root env ++ [".bashrc"])%list /\
  ba = (Project.root env ++ [".bash_aliases"])%list /\
  ba <> rc /\ Path.parent rc = Project.root env /\ Path.parent ba = Project.root env /\
  rc <> Project.root env /\ ba <> Project.root env.
Proof.
  cbn zeta. unfold Project.path_bash_aliases, Path.joinpath, Path.parent. cbn.
  rewrite !removelast_last. repeat split.
  - intros H. apply app_inv_head in H. discriminate.
  - intros H. apply (f_equal (@List.length string)) in H.
    rewrite List.length_app in H. cbn in H. lia.
  - intros H. apply (f_equal (@List.length string)) in H.
    rewrite List.length_app in H. cbn in H. lia.
Qed.

(** What [remove_alias] does to one existing file. *)
Lemma remove_alias_file (f : FS) (hp : list string) (text : string) (rest : list (list string))
      (tr : list event) (n : nat) :
  files f !! hp = Some text ->
  Fs.writable f hp = Ok tt ->
  Project.remove_alias_from (hp :: rest) (mkState f tr n) =
  let text' := Project.without_alias (Str.universal_newlines text) in
  Project.remove_alias_from rest
    (mkState (mkFS (<[hp := text']> (files f)) (dirs f)) (tr ++ [WriteText hp text']) n).
Proof.
  intros Hfile Hw. cbv zeta. cbn [Project.remove_alias_from]. step_M.
  unfold Fs.exists_, Fs.is_file. rewrite Hfile.
  rewrite bool_decide_eq_true_2 by eauto. cbn [orb negb]. step_M.
  unfold Fs.read_text. rewrite Hfile. step_M.
  unfold Fs.write_text. rewrite Hw. cbn [rbind]. step_M. reflexivity.
Qed.

Lemma remove_alias_missing (f : FS) (hp : list string) (rest : list (list string))
      (tr : list event) (n : nat) :
  Fs.exists_ f hp = false ->
  Project.remove_alias_from (hp :: rest) (mkState f tr n) =
  Project.remove_alias_from rest (mkState f tr n).
Proof.
  intros Hex. cbn [Project.remove_alias_from]. step_M. rewrite Hex. reflexivity.
Qed.



Lemma alias_removed_refl (hs : list (list string)) (f : FS) : alias_removed hs f f.
Proof. unfold alias_removed. auto. Qed.

Lemma alias_removed_trans (hs : list (list string)) (f g h : FS) :
  alias_removed hs f g -> alias_removed hs g h -> alias_removed hs f h.
Proof.
  intros (D1 & S1 & O1 & K1) (D2 & S2 & O2 & K2). unfold alias_removed. repeat split.
  - congruence.
  - intros H. apply S1, S2, H.
  - intros H. apply S2, S1, H.
  - intros q Hq. rewrite O2, O1; auto.
  - intros q t Ht Hno Hlf. eauto.
Qed.

Lemma alias_removed_write (hs : list (list string)) (f : FS) (hp : list string)
      (text : string) :
  In hp hs -> files f !! hp = Some text ->
  alias_removed hs f
    (mkFS (<[hp := Project.without_alias (Str.universal_newlines text)]> (files f)) (dirs f)).
Proof.
  intros Hin Hfile. unfold alias_removed. cbn [files dirs]. repeat split.
  - destruct (decide (q = hp)) as [->|Hne]; [now rewrite Hfile|].
    now rewrite lookup_insert_ne.
  - destruct (decide (q = hp)) as [->|Hne].
    + rewrite lookup_insert_eq. eauto.
    + now rewrite lookup_insert_ne.
  - intros q Hq. rewrite lookup_insert_ne; [reflexivity|]. intros <-. contradiction.
  - intros q t Ht Hno Hlf. destruct (decide (q = hp)) as [->|Hne].
    + rewrite lookup_insert_eq. rewrite Hfile in Ht. injection Ht as ->.
      rewrite universal_newlines_unix by exact Hlf.
      now rewrite without_alias_absent.
    + now rewrite lookup_insert_ne.
Qed.

Lemma remove_alias_unwritable (f : FS) (hp : list string) (text : string)
      (rest : list (list string)) (tr : list event) (n : nat) (e : exn) :
  files f !! hp = Some text ->
  Fs.writable f hp = Raise e ->
  Project.remove_alias_from (hp :: rest) (mkState f tr n) =
  (Halt (Uncaught e),
   mkState f (tr ++ [WriteText hp (Project.without_alias (Str.universal_newlines text))]) n).
Proof.
  intros Hfile Hw. cbn [Project.remove_alias_from]. step_M.
  unfold Fs.exists_, Fs.is_file. rewrite Hfile.
  rewrite bool_decide_eq_true_2 by eauto. cbn [orb negb]. step_M.
  unfold Fs.read_text. rewrite Hfile. step_M.
  unfold Fs.write_text. rewrite Hw. cbn [rbind]. step_M. reflexivity.
Qed.

Lemma remove_alias_directory (f : FS) (hp : list string) (rest : list (list string))
      (tr : list event) (n : nat) :
  files f !! hp = None ->
  Fs.exists_ f hp = true ->
  Project.remove_alias_from (hp :: rest) (mkState f tr n) =
  (Halt (Uncaught IsADirectoryError), mkState f tr n).
Proof.
  intros Hfile Hex. cbn [Project.remove_alias_from]. step_M.
  rewrite Hex. cbn [negb]. step_M.
  unfold Fs.read_text. rewrite Hfile.
  unfold Fs.exists_, Fs.is_file in Hex. rewrite Hfile in Hex.
  rewrite bool_decide_eq_false_2 in Hex by (intros [? ?]; discriminate).
  cbn [orb] in Hex. rewrite Hex. reflexivity.
Qed.

Lemma remove_alias_from_frame (hs : list (list string)) (histories : list (list string)) :
  (forall hp, In hp histories -> In hp hs) ->
  run_inv (alias_removed hs)
          (fun e => exists hp text, e = WriteText hp text /\ In hp hs)
          (fun h => exists e, h = Uncaught e) (fun _ => True)
          (Project.remove_alias_from histories).
Proof.
  induction histories as [|hp rest IH]; intros Hsub st.
  - unfold run_inv_at. cbn. split; [apply alias_removed_refl|].
    split; [exists []; now rewrite app_nil_r | exact I].
  - assert (Hin : In hp hs) by (apply Hsub; now left).
    assert (IH' := IH (fun q Hq => Hsub q (or_intror Hq))).
    destruct st as [f tr n]. unfold run_inv_at.
    destruct (files f !! hp) as [text|] eqn:Efile.
    + destruct (Fs.writable f hp) as [[]|e] eqn:Ew.
      * rewrite (remove_alias_file f hp text rest tr n Efile Ew). cbv zeta.
        set (text' := Project.without_alias (Str.universal_newlines text)).
        destruct (IH' (mkState (mkFS (<[hp := text']> (files f)) (dirs f))
                               (tr ++ [WriteText hp text']) n))
          as (HR & (evs & Htr & Hevs) & Hout).
        cbn [fs trace] in *. split; [|split].
        -- eapply alias_removed_trans; [|exact HR]. now apply alias_removed_write.
        -- exists (WriteText hp text' :: evs).
           rewrite Htr, <- app_assoc. split; [reflexivity|].
           constructor; [eauto | exact Hevs].
        -- exact Hout.
      * rewrite (remove_alias_unwritable f hp text rest tr n e Efile Ew). cbn.
        split; [apply alias_removed_refl|]. split; [|eauto].
        exists [WriteText hp (Project.without_alias (Str.universal_newlines text))].
        split; [reflexivity|].
        constructor; eauto.
    + destruct (Fs.exists_ f hp) eqn:Eex.
      * rewrite (remove_alias_directory f hp rest tr n Efile Eex). cbn.
        split; [apply alias_removed_refl|]. split; [|eauto].
        exists []. now rewrite app_nil_r.
      * rewrite (remove_alias_missing f hp rest tr n Eex).
        exact (IH' (mkState f tr n)).
Qed.

(** X9. [remove_alias] rewrites the two rc files of the home directory
    and nothing else: whatever the outcome, no directory and no file
    appears or disappears, every other file keeps its text, a file whose
    text lacks the alias and has no carriage return keeps it too, the
    only actions are writes to [.bash_aliases] and [.bashrc], and the run
    ends normally or with an exception. *)
Theorem remove_alias_frame (env : Env) (st : State) :
  let histories := [Path.joinpath (Project.root env) ".bash_aliases";
                    Project.path_bash_aliases env] in
  let r := Project.remove_alias env st in
  alias_removed histories (fs st) (fs (snd r)) /\
  (exists evs,
      trace (snd r) = (trace st ++ evs)%list /\
      Forall (fun e => exists hp text, e = WriteText hp text /\ In hp histories) evs) /\
  match fst r with
  | Done _ => True
  | Halt h => exists e, h = Uncaught e
  end.
Proof.
  cbn zeta. unfold Project.remove_alias.
  exact (remove_alias_from_frame _ _ (fun hp H => H) st).
Qed.

(** ** Printing the client configuration *)

(** X10. [parse] looks at no flag of the command line: whatever
    [--nekoray], [--clash], [--v2ray] and [--singbox] are, it does what
    [print_nekoray] does, so the branches that would warn of an
    unimplemented feature are never taken.  Where no client configuration
    has been saved it prints nothing and raises nothing: it logs one error
    that names the missing file and leaves the file system alone. *)
Theorem parse_ignores_flags (env : Env) (self : Template.t) (params : Params) :
  Template.parse env self params = Template.print_nekoray env self /\
  forall st,
    Fs.exists_ (fs st) Project.client_nekoray_config = false ->
    Template.parse env self params st =
    (Done tt,
     mkState (fs st)
             (trace st ++
              [Log ERROR "❌ 客户端配置文件不存在 - path=/home/juicity/nekoray_config.json"])
             (fetches st)).
Proof.
  assert (Hparse : Template.parse env self params = Template.print_nekoray env self).
  { unfold Template.parse. cbn [existsb]. now destruct (nekoray params). }
  split; [exact Hparse|].
  intros st Hex. rewrite Hparse. unfold Template.print_nekoray. step_M.
  rewrite Hex. reflexivity.
Qed.

Lemma parse_ignores_flags_witness :
  Template.parse Example.env_ok (Template.mk (Project.mk "" (-1)) mode_check)
                 (mkParams None false true false false) Example.st_fresh =
  (Done tt,
   mkState (fs Example.st_fresh)
           (trace Example.st_fresh ++
            [Log ERROR "❌ 客户端配置文件不存在 - path=/home/juicity/nekoray_config.json"])
           (fetches Example.st_fresh)).
Proof.
  apply (proj2 (parse_ignores_flags Example.env_ok
                  (Template.mk (Project.mk "" (-1)) mode_check)
                  (mkParams None false true false false))).
  vm_compute. reflexivity.
Defined.

(** The share link of the client configuration made for a user. *)
Lemma sharelink_from_server (user : User.t) (sc : ServerConfig.t)
      (server_addr : string) (server_port : Z) (server_ip : string) :
  NekoRayConfig.sharelink
    (NekoRayConfig.from_server user sc server_addr server_port server_ip) =
  Ok ("juicity://" ++ User.username user ++ ":" ++ User.password user ++
      "@" ++ server_ip ++ ":" ++ Str.of_Z server_port ++
      "?congestion_control=" ++ Py.str (ServerConfig.congestion_control sc) ++
      "&allow_insecure=0" ++
      (if String.eqb server_addr "" then "" else "&sni=" ++ server_addr)).
Proof.
  unfold NekoRayConfig.sharelink, NekoRayConfig.from_server.
  cbn [NekoRayConfig.allow_insecure NekoRayConfig.uuid NekoRayConfig.password
       NekoRayConfig.server NekoRayConfig.sni NekoRayConfig.congestion_control
       Py.int rbind Py.str Py.truthy].
  change (Str.of_Z 0) with "0". f_equal.
  destruct (String.eqb server_addr ""); cbn [negb];
    rewrite ?append_nil_r, ?append_assoc; cbn [String.append]; reflexivity.
Qed.

(** Generating the client and showing it. *)
Lemma gen_clients_then_parse (env : Env) (self : Template.t) (server_addr : string)
        (user : User.t) (sc : ServerConfig.t) (params : Params) (st : State) :
  let ip := Project._server_ip (Template.project self) in
  let port := Project._server_port (Template.project self) in
  let c := NekoRayConfig.from_server user sc server_addr port ip in
  let text := json_dumps env (NekoRayConfig.__dict__ c) in
  let link :=
    "juicity://" ++ User.username user ++ ":" ++ User.password user ++
    "@" ++ ip ++ ":" ++ Str.of_Z port ++
    "?congestion_control=" ++ Py.str (ServerConfig.congestion_control sc) ++
    "&allow_insecure=0" ++
    (if String.eqb server_addr "" then "" else "&sni=" ++ server_addr) in
  0 <= port ->
  Str.contains ":" ip = false ->
  Fs.writable (fs st) Project.client_nekoray_config = Ok tt ->
  json_loads env text = Some (NekoRayConfig.__dict__ c) ->
  (let* t := Template.gen_clients env self server_addr user sc in
   Template.parse env t params)%M st =
  (Done tt,
   mkState (mkFS (<[Project.client_nekoray_config := text]> (files (fs st))) (dirs (fs st)))
           (trace st ++
            [Log INFO "正在生成客户端配置文件";
             WriteText Project.client_nekoray_config text;
             Stdout (TEMPLATE_PRINT_SHARELINK link);
             Stdout (TEMPLATE_PRINT_NEKORAY ip (Str.of_Z port) text)])
           (fetches st)).
Proof.
  destruct self as [[ip port] md]. destruct st as [f tr n].
  cbn [Template.project Project._server_ip Project._server_port fs trace fetches].
  cbv zeta. intros Hport Hip Hw Hcodec.
  set (c := NekoRayConfig.from_server user sc server_addr port ip) in *.
  set (text := json_dumps env (NekoRayConfig.__dict__ c)) in *.
  assert (Hparse : forall t, Template.parse env t params = Template.print_nekoray env t).
  { intros t. unfold Template.parse. cbn [existsb]. now destruct (nekoray params). }
  assert (Hneg : (port <? 0) = false) by (apply Z.ltb_ge; exact Hport).
  unfold Template.gen_clients, Project.server_port, NekoRayConfig.to_json.
  cbn [Template.project Template.mode Project._server_ip Project._server_port].
  rewrite Hneg. step_M. cbn [Project._server_ip Project._server_port]. fold c. fold text.
  unfold Fs.write_text. rewrite Hw. cbn [rbind]. step_M.
  rewrite Hparse. unfold Template.print_nekoray, NekoRayConfig.from_json. step_M.
  unfold Fs.exists_, Fs.is_file, Fs.read_text. cbn [files].
  rewrite lookup_insert_eq. rewrite bool_decide_eq_true_2 by eauto.
  cbn [orb negb]. step_M. cbn [files]. rewrite lookup_insert_eq. step_M.
  rewrite Hcodec. step_M.
  rewrite NekoRayConfig_round_trip_dict. step_M.
  pose proof (serv_peer_from_server user sc server_addr port ip) as Hpeer.
  fold c in Hpeer. rewrite Hip in Hpeer. rewrite Hpeer. step_M.
  pose proof (sharelink_from_server user sc server_addr port ip) as Hlink.
  fold c in Hlink. rewrite Hlink. step_M.
  unfold NekoRayConfig.showcase. fold text.
  rewrite <- !app_assoc. reflexivity.
Qed.

(** X11. What [install] shows at its end is the client it has just
    generated: with the port allocated, [gen_clients] followed by [parse]
    saves the client configuration of the user and prints the share link
    of that configuration, which carries the user's id and password, the
    address and port of the server and the domain, and then the
    configuration itself under the address and the port. *)
Theorem generated_client_is_printed (env : Env) (self : Template.t) (server_addr : string)
        (user : User.t) (sc : ServerConfig.t) (params : Params) (st : State) :
  let ip := Project._server_ip (Template.project self) in
  let port := Project._server_port (Template.project self) in
  let c := NekoRayConfig.from_server user sc server_addr port ip in
  let text := json_dumps env (NekoRayConfig.__dict__ c) in
  let link :=
    "juicity://" ++ User.username user ++ ":" ++ User.password user ++
    "@" ++ ip ++ ":" ++ Str.of_Z port ++
    "?congestion_control=" ++ Py.str (ServerConfig.congestion_control sc) ++
    "&allow_insecure=0" ++
    (if String.eqb server_addr "" then "" else "&sni=" ++ server_addr) in
  0 <= port ->
  Str.contains ":" ip = false ->
  Fs.writable (fs st) Project.client_nekoray_config = Ok tt ->
  json_loads env text = Some (NekoRayConfig.__dict__ c) ->
  (let* t := Template.gen_clients env self server_addr user sc in
   Template.parse env t params)%M st =
  (Done tt,
   mkState (mkFS (<[Project.client_nekoray_config := text]> (files (fs st))) (dirs (fs st)))
           (trace st ++
            [Log INFO "正在生成客户端配置文件";
             WriteText Project.client_nekoray_config text;
             Stdout (TEMPLATE_PRINT_SHARELINK link);
             Stdout (TEMPLATE_PRINT_NEKORAY ip (Str.of_Z port) text)])
           (fetches st)).
Proof. exact (gen_clients_then_parse env self server_addr user sc params st). Qed.

Lemma generated_client_is_printed_witness :
  let self := Template.mk (Project.mk "1.2.3.4" 41672) mode_install in
  fst ((let* t := Template.gen_clients Example.env_ok self "example.com"
                    (User.gen Example.env_ok) Example.server_u1 in
        Template.parse Example.env_ok t Example.params_install)%M Example.st_workstation)
  = Done tt.
Proof.
  cbv zeta.
  rewrite (generated_client_is_printed Example.env_ok
             (Template.mk (Project.mk "1.2.3.4" 41672) mode_install) "example.com"
             (User.gen Example.env_ok) Example.server_u1 Example.params_install
             Example.st_workstation).
  - reflexivity.
  - cbn. lia.
  - reflexivity.
  - vm_compute. reflexivity.
  - vm_compute. reflexivity.
Defined.

(** ** The validation of the domain *)

Lemma validate_domain_outcome (env : Env) (params : Params) (st : State) :
  let r := Scaffold._validate_domain env (domain params) st in
  fst r = validated env (requested_domain env params) /\
  fs (snd r) = fs st /\
  exists evs,
    trace (snd r) = (trace st ++ evs)%list /\ forallb prompt_or_error evs = true.
Proof.
  destruct st as [f tr n]. cbn zeta.
  unfold Scaffold._validate_domain, requested_domain, validated.
  assert (Hgo : forall d tr',
             (exists evs0, tr' = (tr ++ evs0)%list /\ forallb prompt_or_error evs0 = true) ->
             let r := match getaddrinfo_raises env d with
                      | Some e => raise e
                      | None =>
                          match getaddrinfo env d with
                          | None =>
                              (Logging.error ("域名不可达或拼写错误的域名 - domain=" ++ d) >>
                               sys_exit)%M
                          | Some server_ip =>
                              (let* my_ip :=
                                 match ifconfig_me env with
                                 | Some body => ret body
                                 | None => raise URLError
                                 end in
                               if negb (String.eqb my_ip server_ip)
                               then Logging.error
                                      ("你的主机外网IP与域名解析到的IP不一致 - my_ip=" ++
                                       my_ip ++ " domain=" ++ d ++
                                       " server_ip=" ++ server_ip) >>
                                    sys_exit
                               else ret (d, server_ip))%M
                          end
                      end (mkState f tr' n) in
             fst r = match getaddrinfo_raises env d with
                     | Some e => Halt (Uncaught e)
                     | None =>
                         match getaddrinfo env d with
                         | None => Halt SysExit
                         | Some server_ip =>
                             match ifconfig_me env with
                             | None => Halt (Uncaught URLError)
                             | Some my_ip =>
                                 if String.eqb my_ip server_ip then Done (d, server_ip)
                                 else Halt SysExit
                             end
                         end
                     end /\
             fs (snd r) = f /\
             exists evs,
               trace (snd r) = (tr ++ evs)%list /\ forallb prompt_or_error evs = true).
  { intros d tr' (evs0 & -> & Hev). cbn zeta.
    destruct (getaddrinfo_raises env d) as [e|]; step_M; [repeat split; eauto|].
    destruct (getaddrinfo env d) as [ip|]; step_M.
    - destruct (ifconfig_me env) as [my|]; step_M.
      + destruct (String.eqb my ip); cbn [negb]; step_M.
        * repeat split; eauto.
        * repeat split. eexists. rewrite <- app_assoc. split; [reflexivity|].
          rewrite forallb_app, Hev. reflexivity.
      + repeat split; eauto.
    - repeat split. eexists. rewrite <- app_assoc. split; [reflexivity|].
      rewrite forallb_app, Hev. reflexivity. }
  assert (H0 : exists evs0, tr = (tr ++ evs0)%list /\ forallb prompt_or_error evs0 = true).
  { exists []. now rewrite app_nil_r. }
  assert (H1 : exists evs0, (tr ++ [Input "> 解析到本机的域名："])%list = (tr ++ evs0)%list /\
                            forallb prompt_or_error evs0 = true).
  { eexists; split; reflexivity. }
  destruct (domain params) as [d|]; [destruct (String.eqb d "")|]; step_M.
  - exact (Hgo (stdin_line env) _ H1).
  - exact (Hgo d _ H0).
  - exact (Hgo (stdin_line env) _ H1).
Qed.




(** ** Runs of the service named [juicity] *)

Section NamedService.

Variable P : event -> Prop.
Variable H : halt -> Prop.
Variable env : Env.
Hypothesis H_exn : forall e, H (Uncaught e).
Hypothesis P_log : forall msg, P (Log INFO msg).
Hypothesis P_write : forall text, P (WriteText Project.service text).
Hypothesis P_reload : P (System "systemctl daemon-reload").
Hypothesis P_stop : P (System "systemctl stop juicity").
Hypothesis P_chmod : forall p, P (System ("chmod +x " ++ p)).
Hypothesis P_get : forall url dest, P (Urlretrieve url dest).
Hypothesis P_zip : forall zip dest, P (Extractall zip dest).
Hypothesis P_sleep : P Sleep.

Lemma build_from_template_juicity (template : string) :
  run_inv any_fs P H (fun s => s = Service.mk Project.service "juicity")
          (Service.build_from_template env Project.service template).
Proof. unfold Service.build_from_template. run_auto. Qed.

Lemma download_server_juicity (depth : nat) (ws : list string) :
  run_inv any_fs P H (fun _ => True)
          (Service.download_server env depth (Service.mk Project.service "juicity") ws).
Proof.
  induction depth as [|depth IH]; cbn [Service.download_server].
  - repeat run_step.
  - unfold Service.stop. cbn [Service.name].
    apply run_inv_seq; [auto with run | |intros n].
    + intros st. unfold run_inv_at. cbn. repeat split; auto.
      exists []. now rewrite app_nil_r.
    + repeat run_step; exact IH.
Qed.

End NamedService.

Ltac run_service :=
  match goal with
  | Hq : ?a = Service.mk _ _ |- _ => subst a
  end.

Ltac run_named lemma :=
  repeat first
    [ run_absurd
    | run_service
    | apply lemma
    | run_step
    | first [apply probe_inv | apply remove_stale_inv]; run_side ].

(** ** A certificate that is already there *)

Lemma prompt_or_error_no_acme (evs : list event) :
  forallb prompt_or_error evs = true -> Forall (fun e => acme_action e = false) evs.
Proof.
  intros H. apply Forall_forall. intros e He.
  rewrite forallb_forall in H. specialize (H e (proj1 (list_elem_of_In _ _) He)).
  destruct e as [lv| | | | | | | | | | | |]; try discriminate; reflexivity.
Qed.

Section CertificateThere.

Variable env : Env.
Variable params : Params.

Let P := fun e => acme_action e = false.
Let H := fun _ : halt => True.

Lemma build_no_acme (template : string) :
  run_inv any_fs P H (fun s => s = Service.mk Project.service "juicity")
          (Service.build_from_template env Project.service template).
Proof. apply build_from_template_juicity; intros; reflexivity. Qed.

Lemma download_no_acme (depth : nat) (ws : list string) :
  run_inv any_fs P H (fun _ => True)
          (Service.download_server env depth (Service.mk Project.service "juicity") ws).
Proof. apply download_server_juicity; intros; reflexivity. Qed.

#[local] Hint Resolve build_no_acme : run_value.

(** What [install] does once the certificate has been found. *)
Lemma install_after_certificate (d ip : string) :
  run_inv any_fs P H (fun _ => True)
    (Logging.info ("证书文件已存在 - path=" ++
                   Path.to_str (Path.parent (Path.of_str
                                               (Certificate.fullchain (Certificate.mk d))))) >>
     let* project := Project.new in
     Project.set_alias env >>
     let user := User.gen env in
     let* (server_port, project) := Project.server_port env project in
     let project := Project.set_server_ip project ip in
     let* service :=
       Service.build_from_template env Project.service Project.systemd_template in
     Logging.info "正在下载 juicity-server" >>
     Service.download_server env (recursion_limit env) service Project.workstation >>
     Logging.info "正在生成默认的服务端配置" >>
     let* server_config :=
       lift (ServerConfig.from_automation (inl user) (Certificate.fullchain (Certificate.mk d))
                                          (Certificate.privkey (Certificate.mk d))
                                          server_port) in
     ServerConfig.to_json env server_config Project.server_config >>
     Logging.info "正在部署系统服务" >>
     Service.start env service >>
     Logging.info "正在检查服务状态" >>
     let* (response, text) := Service.status env service in
     match response with
     | VBool true =>
         let t := Template.mk project mode_install in
         let* t := Template.gen_clients env t d user server_config in
         Template.parse env t params >>
         Project.reset_shell env
     | _ => Logging.info ("服务启动失败 - status=" ++ text)
     end)%M.
Proof. run_named download_no_acme. Qed.

End CertificateThere.

(** X14. [install] reuses a certificate that is already there: when the
    certificate chain of the domain exists, the run never calls the ACME
    client, installs no package, leaves nginx, port 80 and the renewal
    timer alone and removes no directory. *)
Theorem install_reuses_certificate (env : Env) (params : Params) (st : State) :
  let d := requested_domain env params in
  Fs.exists_ (fs st) (Path.of_str (Certificate.fullchain (Certificate.mk d))) = true ->
  exists evs,
    trace (snd (Scaffold.install env params st)) = (trace st ++ evs)%list /\
    Forall (fun e => acme_action e = false) evs.
Proof.
  intros d Hcert.
  set (P := fun e => acme_action e = false).
  set (H := fun _ : halt => True).
  assert (Hinv : run_inv_at any_fs P H (fun _ : unit => True)
                            (Scaffold.install env params) st).
  { unfold Scaffold.install.
    destruct (validate_domain_outcome env params st) as (Hout & Hfs & evs & Htr & Hev).
    cbn zeta in Hout, Hfs, Htr. fold d in Hout.
    apply (run_inv_at_bind any_fs P H any_fs_trans (fun di => fst di = d)).
    { split; [exact I|]. split.
      - exists evs. split; [exact Htr | now apply prompt_or_error_no_acme].
      - destruct (fst (Scaffold._validate_domain env (domain params) st)) as [di|h];
          [|exact I].
        unfold validated in Hout.
        destruct (getaddrinfo_raises env d); [discriminate|].
        destruct (getaddrinfo env d); [|discriminate].
        destruct (ifconfig_me env); [|discriminate].
        destruct (String.eqb _ _); [|discriminate]. now injection Hout as ->. }
    intros [dd ip] Hdd _. cbn [fst] in Hdd. subst dd.
    set (st1 := snd (Scaffold._validate_domain env (domain params) st)) in *.
    apply (run_inv_at_bind any_fs P H any_fs_trans (fun _ => True)).
    { apply run_inv_emit; run_side. }
    intros _ _ _.
    apply (run_inv_at_bind any_fs P H any_fs_trans (fun b => b = true)).
    { unfold run_inv_at, PathIO.exists_, bind, get_fs, ret, Logging.info, emit.
      cbn [fst snd fs trace]. split; [exact I|]. split.
      - exists []. now rewrite app_nil_r.
      - rewrite Hfs. exact Hcert. }
    intros b -> _. cbn [negb].
    apply (install_after_certificate env params d ip). }
  exact (proj1 (proj2 Hinv)).
Qed.

Lemma install_reuses_certificate_witness :
  let st := mkState (mkFS {[ ["etc"; "letsencrypt"; "live"; "example.com"; "fullchain.pem"]
                             := "-----BEGIN CERTIFICATE-----" ]}
                          (dirs Example.fs_fresh)) [] 0 in
  exists evs,
    trace (snd (Scaffold.install Example.env_ok Example.params_install st)) = ([] ++ evs)%list /\
    Forall (fun e => acme_action e = false) evs.
Proof.
  apply (install_reuses_certificate Example.env_ok Example.params_install
           (mkState (mkFS {[ ["etc"; "letsencrypt"; "live"; "example.com"; "fullchain.pem"]
                             := "-----BEGIN CERTIFICATE-----" ]}
                          (dirs Example.fs_fresh)) [] 0)).
  vm_compute. reflexivity.
Defined.

(** ** The request of a certificate, step by step *)

(** [os.listdir] gives every name once. *)
Lemma NoDup_omap_inj {A B} (g : A -> option B) (l : list A) :
  (forall x y b, g x = Some b -> g y = Some b -> x = y) ->
  NoDup l -> NoDup (omap g l).
Proof.
  intros Hinj. induction 1 as [|x l Hx Hl IH]; cbn.
  - constructor.
  - fold (omap g l). destruct (g x) as [b|] eqn:E; [|exact IH].
    constructor; [|exact IH].
    intros Hin. apply list_elem_of_omap in Hin as (y & Hy & Hgy).
    rewrite (Hinj x y b E Hgy) in Hx. contradiction.
Qed.

Lemma listdir_NoDup (f : FS) (p : list string) (ks : list string) :
  Fs.listdir f p = Ok ks -> NoDup ks.
Proof.
  unfold Fs.listdir. destruct (Fs.is_file f p); [discriminate|].
  destruct (Fs.is_dir f p); [|discriminate]. intros [= <-].
  apply NoDup_omap_inj; [|apply NoDup_elements].
  intros x y b Hx Hy.
  destruct (bool_decide (removelast x = p)) eqn:Ex; [|discriminate].
  destruct (bool_decide (removelast y = p)) eqn:Ey; [|discriminate].
  apply bool_decide_eq_true_1 in Ex, Ey.
  apply last_Some in Hx as [x' ->]. apply last_Some in Hy as [y' ->].
  rewrite removelast_last in Ex, Ey. congruence.
Qed.

Lemma rmtree_exists_false (f : FS) (p q : list string) :
  Fs.exists_ f q = false -> Fs.exists_ (Fs.rmtree f p) q = false.
Proof.
  unfold Fs.exists_, Fs.rmtree, Fs.is_file, Fs.is_dir.
  destruct (bool_decide (p ∈ dirs f)); [|auto]. cbn [files dirs].
  intros H. apply orb_false_elim in H as [Hf Hd].
  apply bool_decide_eq_false_1 in Hf, Hd.
  apply orb_false_intro; apply bool_decide_eq_false_2.
  - intros [t Ht]. apply map_lookup_filter_Some in Ht as [Ht _]. apply Hf. eauto.
  - intros [-> | Hin]; [apply Hd; now left|].
    apply elem_of_filter in Hin as [_ Hin]. apply Hd. now right.
Qed.

Lemma rmtree_sibling_is_dir (f : FS) (p : list string) (k k' : string) :
  k <> k' ->
  Fs.is_dir (Fs.rmtree f (p ++ [k])) (p ++ [k']) = Fs.is_dir f (p ++ [k']).
Proof.
  intros Hne. unfold Fs.rmtree, Fs.is_dir.
  destruct (bool_decide ((p ++ [k])%list ∈ dirs f)); [|reflexivity]. cbn [dirs].
  apply bool_decide_ext. split.
  - intros [H | H]; [now left|]. apply elem_of_filter in H as [_ H]. now right.
  - intros [H | H]; [now left|]. right. apply elem_of_filter. split; [|exact H].
    intros [r Hr]. rewrite <- app_assoc in Hr.
    apply app_inv_head in Hr. cbn in Hr. congruence.
Qed.

(** The loop over the certificate directories removes the stale
    directories, each once, in the order of the listing. *)
Lemma remove_stale_exact (self : CertBot.t) (p : list string) (ks : list string) :
  NoDup ks -> plain_names p ks ->
  forall st : State,
    CertBot.remove_stale self p ks st =
    (Done tt,
     mkState (fold_left Fs.rmtree (stale_in (fs st) p (CertBot._domain self) ks) (fs st))
             (trace st ++ map Rmtree (stale_in (fs st) p (CertBot._domain self) ks))
             (fetches st)).
Proof.
  set (d := CertBot._domain self).
  induction 1 as [|k ks Hk Hnd IH]; intros Hplain [f tr n]; cbn [CertBot.remove_stale].
  - unfold stale_in. cbn [fs trace fetches List.filter map].
    destruct (Fs.exists_ f (Path.joinpath p d)); cbn; now rewrite app_nil_r.
  - apply Forall_cons in Hplain as [Hkp Hplain]. specialize (IH Hplain).
    step_M. fold d. unfold stale_in. cbn [fs trace fetches List.filter].
    destruct (Fs.exists_ f (Path.joinpath p d)) eqn:Ecan; cbn [negb andb]; step_M.
    + rewrite IH. unfold stale_in. cbn [fs trace fetches]. fold d. rewrite Ecan. reflexivity.
    + destruct (Str.startswith k (d ++ "-") && Fs.is_dir f (Path.joinpath p k)) eqn:Econd;
        step_M.
      * rewrite IH. unfold stale_in. cbn [fs trace fetches]. fold d.
        rewrite (rmtree_exists_false f _ _ Ecan).
        assert (Hsame : List.filter (fun k0 => Str.startswith k0 (d ++ "-") &&
                                      Fs.is_dir (Fs.rmtree f (Path.joinpath p k))
                                                (Path.joinpath p k0)) ks =
                        List.filter (fun k0 => Str.startswith k0 (d ++ "-") &&
                                      Fs.is_dir f (Path.joinpath p k0)) ks).
        { apply List.filter_ext_in. intros k0 Hin. f_equal.
          rewrite Forall_forall in Hplain.
          rewrite Hkp, (Hplain k0) by now apply list_elem_of_In.
          apply rmtree_sibling_is_dir. intros ->. apply Hk. now apply list_elem_of_In. }
        rewrite Hsame. cbn [map fold_left]. rewrite <- app_assoc. reflexivity.
      * rewrite IH. unfold stale_in. cbn [fs trace fetches]. fold d. rewrite Ecan.
        reflexivity.
Qed.

Lemma certbot_argv (d : string) : hd "" (Str.split (CertBot.cmd d)) = "certbot".
Proof. reflexivity. Qed.

Lemma certbot_run_steps (env : Env) (d : string) (st : State) :
  on_path env "certbot" = true ->
  Fs.is_file (fs st) live = false ->
  plain_names live (live_names (fs st)) ->
  let busy := Project.is_port_in_used env 80 tcp in
  let limited := quota_reached env d in
  let r := CertBot.run env (CertBot.new d) st in
  trace (snd r) =
  (trace st ++
   (if Fs.exists_ (fs st) live
    then Log INFO "移除證書殘影..." :: map Rmtree (stale_dirs (fs st) d) else []) ++
   certbot_steps d busy limited)%list /\
  fst r = if limited then Halt SysExit else Done (CertBot.mk d false true).
Proof.
  intros Hpath Hfile Hplain busy limited r. subst r. destruct st as [f tr n].
  cbn [fs trace] in *.
  set (cleared := if Fs.exists_ f live
                  then Log INFO "移除證書殘影..." :: map Rmtree (stale_dirs f d) else []).
  assert (Hloop : exists f0,
             (if Fs.exists_ f live
              then (Logging.info "移除證書殘影..." >>
                    let* ks := Os.listdir live in
                    CertBot.remove_stale (CertBot.new d) live ks)%M
              else ret tt) (mkState f tr n) = (Done tt, mkState f0 (tr ++ cleared) n)).
  { subst cleared. destruct (Fs.exists_ f live) eqn:Eex.
    - step_M. unfold stale_dirs, live_names in *.
      destruct (Fs.listdir f live) as [ks|e] eqn:Els.
      + step_M. rewrite (remove_stale_exact _ _ _ (listdir_NoDup _ _ _ Els) Hplain).
        cbn [fs trace fetches CertBot._domain CertBot.new]. rewrite <- app_assoc.
        eexists. reflexivity.
      + exfalso. unfold Fs.listdir in Els. rewrite Hfile in Els.
        unfold Fs.exists_ in Eex. rewrite Hfile in Eex. cbn [orb] in Eex.
        rewrite Eex in Els. discriminate.
    - exists f. rewrite app_nil_r. reflexivity. }
  destruct Hloop as (f0 & Hloop).
  assert (Hpre : exists f1,
             CertBot._cert_pre_hook env (CertBot.new d) (mkState f tr n) =
             (Done (CertBot.mk d busy true),
              mkState f1
                (tr ++ cleared ++
                 [Log INFO "正在为解析到本机的域名申请免费证书";
                  Log INFO "正在更新包索引";
                  System "apt update -y > /dev/null 2>&1 ";
                  Log INFO "安装 certbot";
                  System "apt install certbot -y > /dev/null 2>&1";
                  Log INFO "检查 80 端口占用"] ++
                 (if busy
                  then [System "systemctl stop nginx > /dev/null 2>&1 && nginx -s stop > /dev/null 2>&1";
                        System "kill $(lsof -t -i:80)  > /dev/null 2>&1"]
                  else []))%list n)).
  { unfold CertBot._cert_pre_hook. fold live. step_M.
    unfold Logging.info, PathIO.exists_, Os.listdir, emit, get_fs, bind, ret in Hloop.
    cbn [fs trace fetches] in Hloop. rewrite Hloop. step_M.
    subst busy. destruct (Project.is_port_in_used env 80 tcp); step_M;
      eexists; rewrite <- ?app_assoc;
      cbn [CertBot._domain CertBot._is_success CertBot.new app]; reflexivity. }
  destruct Hpre as (f1 & Hpre).
  split.
  - unfold CertBot.run, bind at 1. rewrite Hpre. unfold bind at 1.
    unfold CertBot._run, popen. cbn [CertBot._domain].
    rewrite certbot_argv, Hpath. step_M.
    fold (quota_reached env d). fold limited.
    unfold CertBot._cert_post_hook, certbot_steps, restart_nginx, enable_timer.
    destruct limited, busy; step_M; cbn [CertBot._should_revive_port_80 CertBot._is_success
      CertBot._domain negb]; step_M; rewrite <- ?app_assoc; cbn [app]; reflexivity.
  - unfold CertBot.run, bind at 1. rewrite Hpre. unfold bind at 1.
    unfold CertBot._run, popen. cbn [CertBot._domain].
    rewrite certbot_argv, Hpath. step_M.
    fold (quota_reached env d). fold limited.
    unfold CertBot._cert_post_hook.
    destruct limited, busy; step_M; cbn [CertBot._should_revive_port_80 CertBot._is_success
      CertBot._domain negb]; step_M; reflexivity.
Qed.

(** X15. What [CertBot.run] does, in order, where the ACME client is
    installed and the entries of the certificate directory have plain
    names.  When the certificate directory exists, it first removes the
    stale directories of the domain: when the directory has no entry named
    after the domain, every directory in it whose name begins with the
    domain and a hyphen, each once, in the order of the listing, and
    nothing else; none when the entry of the domain exists.  Then it
    updates the packages and installs the client; stops nginx and the
    holder of port 80 when the port is taken; requests the certificate;
    restarts nginx exactly when it stopped it, whatever the request gave;
    and then enables the renewal timer and returns, or, when the quota is
    used up, warns and exits instead. *)
Theorem certbot_run_in_order (env : Env) (d : string) (st : State) :
  on_path env "certbot" = true ->
  Fs.is_file (fs st) live = false ->
  plain_names live (live_names (fs st)) ->
  let busy := Project.is_port_in_used env 80 tcp in
  let limited := quota_reached env d in
  let r := CertBot.run env (CertBot.new d) st in
  trace (snd r) =
  (trace st ++
   (if Fs.exists_ (fs st) live
    then Log INFO "移除證書殘影..." :: map Rmtree (stale_dirs (fs st) d) else []) ++
   certbot_steps d busy limited)%list /\
  fst r = if limited then Halt SysExit else Done (CertBot.mk d false true).
Proof. exact (certbot_run_steps env d st). Qed.

Lemma certbot_run_in_order_witness :
  let r := CertBot.run Example.env_limited (CertBot.new "example.com") Example.st_stale in
  trace (snd r) =
  (trace Example.st_stale ++
   (if Fs.exists_ (fs Example.st_stale) live
    then Log INFO "移除證書殘影..." ::
         map Rmtree (stale_dirs (fs Example.st_stale) "example.com")
    else []) ++
   certbot_steps "example.com" (Project.is_port_in_used Example.env_limited 80 tcp)
                 (quota_reached Example.env_limited "example.com"))%list /\
  fst r = if quota_reached Example.env_limited "example.com" then Halt SysExit
          else Done (CertBot.mk "example.com" false true).
Proof.
  apply (certbot_run_in_order Example.env_limited "example.com" Example.st_stale).
  - vm_compute. reflexivity.
  - vm_compute. reflexivity.
  - vm_compute. repeat constructor.
Defined.

(** On that host the stale directory of [example.com] is the one that is
    removed; the directory of the other domain and the file stay. *)
Lemma stale_dirs_example :
  stale_dirs (fs Example.st_stale) "example.com" =
  [["etc"; "letsencrypt"; "live"; "example.com-0001"]].
Proof. vm_compute. reflexivity. Qed.

(** ** The order of the steps of [install] *)

Section Ordered.

Variables a b : event -> bool.

Lemma precedes_quiet (l1 l2 : list event) :
  Forall (fun e => b e = false) l1 ->
  precedes a b l2 = true -> precedes a b (l1 ++ l2) = true.
Proof.
  induction 1 as [|e l1 He _ IH]; intros H2; cbn [app precedes]; [exact H2|].
  destruct (a e); [reflexivity|]. rewrite He. cbn [negb andb]. now apply IH.
Qed.

Lemma precedes_after (l1 l2 : list event) :
  Forall (fun e => b e = false) l1 ->
  existsb a l1 = true -> precedes a b (l1 ++ l2) = true.
Proof.
  induction 1 as [|e l1 He _ IH]; cbn [app precedes existsb]; [discriminate|].
  destruct (a e); [reflexivity|]. rewrite He. cbn [negb andb orb]. exact IH.
Qed.

Let P := fun e => b e = false.
Let H := fun _ : halt => True.

(** A first part without [b]. *)
Lemma ordered_bind {A B} (Q : A -> Prop) (m : M A) (k : A -> M B) (st : State) :
  run_inv any_fs P H Q m ->
  (forall x, Q x -> ordered_at a b (k x) (snd (m st))) ->
  ordered_at a b (bind m k) st.
Proof.
  intros Hm Hk. destruct (Hm st) as (_ & (evs & Htr & Hevs) & Hout).
  unfold ordered_at, bind. destruct (m st) as [[x|h] st1]; cbn [fst snd] in *.
  - destruct (Hk x Hout) as (evs' & Htr' & Hord).
    exists (evs ++ evs')%list. rewrite Htr', Htr, app_assoc.
    split; [reflexivity | now apply precedes_quiet].
  - exists evs. split; [exact Htr|].
    rewrite <- (app_nil_r evs). now apply precedes_quiet.
Qed.

(** A first part without [b] that ends with an [a], and then anything. *)
Lemma ordered_after {A B} (m : M A) (k : A -> M B) (st : State) :
  run_inv any_fs P H (fun _ => True) m ->
  (forall x st1 evs, m st = (Done x, st1) -> trace st1 = (trace st ++ evs)%list ->
                     existsb a evs = true) ->
  (forall x, run_inv any_fs (fun _ => True) H (fun _ => True) (k x)) ->
  ordered_at a b (bind m k) st.
Proof.
  intros Hm Ha Hk. destruct (Hm st) as (_ & (evs & Htr & Hevs) & _).
  unfold ordered_at, bind.
  destruct (m st) as [[x|h] st1] eqn:Em; cbn [fst snd] in *.
  - destruct (Hk x st1) as (_ & (evs' & Htr' & _) & _).
    exists (evs ++ evs')%list. rewrite Htr', Htr, app_assoc. split; [reflexivity|].
    apply precedes_after; [exact Hevs|]. exact (Ha x st1 evs eq_refl Htr).
  - exists evs. split; [exact Htr|].
    rewrite <- (app_nil_r evs). now apply precedes_quiet.
Qed.

End Ordered.

Lemma download_server_no_start (env : Env) (depth : nat) (self : Service.t) (ws : list string) :
  run_inv any_fs (fun e => is_start e = false) (fun _ => True) (fun _ => True)
          (Service.download_server env depth self ws).
Proof.
  induction depth as [|depth IH]; cbn [Service.download_server].
  - repeat run_step.
  - unfold Service.stop.
    apply run_inv_seq; [auto with run | |intros n].
    + intros st. unfold run_inv_at. cbn. repeat split; auto.
      exists []. now rewrite app_nil_r.
    + repeat run_step; exact IH.
Qed.

(** A download that returns has fetched the archive. *)
Lemma download_server_fetches (env : Env) (depth : nat) (self : Service.t) (ws : list string)
      (st st1 : State) (evs : list event) :
  Service.download_server env depth self ws st = (Done tt, st1) ->
  trace st1 = (trace st ++ evs)%list ->
  existsb is_download evs = true.
Proof.
  destruct depth as [|depth]; [discriminate|].
  cbn [Service.download_server]. unfold bind at 1, Service.next_fetch.
  unfold bind at 1, host at 1.
  match goal with
  | |- ?rest ?s0 = _ -> _ => set (k := rest); set (st0 := s0)
  end.
  assert (Hk : run_inv any_fs (fun _ => True) (fun _ => True) (fun _ => True) k).
  { subst k. pose proof (download_server_inv (fun _ => True) (fun _ => True)
                           (fun _ => I) env depth self ws (fun _ => I) (fun _ => I)
                           (fun _ _ => I) (fun _ _ => I) I) as Hrec.
    unfold Service.stop. repeat run_step; exact Hrec. }
  destruct (Hk st0) as (_ & (evs' & Htr' & _) & _).
  intros Heq Htr. rewrite Heq in Htr'. cbn [snd] in Htr'. subst st0. cbn [trace] in Htr'.
  rewrite Htr, <- app_assoc in Htr'. apply app_inv_head in Htr'. subst evs. reflexivity.
Qed.

Ltac quiet_step lemma :=
  cbv zeta;
  lazymatch goal with
  | |- ordered_at _ _ (bind _ _) _ =>
      apply (ordered_bind _ _ (fun _ => True));
      [solve [run_named lemma] | intros ? _]
  | |- ordered_at _ _ (let (_, _) := ?x in _) _ => destruct x
  end.

Section InstallOrder.

Variable env : Env.
Variable params : Params.

Lemma to_json_writes (sc : ServerConfig.t) (st st1 : State) (evs : list event) :
  ServerConfig.to_json env sc Project.server_config st = (Done tt, st1) ->
  trace st1 = (trace st ++ evs)%list ->
  existsb (is_write Project.server_config) evs = true.
Proof.
  unfold ServerConfig.to_json. step_M.
  destruct (Fs.write_text (fs st) Project.server_config _); step_M; [|discriminate].
  intros [= <-]. cbn [trace]. rewrite <- app_assoc. intros Htr.
  apply app_inv_head in Htr. subst evs. reflexivity.
Qed.

Lemma build_writes (st st1 : State) (evs : list event) (s : Service.t) :
  Service.build_from_template env Project.service Project.systemd_template st = (Done s, st1) ->
  trace st1 = (trace st ++ evs)%list ->
  existsb (is_write Project.service) evs = true.
Proof.
  unfold Service.build_from_template.
  change (negb (String.eqb Project.systemd_template "")) with true. step_M.
  destruct (Fs.write_text (fs st) Project.service _); step_M; [|discriminate].
  intros [= <- <-]. cbn [trace]. rewrite <- app_assoc. intros Htr.
  apply app_inv_head in Htr. subst evs. reflexivity.
Qed.

Ltac at_any_state :=
  match goal with
  | |- ordered_at _ _ _ ?s => generalize s; intros ?
  end.

Lemma install_config_before_start (st : State) :
  ordered_at (is_write Project.server_config) is_start (Scaffold.install env params) st.
Proof.
  unfold Scaffold.install.
  do 14 quiet_step (download_server_no_start env).
  at_any_state. apply ordered_after.
  - run_auto.
  - intros [] st1 evs. apply to_json_writes.
  - intros _. run_auto.
Qed.

Lemma install_download_before_start (st : State) :
  ordered_at is_download is_start (Scaffold.install env params) st.
Proof.
  unfold Scaffold.install.
  do 11 quiet_step (download_server_no_start env).
  at_any_state. apply ordered_after.
  - apply download_server_no_start.
  - intros [] st1 evs. apply download_server_fetches.
  - intros _. run_auto.
Qed.

Lemma install_unit_before_start (st : State) :
  ordered_at (is_write Project.service) is_start (Scaffold.install env params) st.
Proof.
  unfold Scaffold.install.
  do 9 quiet_step (download_server_no_start env).
  at_any_state. apply ordered_after.
  - run_auto.
  - intros sv st1 evs. apply build_writes.
  - intros sv. run_auto.
Qed.

Lemma start_starts (st st1 : State) (evs : list event) :
  Service.start env (Service.mk Project.service "juicity") st = (Done tt, st1) ->
  trace st1 = (trace st ++ evs)%list ->
  existsb is_start evs = true.
Proof.
  unfold Service.start. step_M. intros [= <-]. cbn [trace].
  rewrite <- !app_assoc. intros Htr. apply app_inv_head in Htr. subst evs. reflexivity.
Qed.

Lemma build_no_execl (template : string) :
  run_inv any_fs (fun e => is_execl e = false) (fun _ => True)
          (fun s => s = Service.mk Project.service "juicity")
          (Service.build_from_template env Project.service template).
Proof. apply build_from_template_juicity; intros; reflexivity. Qed.

Lemma download_no_execl (depth : nat) (self : Service.t) (ws : list string) :
  run_inv any_fs (fun e => is_execl e = false) (fun _ => True) (fun _ => True)
          (Service.download_server env depth self ws).
Proof. apply download_server_inv; intros; reflexivity || exact I. Qed.

Lemma install_start_before_shell (st : State) :
  ordered_at is_start is_execl (Scaffold.install env params) st.
Proof.
  unfold Scaffold.install.
  do 9 quiet_step download_no_execl.
  apply (ordered_bind _ _ (fun s => s = Service.mk Project.service "juicity"));
    [apply build_no_execl|].
  intros sv ->.
  do 6 quiet_step download_no_execl.
  at_any_state. apply ordered_after.
  - run_auto.
  - intros [] st1 evs. apply start_starts.
  - intros _. run_auto.
Qed.

End InstallOrder.


(** ** The port of the server *)

Lemma probe_first_free (env : Env) (self : Project.t) (taken : list Z) (p : Z)
      (rest : list Z) (st : State) :
  (forall q, In q taken -> bind_fails env q udp = true) ->
  bind_fails env p udp = false ->
  Project.probe env self (taken ++ p :: rest) st =
  (Done (Project.mk (Project._server_ip self) p),
   mkState (fs st) (trace st ++ [Log INFO ("正在初始化监听端口 - port=" ++ Str.of_Z p)])
           (fetches st)).
Proof.
  intros Htaken Hfree. induction taken as [|q taken IH]; cbn [app Project.probe].
  - unfold Project.is_port_in_used. rewrite Hfree. cbn [negb]. reflexivity.
  - unfold Project.is_port_in_used at 1. rewrite (Htaken q) by now left.
    cbn [negb]. apply IH. intros q' Hq'. apply Htaken. now right.
Qed.

(** X17. The port allocator takes the first candidate of the shuffled
    range that is not bound, logs it, and remembers it: on a project
    without a port, where the candidates tried before [p] are bound and [p]
    is not, [server_port] returns [p], a port of the range; and every later
    reading of the property returns [p] again without probing or logging. *)
Theorem server_port_first_free (env : Env) (self : Project.t) (taken : list Z) (p : Z)
        (rest : list Z) (st : State) :
  Project._server_port self < 0 ->
  Permutation (shuffle env (Py.range 41670 46990)) (Py.range 41670 46990) ->
  shuffle env (Py.range 41670 46990) = (taken ++ p :: rest)%list ->
  (forall q, In q taken -> bind_fails env q udp = true) ->
  bind_fails env p udp = false ->
  let self' := Project.mk (Project._server_ip self) p in
  Project.server_port env self st =
  (Done (p, self'),
   mkState (fs st) (trace st ++ [Log INFO ("正在初始化监听端口 - port=" ++ Str.of_Z p)])
           (fetches st)) /\
  41670 <= p < 46990 /\
  forall st', Project.server_port env self' st' = (Done (p, self'), st').
Proof.
  intros Hneg Hperm Hshuffle Htaken Hfree self'.
  assert (Hp : 41670 <= p < 46990).
  { apply range_spec, (Permutation_in _ Hperm). rewrite Hshuffle.
    apply in_or_app. right. now left. }
  split; [|split; [exact Hp|]].
  - unfold Project.server_port, bind. apply Z.ltb_lt in Hneg. rewrite Hneg, Hshuffle.
    now rewrite (probe_first_free env self taken p rest st Htaken Hfree).
  - intros st'. unfold Project.server_port, bind. subst self'. cbn [Project._server_port].
    assert (Hge : (p <? 0) = false) by (apply Z.ltb_ge; lia).
    now rewrite Hge.
Qed.

Lemma server_port_first_free_witness :
  let self' := Project.mk "" 41672 in
  Project.server_port Example.env_ok (Project.mk "" (-1)) Example.st_fresh =
  (Done (41672, self'),
   mkState (fs Example.st_fresh)
           (trace Example.st_fresh ++ [Log INFO ("正在初始化监听端口 - port=" ++ Str.of_Z 41672)])
           (fetches Example.st_fresh)) /\
  41670 <= 41672 < 46990 /\
  forall st', Project.server_port Example.env_ok self' st' = (Done (41672, self'), st').
Proof.
  apply (server_port_first_free Example.env_ok (Project.mk "" (-1)) [41670; 41671] 41672
           (Py.range 41673 46990) Example.st_fresh).
  - reflexivity.
  - reflexivity.
  - vm_compute. reflexivity.
  - intros q [<-|[<-|[]]]; reflexivity.
  - reflexivity.
Defined.

(** ** A broken archive *)

(** X18. An archive that cannot be opened ends the download at once: the
    exception is no [OSError], so [download_server] neither stops the
    service nor tries again, and [BadZipFile] leaves the function after
    one download and one attempt to unpack. *)
Theorem download_bad_archive (env : Env) (depth : nat) (self : Service.t)
        (ws : list string) (st : State) :
  fetch_nth env (fetches st) = ExtractBadZip ->
  let r := Service.download_server env (S depth) self ws st in
  fst r = Halt (Uncaught BadZipFile) /\
  count is_download (trace (snd r)) = S (count is_download (trace st)) /\
  count (is_stop (Service.name self)) (trace (snd r)) =
  count (is_stop (Service.name self)) (trace st) /\
  fetches (snd r) = S (fetches st).
Proof.
  intros Hbad. cbn zeta. cbn [Service.download_server].
  unfold Service.next_fetch. step_M. rewrite Hbad. step_M.
  cbn [fetches trace]. rewrite <- ?app_assoc, !count_app. cbn.
  repeat split; lia.
Qed.

Lemma download_bad_archive_witness :
  let env := Example.host false (fun _ => false) Example.issued ("active" ++ LF)
                          (fun _ => ExtractBadZip) 1000 in
  let r := Service.download_server env 1000 (Service.mk Project.service "juicity")
                                   Project.workstation Example.st_workstation in
  fst r = Halt (Uncaught BadZipFile) /\
  count is_download (trace (snd r)) = S (count is_download (trace Example.st_workstation)) /\
  count (is_stop "juicity") (trace (snd r)) =
  count (is_stop "juicity") (trace Example.st_workstation) /\
  fetches (snd r) = S (fetches Example.st_workstation).
Proof.
  apply (download_bad_archive
           (Example.host false (fun _ => false) Example.issued ("active" ++ LF)
                         (fun _ => ExtractBadZip) 1000)
           999 (Service.mk Project.service "juicity") Project.workstation
           Example.st_workstation).
  reflexivity.
Defined.

(** ** The sub-commands of the service *)

Lemma commands_app (l1 l2 : list event) :
  commands (l1 ++ l2) = (commands l1 ++ commands l2)%list.
Proof. apply omap_app. Qed.

Lemma service_relay_run (env : Env) (cmd : string) (st : State) (f1 : FS) :
  Fs.makedirs (fs st) Project.workstation = Ok f1 ->
  exists evs,
    trace (snd (Scaffold.service_relay env cmd st)) = (trace st ++ evs)%list /\
    commands evs = relayed cmd /\
    forallb (fun e => negb (touches_files e)) evs = true.
Proof.
  intros Hmk. destruct st as [f tr n]. cbn [fs] in Hmk.
  unfold Scaffold.service_relay, Project.new, Project.__post_init__,
    Service.build_from_template, relayed.
  step_M. rewrite Hmk. step_M.
  cbn [String.eqb Ascii.eqb Bool.eqb negb].
  change (negb (String.eqb "" "")) with false. cbn iota. step_M.
  cbn [Service.name].
  destruct (String.eqb cmd "status") eqn:Estatus.
  { apply String.eqb_eq in Estatus. subst cmd. cbn [String.eqb Ascii.eqb Bool.eqb].
    unfold Scaffold._recv_stream, popen. cbn [String.eqb Ascii.eqb Bool.eqb].
    change (hd "" (Str.split ("systemctl is-active " ++ "juicity"))) with "systemctl".
    change (hd "" (Str.split "systemctl is-active certbot.timer")) with "systemctl".
    change (hd "" (Str.split (Path.to_str Project.executable ++ " -v")))
      with "/home/juicity/juicity-server".
    destruct (on_path env "systemctl"); step_M;
      [|eexists; split; [reflexivity | split; reflexivity]].
    destruct (on_path env "/home/juicity/juicity-server"); step_M;
      eexists; (split; [rewrite <- ?app_assoc; reflexivity | split; reflexivity]). }
  destruct (String.eqb cmd "log") eqn:Elog.
  { apply String.eqb_eq in Elog. subst cmd. cbn [String.eqb Ascii.eqb Bool.eqb].
    unfold Scaffold._recv_stream, popen. cbn [String.eqb Ascii.eqb Bool.eqb].
    change (hd "" (Str.split ("journalctl -u " ++ "juicity" ++ " -f -o cat")))
      with "journalctl".
    destruct (on_path env "journalctl"); step_M;
      eexists; (split; [rewrite <- ?app_assoc; reflexivity | split; reflexivity]). }
  destruct (String.eqb cmd "start") eqn:Estart.
  { unfold Service.start. step_M. cbn [Service.name].
    eexists; (split; [rewrite <- ?app_assoc; reflexivity | split; reflexivity]). }
  destruct (String.eqb cmd "stop") eqn:Estop.
  { unfold Service.stop. step_M. cbn [Service.name].
    eexists; (split; [rewrite <- ?app_assoc; reflexivity | split; reflexivity]). }
  destruct (String.eqb cmd "restart") eqn:Erestart.
  { unfold Service.restart. step_M. cbn [Service.name].
    eexists; (split; [rewrite <- ?app_assoc; reflexivity | split; reflexivity]). }
  step_M. eexists; (split; [rewrite <- ?app_assoc; reflexivity | split; reflexivity]).
Qed.

(** X19. [service_relay] passes a sub-command to systemd and changes no
    file: where the workstation directory exists or can be made, the only
    shell command of [start], [stop] and [restart] is the one that enables,
    stops or restarts the unit [juicity]; [status], [log] and any other
    word run no shell command at all; and no sub-command writes, removes
    or downloads a file, the unit file included. *)
Theorem service_relay_commands (env : Env) (cmd : string) (st : State) (f1 : FS) :
  Fs.makedirs (fs st) Project.workstation = Ok f1 ->
  exists evs,
    trace (snd (Scaffold.service_relay env cmd st)) = (trace st ++ evs)%list /\
    commands evs = relayed cmd /\
    forallb (fun e => negb (touches_files e)) evs = true.
Proof. exact (service_relay_run env cmd st f1). Qed.

Lemma service_relay_commands_witness :
  exists evs,
    trace (snd (Scaffold.service_relay Example.env_ok "restart" Example.st_workstation)) =
    (trace Example.st_workstation ++ evs)%list /\
    commands evs = relayed "restart" /\
    forallb (fun e => negb (touches_files e)) evs = true.
Proof.
  apply (service_relay_commands Example.env_ok "restart" Example.st_workstation
                                (fs Example.st_workstation)).
  vm_compute. reflexivity.
Defined.

(** ** An install that goes well *)

Lemma validate_domain_fetches (env : Env) (dom : option string) (st : State) :
  fetches (snd (Scaffold._validate_domain env dom st)) = fetches st.
Proof.
  destruct st as [f tr n]. unfold Scaffold._validate_domain.
  assert (Hgo : forall d tr',
             fetches (snd (match getaddrinfo_raises env d with
                           | Some e => raise e
                           | None =>
                               match getaddrinfo env d with
                               | None =>
                                   (Logging.error
                                      ("域名不可达或拼写错误的域名 - domain=" ++ d) >>
                                    sys_exit)%M
                               | Some server_ip =>
                                   (let* my_ip :=
                                      match ifconfig_me env with
                                      | Some body => ret body
                                      | None => raise URLError
                                      end in
                                    if negb (String.eqb my_ip server_ip)
                                    then Logging.error
                                           ("你的主机外网IP与域名解析到的IP不一致 - my_ip=" ++
                                            my_ip ++ " domain=" ++ d ++
                                            " server_ip=" ++ server_ip) >>
                                         sys_exit
                                    else ret (d, server_ip))%M
                               end
                           end (mkState f tr' n))) = n).
  { intros d tr'. destruct (getaddrinfo_raises env d) as [e|]; step_M; [reflexivity|].
    destruct (getaddrinfo env d) as [ip|]; step_M; [|reflexivity].
    destruct (ifconfig_me env) as [my|]; step_M; [|reflexivity].
    destruct (String.eqb my ip); reflexivity. }
  destruct dom as [d|]; [destruct (String.eqb d "")|]; step_M; apply Hgo.
Qed.

(** [set_alias] does the same whatever has been done before. *)
Lemma set_alias_at (env : Env) (f : FS) (tr : list event) (n : nat) :
  let r0 := Project.set_alias env (mkState f [] 0) in
  Project.set_alias env (mkState f tr n) =
  (fst r0, mkState (fs (snd r0)) (tr ++ trace (snd r0)) n).
Proof.
  cbn zeta. unfold Project.set_alias. step_M.
  destruct (Fs.exists_ f (Project.path_bash_aliases env)); step_M.
  - destruct (Fs.read_text f (Project.path_bash_aliases env)); step_M;
      [|now rewrite app_nil_r].
    destruct (existsb _ Project.alias_checks); step_M; [now rewrite app_nil_r|].
    destruct (Fs.append_text f (Project.path_bash_aliases env) (LF ++ Project.alias ++ LF));
      step_M; now rewrite <- ?app_assoc.
  - destruct (Fs.append_text f (Project.path_bash_aliases env) (LF ++ Project.alias ++ LF));
      step_M; now rewrite <- ?app_assoc.
Qed.

(** The steps of [install], one by one, with what the host does to the
    disk at each. *)
Lemma build_run (env : Env) (f : FS) (tr : list event) (n : nat) :
  Fs.writable f Project.service = Ok tt ->
  Service.build_from_template env Project.service Project.systemd_template (mkState f tr n) =
  (Done (Service.mk Project.service "juicity"),
   mkState (host_effect env (System "systemctl daemon-reload")
              (mkFS (<[Project.service := Project.systemd_template]> (files f)) (dirs f)))
           (tr ++ [WriteText Project.service Project.systemd_template;
                   System "systemctl daemon-reload"]) n).
Proof.
  intros Hw. unfold Service.build_from_template.
  change (negb (String.eqb Project.systemd_template "")) with true. step_M.
  unfold Fs.write_text. rewrite Hw. cbn [rbind]. step_M.
  rewrite <- app_assoc. reflexivity.
Qed.

Lemma download_run (env : Env) (depth : nat) (self : Service.t) (ws : list string) (f : FS)
      (tr : list event) (n : nat) :
  let zip_path := Path.joinpath ws (List.last (Str.split_on "/" URL) "") in
  let ex_path := Path.joinpath ws "juicity-server" in
  fetch_nth env n = Fetched ->
  Service.download_server env (S depth) self ws (mkState f tr n) =
  (Done tt,
   mkState
     (host_effect env (System ("chmod +x " ++ Path.to_str ex_path))
        (host_effect env (Extractall zip_path ws)
           (host_effect env (Urlretrieve URL (Path.to_str zip_path)) f)))
     (tr ++
      [Urlretrieve URL (Path.to_str zip_path);
       Log INFO ("下载完毕 - zip_path=" ++ Path.to_str zip_path);
       Extractall zip_path ws;
       System ("chmod +x " ++ Path.to_str ex_path);
       Log INFO ("授予执行权限 - ex_path=" ++ Path.to_str ex_path)])
     (S n)).
Proof.
  intros zip_path ex_path Hok. cbn [Service.download_server]. unfold Service.next_fetch. step_M.
  rewrite Hok. step_M. rewrite <- !app_assoc. reflexivity.
Qed.

Lemma start_run (env : Env) (f : FS) (tr : list event) (n : nat) :
  Service.start env (Service.mk Project.service "juicity") (mkState f tr n) =
  (Done tt,
   mkState (host_effect env (System "systemctl enable --now juicity") f)
           (tr ++ [System "systemctl enable --now juicity"; Log INFO "系统服务已启动";
                   Log INFO "已设置服务开机自启"]) n).
Proof.
  unfold Service.start. step_M. rewrite <- !app_assoc. reflexivity.
Qed.

Lemma status_active (env : Env) (f : FS) (tr : list event) (n : nat) :
  on_path env "systemctl" = true ->
  Str.strip (stdout_of env ["systemctl"; "is-active"; "juicity"]) = "active" ->
  Service.status env (Service.mk Project.service "juicity") (mkState f tr n) =
  (Done (VBool true, ESC ++ "[32m" ++ "active" ++ ESC ++ "[0m"),
   mkState (host_effect env (Popen ["systemctl"; "is-active"; "juicity"]) f)
           (tr ++ [Popen ["systemctl"; "is-active"; "juicity"]]) n).
Proof.
  intros Hctl Hactive. unfold Service.status, popen. cbn [Service.name].
  change (Str.split ("systemctl is-active " ++ "juicity"))
    with ["systemctl"; "is-active"; "juicity"].
  cbn [hd]. rewrite Hctl, Hactive. step_M. reflexivity.
Qed.

Section GoesWell.

Variable env : Env.

Lemma gen_clients_run (self : Template.t) (server_addr : string) (user : User.t)
      (sc : ServerConfig.t) (f : FS) (tr : list event) (n : nat) :
  let ip := Project._server_ip (Template.project self) in
  let port := Project._server_port (Template.project self) in
  let text := json_dumps env (NekoRayConfig.__dict__
                                (NekoRayConfig.from_server user sc server_addr port ip)) in
  0 <= port ->
  Fs.writable f Project.client_nekoray_config = Ok tt ->
  Template.gen_clients env self server_addr user sc (mkState f tr n) =
  (Done self,
   mkState (mkFS (<[Project.client_nekoray_config := text]> (files f)) (dirs f))
           (tr ++ [Log INFO "正在生成客户端配置文件";
                   WriteText Project.client_nekoray_config text]) n).
Proof.
  destruct self as [[ip port] md].
  cbn [Template.project Project._server_ip Project._server_port]. cbv zeta.
  intros Hport Hw.
  assert (Hneg : (port <? 0) = false) by (apply Z.ltb_ge; exact Hport).
  unfold Template.gen_clients, Project.server_port, NekoRayConfig.to_json.
  cbn [Template.project Template.mode Project._server_ip Project._server_port].
  rewrite Hneg. step_M. cbn [Project._server_ip Project._server_port].
  unfold Fs.write_text. rewrite Hw. cbn [rbind]. step_M.
  rewrite <- app_assoc. reflexivity.
Qed.

Lemma parse_saved (self : Template.t) (params : Params) (user : User.t) (sc : ServerConfig.t)
      (server_addr server_ip : string) (server_port : Z) (f : FS) (tr : list event)
      (n : nat) :
  let c := NekoRayConfig.from_server user sc server_addr server_port server_ip in
  let text := json_dumps env (NekoRayConfig.__dict__ c) in
  files f !! Project.client_nekoray_config = Some text ->
  json_loads env text = Some (NekoRayConfig.__dict__ c) ->
  Str.contains ":" server_ip = false ->
  Template.parse env self params (mkState f tr n) =
  (Done tt,
   mkState f
     (tr ++ [Stdout (TEMPLATE_PRINT_SHARELINK
                       ("juicity://" ++ User.username user ++ ":" ++ User.password user ++
                        "@" ++ server_ip ++ ":" ++ Str.of_Z server_port ++
                        "?congestion_control=" ++
                        Py.str (ServerConfig.congestion_control sc) ++
                        "&allow_insecure=0" ++
                        (if String.eqb server_addr "" then "" else "&sni=" ++ server_addr)));
             Stdout (TEMPLATE_PRINT_NEKORAY server_ip (Str.of_Z server_port) text)]) n).
Proof.
  intros c text Hfile Hcodec Hip.
  assert (Hparse : Template.parse env self params = Template.print_nekoray env self).
  { unfold Template.parse. cbn [existsb]. now destruct (nekoray params). }
  rewrite Hparse. unfold Template.print_nekoray, NekoRayConfig.from_json. step_M.
  unfold Fs.exists_, Fs.is_file, Fs.read_text. rewrite Hfile.
  rewrite bool_decide_eq_true_2 by eauto.
  cbn [orb negb]. step_M. rewrite Hfile. step_M.
  rewrite Hcodec. step_M.
  rewrite NekoRayConfig_round_trip_dict. step_M.
  pose proof (serv_peer_from_server user sc server_addr server_port server_ip) as Hpeer.
  fold c in Hpeer. rewrite Hip in Hpeer. rewrite Hpeer. step_M.
  pose proof (sharelink_from_server user sc server_addr server_port server_ip) as Hlink.
  fold c in Hlink. rewrite Hlink. step_M.
  unfold NekoRayConfig.showcase. fold text.
  rewrite <- !app_assoc. reflexivity.
Qed.

Lemma from_automation_installed (d : string) (p : Z) :
  ServerConfig.from_automation (inl (User.gen env))
    (Certificate.fullchain (Certificate.mk d)) (Certificate.privkey (Certificate.mk d)) p =
  Ok (installed_server env d p).
Proof.
  unfold ServerConfig.from_automation, ServerConfig.__init__, ServerConfig.__post_init__.
  cbn [ServerConfig.listen ServerConfig.users ServerConfig.certificate
       ServerConfig.private_key ServerConfig.congestion_control ServerConfig.log_level
       Py.str Py.repr fold_left ServerConfig.dict_set Py.truthy].
  now rewrite of_Z_not_colon.
Qed.

Lemma server_to_json_run (sc : ServerConfig.t) (f : FS) (tr : list event) (n : nat) :
  Fs.writable f Project.server_config = Ok tt ->
  ServerConfig.to_json env sc Project.server_config (mkState f tr n) =
  (Done tt,
   mkState (mkFS (<[Project.server_config := json_dumps env (ServerConfig.__dict__ sc)]>
                    (files f)) (dirs f))
           (tr ++ [WriteText Project.server_config (json_dumps env (ServerConfig.__dict__ sc));
                   Log INFO ("保存服务端配置文件 - save_path=" ++
                             Path.to_str Project.server_config)]) n).
Proof.
  intros Hw. unfold ServerConfig.to_json. step_M.
  unfold Fs.write_text. rewrite Hw. cbn [rbind]. step_M.
  rewrite <- app_assoc. reflexivity.
Qed.

Hypothesis keeps_service : left_alone env Project.service.
Hypothesis keeps_server_config : left_alone env Project.server_config.
Hypothesis keeps_client_config : left_alone env Project.client_nekoray_config.

Lemma install_run (params : Params) (st : State) (d ip sh : string) (f1 : FS)
      (taken rest : list Z) (p : Z) :
  let alias_run := Project.set_alias env (mkState f1 [] 0) in
  let f2 := fs (snd alias_run) in
  let server_text := json_dumps env (ServerConfig.__dict__ (installed_server env d p)) in
  let client_text :=
    json_dumps env (NekoRayConfig.__dict__ (installed_client env d ip p)) in
  validated env (requested_domain env params) = Done (d, ip) ->
  Fs.exists_ (fs st) (Path.of_str (Certificate.fullchain (Certificate.mk d))) = true ->
  Fs.makedirs (fs st) Project.workstation = Ok f1 ->
  fst alias_run = Done tt ->
  shuffle env (Py.range 41670 46990) = (taken ++ p :: rest)%list ->
  (forall q, In q taken -> bind_fails env q udp = true) ->
  bind_fails env p udp = false ->
  0 <= p ->
  Fs.writable f2 Project.service = Ok tt ->
  Fs.writable f2 Project.server_config = Ok tt ->
  Fs.writable f2 Project.client_nekoray_config = Ok tt ->
  fetch_nth env (fetches st) = Fetched ->
  (0 < recursion_limit env)%nat ->
  on_path env "systemctl" = true ->
  Str.strip (stdout_of env ["systemctl"; "is-active"; "juicity"]) = "active" ->
  json_loads env client_text = Some (NekoRayConfig.__dict__ (installed_client env d ip p)) ->
  Str.contains ":" ip = false ->
  shell env = Some sh ->
  let r := Scaffold.install env params st in
  fst r = Halt Replaced /\
  (exists pre,
      forallb prompt_or_error pre = true /\
      trace (snd r) =
      (trace st ++ pre ++ install_steps env d ip (trace (snd alias_run)) p sh)%list) /\
  files (fs (snd r)) !! Project.service = Some Project.systemd_template /\
  files (fs (snd r)) !! Project.server_config = Some server_text /\
  files (fs (snd r)) !! Project.client_nekoray_config = Some client_text.
Proof.
  intros alias_run f2 server_text client_text Hvalid Hcert Hmk Halias Hshuffle Htaken Hfree
         Hport Hw1 Hw2 Hw3 Hfetch Hlimit Hctl Hactive Hcodec Hip Hshell r.
  subst r. destruct st as [f tr n]. cbn [fs trace fetches] in *.
  (* the disk, step by step *)
  set (zip_path := Path.joinpath Project.workstation (List.last (Str.split_on "/" URL) "")).
  set (ex_path := Path.joinpath Project.workstation "juicity-server").
  set (g1 := host_effect env (System "systemctl daemon-reload")
               (mkFS (<[Project.service := Project.systemd_template]> (files f2)) (dirs f2))).
  set (g2 := host_effect env (System ("chmod +x " ++ Path.to_str ex_path))
               (host_effect env (Extractall zip_path Project.workstation)
                  (host_effect env (Urlretrieve URL (Path.to_str zip_path)) g1))).
  set (g3 := mkFS (<[Project.server_config := server_text]> (files g2)) (dirs g2)).
  set (g5 := host_effect env (Popen ["systemctl"; "is-active"; "juicity"])
               (host_effect env (System "systemctl enable --now juicity") g3)).
  set (g6 := mkFS (<[Project.client_nekoray_config := client_text]> (files g5)) (dirs g5)).
  assert (Hg2w : forall q, left_alone env q -> Fs.writable g2 q = Fs.writable g1 q).
  { intros q Hq. unfold g2. now rewrite !(proj2 (Hq _ _)). }
  assert (Hg2f : forall q, left_alone env q -> files g2 !! q = files g1 !! q).
  { intros q Hq. unfold g2. now rewrite !(proj1 (Hq _ _)). }
  assert (Hg5w : forall q, left_alone env q -> Fs.writable g5 q = Fs.writable g3 q).
  { intros q Hq. unfold g5. now rewrite !(proj2 (Hq _ _)). }
  assert (Hg5f : forall q, left_alone env q -> files g5 !! q = files g3 !! q).
  { intros q Hq. unfold g5. now rewrite !(proj1 (Hq _ _)). }
  assert (Hw2' : Fs.writable g2 Project.server_config = Ok tt).
  { rewrite Hg2w by exact keeps_server_config. unfold g1.
    rewrite (proj2 (keeps_server_config _ _)).
    rewrite (writable_insert f2) by discriminate. exact Hw2. }
  assert (Hw3' : Fs.writable g5 Project.client_nekoray_config = Ok tt).
  { rewrite Hg5w by exact keeps_client_config. unfold g3.
    rewrite (writable_insert g2) by discriminate.
    rewrite Hg2w by exact keeps_client_config. unfold g1.
    rewrite (proj2 (keeps_client_config _ _)).
    rewrite (writable_insert f2) by discriminate. exact Hw3. }
  assert (Hrun : exists pre,
             forallb prompt_or_error pre = true /\
             Scaffold.install env params (mkState f tr n) =
             (Halt Replaced,
              mkState g6
                      (tr ++ pre ++ install_steps env d ip (trace (snd alias_run)) p sh)
                      (S n))).
  { (* the validation *)
    destruct (validate_domain_outcome env params (mkState f tr n))
      as (Hout & Hfs & pre & Htr & Hpre).
    pose proof (validate_domain_fetches env (domain params) (mkState f tr n)) as Hn.
    cbn zeta in Hout, Hfs, Htr. cbn [fs trace fetches] in *.
    rewrite Hvalid in Hout.
    exists pre. split; [exact Hpre|].
    unfold Scaffold.install. unfold bind at 1.
    destruct (Scaffold._validate_domain env (domain params) (mkState f tr n))
      as [o [f0 tr0 n0]].
    cbn [fst snd fs trace fetches] in *. subst o f0 tr0 n0.
    (* the certificate is there *)
    step_M. rewrite Hcert. cbn [negb]. step_M.
    (* the workstation *)
    unfold Project.new, Project.__post_init__. step_M. rewrite Hmk. step_M.
    (* the alias *)
    rewrite set_alias_at. fold alias_run. rewrite Halias. cbn [fst snd fs trace fetches].
    fold f2.
    (* the port *)
    unfold Project.server_port. cbn [Project._server_port].
    change (-1 <? 0) with true. cbn iota. rewrite Hshuffle.
    step_M.
    rewrite (probe_first_free env (Project.mk "" (-1)) taken p rest _ Htaken Hfree).
    cbn [fst snd fs trace fetches Project._server_ip Project._server_port]. step_M.
    (* the unit and the server *)
    rewrite (build_run _ _ _ _ Hw1). cbn [fst snd fs trace fetches]. fold g1.
    destruct (recursion_limit env) as [|depth]; [lia|].
    rewrite (download_run env depth _ _ _ _ _ Hfetch). cbn [fst snd fs trace fetches].
    fold zip_path ex_path g2.
    rewrite from_automation_installed. cbn [lift ret].
    rewrite server_to_json_run by exact Hw2'.
    cbn [fst snd fs trace fetches]. fold server_text g3.
    rewrite start_run. cbn [fst snd fs trace fetches].
    rewrite (status_active _ _ _ _ Hctl Hactive). cbn [fst snd fs trace fetches]. fold g5.
    (* the client *)
    unfold Project.set_server_ip. cbn [Project._server_port].
    rewrite gen_clients_run; [ | exact Hport | exact Hw3' ].
    cbn [Template.project Project._server_ip Project._server_port].
    fold (installed_client env d ip p). fold client_text. fold g6.
    rewrite (parse_saved _ params (User.gen env) (installed_server env d p) d ip p);
      [ | unfold g6; cbn [files]; fold (installed_client env d ip p); fold client_text;
          apply lookup_insert_eq
        | exact Hcodec
        | exact Hip ].
    fold (installed_client env d ip p). fold client_text.
    unfold Project.reset_shell. rewrite Hshell. step_M.
    unfold install_steps. fold server_text client_text zip_path ex_path.
    cbn [installed_server ServerConfig.congestion_control Py.str].
    rewrite <- !app_assoc. reflexivity. }
  destruct Hrun as (pre & Hpre & ->). cbn [fst snd fs trace].
  split; [reflexivity|]. split; [exists pre; auto|].
  assert (Hsvc1 : files g1 !! Project.service = Some Project.systemd_template).
  { unfold g1. rewrite (proj1 (keeps_service _ _)). apply lookup_insert_eq. }
  repeat split.
  - unfold g6. cbn [files]. rewrite lookup_insert_ne by discriminate.
    rewrite Hg5f by exact keeps_service. unfold g3. cbn [files].
    rewrite lookup_insert_ne by discriminate.
    rewrite Hg2f by exact keeps_service. exact Hsvc1.
  - unfold g6. cbn [files]. rewrite lookup_insert_ne by discriminate.
    rewrite Hg5f by exact keeps_server_config. unfold g3. cbn [files].
    apply lookup_insert_eq.
  - unfold g6. cbn [files]. apply lookup_insert_eq.
Qed.

End GoesWell.

(** The example disk leaves alone the files that are neither the archive
    nor the server, nor lie below them. *)
Lemma disk_effect_left_alone (p : list string) :
  p <> Project.executable -> p <> Path.of_str "/home/juicity/juicity-linux-x86_64.zip" ->
  Path.parent p <> Project.executable ->
  Path.parent p <> Path.of_str "/home/juicity/juicity-linux-x86_64.zip" ->
  left_alone Example.env_disk p.
Proof.
  intros H1 H2 H3 H4 e f. change (host_effect Example.env_disk) with Example.disk_effect.
  destruct e; cbn [Example.disk_effect]; try (split; reflexivity).
  - destruct (String.eqb dest _) eqn:E; [|split; reflexivity].
    apply String.eqb_eq in E. subst dest. split.
    + cbn [files]. now rewrite lookup_insert_ne by congruence.
    + apply (writable_insert f). congruence.
  - destruct (bool_decide _); [|split; reflexivity]. split.
    + cbn [files]. now rewrite lookup_insert_ne by congruence.
    + apply (writable_insert f). congruence.
Qed.



(** On that host the archive and the server are on disk after the
    install, beside the unit file. *)
Lemma install_example_disk :
  let f := fs (snd (Scaffold.install Example.env_disk Example.params_install Example.st_certified)) in
  Fs.is_file f Project.executable = true /\
  Fs.is_file f (Path.of_str "/home/juicity/juicity-linux-x86_64.zip") = true /\
  Fs.is_file f Project.service = true.
Proof. vm_compute. auto. Qed.
